(** * pwman: a master-password protected credential vault (work03)

    Shallow embedding of the TypeScript sources

      - [exitHandler.mts]       exit codes and [exitWith]
      - [messages.mts]          the message table
      - [utils.mts]             prompts, [validateNoControlChars], [getOption]
      - [csvSpec.mts]           [buildCsv], [parseCsvFileStrict]
      - [credentialCrypto.mts]  [deriveKey], [hashDerivedKey], [encrypt], [decrypt]
      - [db.mts], [dbState.mts] the SQLite handle and [checkDbState]
      - [master.mts]            [verifyMasterPassword], [getMasterPassword]
      - [pwman.mts]             the commands and [main]

    Conventions.  A JavaScript string is represented by the bytes of its
    UTF-8 encoding (a Rocq [string]); every string the program receives
    (argv, the terminal, a file read as utf8) is well-formed text, and the
    characters the program inspects (comma, tab, CR, LF, the BOM) are
    recognisable on the byte level.  A [Buffer] is a list of bytes.
    Functions of the Node.js runtime (node:crypto, node:path, Buffer
    codecs) are not part of the repository; they are the fields of the
    class [Node] and the theorems hold for every instance. *)

From Stdlib Require Import String Ascii List Bool Arith Lia.
From Stdlib.Strings Require Import Byte.
From Stdlib Require Import Permutation Sorted DecimalString.
Import ListNotations.
Open Scope list_scope.
Open Scope string_scope.

Set Implicit Arguments.

(* ===================================================================== *)
(** ** JavaScript string helpers *)
(* ===================================================================== *)

Definition TAB : ascii := "009"%char.
Definition LF : ascii := "010"%char.
Definition CR : ascii := "013"%char.
Definition COMMA : ascii := ","%char.

Definition chr (c : ascii) : string := String c EmptyString.

(** The double quote, for messages that quote a value. *)
Definition dquote : string := chr "034"%char.

(** [s.includes(c)] for a one-character needle. *)
Fixpoint includes (c : ascii) (s : string) : bool :=
  match s with
  | EmptyString => false
  | String a rest => Ascii.eqb a c || includes c rest
  end.

(** [s.split(sep)] for a one-character separator: never the empty list. *)
Fixpoint split (sep : ascii) (s : string) : list string :=
  match s with
  | EmptyString => [EmptyString]
  | String a rest =>
      if Ascii.eqb a sep then EmptyString :: split sep rest
      else match split sep rest with
           | [] => [chr a]
           | piece :: pieces => String a piece :: pieces
           end
  end.

(** [lines.join(sep)]. *)
Definition join (sep : ascii) (pieces : list string) : string :=
  String.concat (chr sep) pieces.

(** [s.startsWith(p)]. *)
Definition startsWith (p s : string) : bool := String.prefix p s.

(** [s.endsWith('\n')]. *)
Fixpoint endsWithLF (s : string) : bool :=
  match s with
  | EmptyString => false
  | String a EmptyString => Ascii.eqb a LF
  | String _ rest => endsWithLF rest
  end.

(** Template-literal interpolation of a number. *)
Definition show (n : nat) : string := NilEmpty.string_of_uint (Nat.to_uint n).

(** U+FEFF as the first character of a text read as utf8: EF BB BF. *)
Definition BOM : string := String "239"%char (String "187"%char (chr "191"%char)).

(* ===================================================================== *)
(** ** exitHandler.mts *)
(* ===================================================================== *)

Module ExitCode.
Inductive t : Set := OK | GENERAL_ERROR | USAGE_ERROR | AUTH_ERROR | IO_DB_ERROR.

Definition number (c : t) : nat :=
    match c with
    | OK => 0 | GENERAL_ERROR => 1 | USAGE_ERROR => 2
    | AUTH_ERROR => 3 | IO_DB_ERROR => 4
    end.

Definition eqb (a b : t) : bool := Nat.eqb (number a) (number b).
End ExitCode.

(** What [exitWith(code, message)] is called with.  The call never returns:
    it prints [message] and throws [{ code }]. *)
Record ExitCall : Set := mkExit { exit_code : ExitCode.t; exit_message : option string }.

(** Code that computes a value or leaves through [exitWith], and touches
    nothing else. *)
Definition Check (A : Type) : Type := (ExitCall + A)%type.

Definition exitWith {A} (code : ExitCode.t) (message : string) : Check A :=
  inl (mkExit code (Some message)).

(** [exitWith(code)] with no message. *)
Definition exitSilently {A} (code : ExitCode.t) : Check A :=
  inl (mkExit code None).

Definition pass {A} (a : A) : Check A := inr a.

Definition andThen {A B} (c : Check A) (k : A -> Check B) : Check B :=
  match c with
  | inl e => inl e
  | inr a => k a
  end.

Declare Scope check_scope.
Delimit Scope check_scope with check.
Notation "x <- c ;; k" := (andThen c (fun x => k))
  (at level 61, c at next level, right associativity) : check_scope.
Notation "c ;; k" := (andThen c (fun _ => k))
  (at level 61, right associativity) : check_scope.

(* ===================================================================== *)
(** ** messages.mts *)
(* ===================================================================== *)

Module Messages.
Module usage.
Definition init := "Usage: node pwman.mts init [--master <masterPassword>]".
Definition add := "Usage: node pwman.mts add <service> <username> <password> [--master <masterPassword>]".
Definition get := "Usage: node pwman.mts get <service> <username> [--master <masterPassword>]".
Definition del := "Usage: node pwman.mts del <service> <username> [--master <masterPassword>]".
Definition list := "Usage: node pwman.mts list [--asc service|username] [--desc service|username]".
Definition export := "Usage: node pwman.mts export <csvFilePath> [--master <masterPassword>]".
Definition import := "Usage: node pwman.mts import <csvFilePath> [--master <masterPassword>]".
Definition changeMaster := "Usage: node pwman.mts change-master [--old-master <oldMasterPassword>] [--new-master <newMasterPassword>]".
Definition status := "Usage: node pwman.mts status".
Definition help := "Usage:
    node pwman.mts init [--master <masterPassword>]
    node pwman.mts add <service> <username> <password> [--master <masterPassword>]
    node pwman.mts get <service> <username> [--master <masterPassword>]
    node pwman.mts del <service> <username> [--master <masterPassword>]
    node pwman.mts list [--asc service|username] [--desc service|username]
    node pwman.mts export <csvFilePath> [--master <masterPassword>]
    node pwman.mts import <csvFilePath> [--master <masterPassword>]
    node pwman.mts change-master [--old-master <oldMasterPassword>] [--new-master <newMasterPassword>]
    node pwman.mts status".
End usage.

Module errors.
Definition dbNotInitialized := "Error: DB is not initialized. Please run init first.".
Definition dbAlreadyInitialized := "Error: DB already initialized.".
Definition authFailed := "Error: Authentication failed.".
Definition masterNotSet := "Error: Master password not set.".
Definition invalidOldMaster := "Error: invalid old master password.".
Definition pwMismatch := "Error: new master passwords do not match.".
Definition emptyPassword := "Error: Password cannot be empty.".
Definition entryNotFound := "Error: Entry not found.".
Definition ioError := "Error: I/O or DB error.".
Definition controlChar := "Error: control characters are not allowed.".
Definition changeMasterFailed := "Error: change-master failed".
Definition exportTargetDir := "Error: export target must be a file path, not a directory.".
Definition exportDirNotExist (dir : string) := "Error: output directory does not exist: " ++ dir.
Definition csvCannotGenerateNewFileName (filePath : string) :=
      "Error: could not generate new file name: " ++ filePath.
Definition invalidImportLine (line : nat) := "Error: invalid import line at " ++ show line.
Definition invalidImportFormat := "Error: invalid import format".
Definition importFailed := "Error: import failed".
Definition csvExtensionRequired (label ext filePath : string) :=
      "Error: " ++ label ++ " target must end with " ++ dquote ++ ext ++ dquote ++ ": " ++ filePath.
Definition csvImportFileNotFound (filePath : string) :=
      "Error: import file not found: " ++ filePath.
Definition csvImportSourceIsDirectory (filePath : string) :=
      "Error: import source is a directory: " ++ filePath.
Definition csvBomNotAllowed (filePath : string) :=
      "Error: invalid CSV (BOM not allowed; only pwman-exported CSV is supported): " ++ filePath.
Definition csvCrlfNotAllowed (filePath : string) :=
      "Error: invalid CSV (CRLF not allowed; only pwman-exported CSV is supported): " ++ filePath.
Definition csvEmpty (filePath : string) := "Error: invalid CSV (empty): " ++ filePath.
Definition csvInvalidHeader (expected actual : string) :=
      "Error: invalid CSV header. expected " ++ dquote ++ expected ++ dquote
        ++ ", got " ++ dquote ++ actual ++ dquote.
End errors.

Module infos.
Definition dbInitialized := "DB initialized.".
Definition entryDeleted := "Deleted.".
Definition masterUnchanged := "Info: master password unchanged.".
Definition masterChanged := "Success: master password changed.".
Definition exportCanceled := "Canceled.".
Definition exportRenamedTo (file : string) := "Info: exporting to " ++ file.
Definition importCanceled := "Canceled.".
Definition initializedYes := "Initialized: yes".
Definition NoData := "No data.".
End infos.

Module prompts.
Definition enterMaster := "Enter master password: ".
Definition enterNewMaster := "Enter new master password: ".
Definition confirmNewMaster := "Confirm new master password: ".
Definition enterOldMaster := "Enter old master password: ".
Definition confirmExportConflict (file : string) :=
      "File already exists: " ++ file ++ chr LF ++ "[o] overwrite  [r] rename  [c] cancel : ".
Definition confirmImportReplace (count : nat) :=
      "This will REPLACE existing " ++ show count ++ " records. Continue? [y/n]: ".
End prompts.
End Messages.

(* ===================================================================== *)
(** ** utils.mts: validateNoControlChars *)
(* ===================================================================== *)

(** [/[\t\r\n]/.test(v)] *)
Definition CONTROL_CHAR_RE (v : string) : bool :=
  includes TAB v || includes CR v || includes LF v.

Fixpoint validateNoControlChars (values : list string) : Check unit :=
  match values with
  | [] => pass tt
  | v :: rest =>
      if CONTROL_CHAR_RE v
      then exitWith ExitCode.GENERAL_ERROR Messages.errors.controlChar
      else validateNoControlChars rest
  end.

(* ===================================================================== *)
(** ** csvSpec.mts: the codec *)
(* ===================================================================== *)

Module CsvSpec.
Definition extension := ".csv".
Definition header := "service,username,password".
Definition columns := 3.
Definition newline := LF.
End CsvSpec.

Record CsvRecord : Set := mkCsvRecord {
  csv_service : string;
  csv_username : string;
  csv_password : string
}.

(** The body of the [for (const r of records)] loop of [buildCsv],
    pushing onto [lines]. *)
Fixpoint buildLines (records : list CsvRecord) (lines : list string) : Check (list string) :=
  match records with
  | [] => pass lines
  | r :: rest =>
      (validateNoControlChars [csv_service r; csv_username r; csv_password r] ;;
       buildLines rest
         (lines ++ [csv_service r ++ "," ++ csv_username r ++ "," ++ csv_password r]%string)%list)%check
  end.

Definition buildCsv (records : list CsvRecord) : Check string :=
  (lines <- buildLines records [CsvSpec.header] ;;
   pass (join CsvSpec.newline lines))%check.

(** The [for (let i = 1; i < lines.length; i++)] loop of
    [parseCsvFileStrict]: [len] is [lines.length], [rest] the lines from
    index [i] on. *)
Fixpoint parseLines (len i : nat) (rest : list string) (records : list CsvRecord)
  : Check (list CsvRecord) :=
  match rest with
  | [] => pass records
  | line :: rest' =>
      if String.eqb line "" && Nat.eqb i (len - 1) then
        parseLines len (S i) rest' records
      else if String.eqb line "" then
        exitWith ExitCode.GENERAL_ERROR (Messages.errors.invalidImportLine (i + 1))
      else
        let parts := split COMMA line in
        if negb (Nat.eqb (List.length parts) CsvSpec.columns) then
          exitWith ExitCode.GENERAL_ERROR Messages.errors.invalidImportFormat
        else
          let service := nth 0 parts "" in
          let username := nth 1 parts "" in
          let password := nth 2 parts "" in
          (validateNoControlChars [service; username; password] ;;
           parseLines len (S i) rest'
             (records ++ [mkCsvRecord service username password])%list)%check
  end.

(** [parseCsvFileStrict] from the point where the text has been read. *)
Definition parseCsvText (filePath text : string) : Check (list CsvRecord) :=
  if startsWith BOM text then
    exitWith ExitCode.GENERAL_ERROR (Messages.errors.csvBomNotAllowed filePath)
  else if includes CR text then
    exitWith ExitCode.GENERAL_ERROR (Messages.errors.csvCrlfNotAllowed filePath)
  else
    let lines := split CsvSpec.newline text in
    if Nat.eqb (List.length lines) 0 || String.eqb (nth 0 lines "") "" then
      exitWith ExitCode.GENERAL_ERROR (Messages.errors.csvEmpty filePath)
    else if negb (String.eqb (nth 0 lines "") CsvSpec.header) then
      exitWith ExitCode.GENERAL_ERROR
        (Messages.errors.csvInvalidHeader CsvSpec.header (nth 0 lines ""))
    else
      parseLines (List.length lines) 1 (tl lines) [].

(* ===================================================================== *)
(** ** The Node.js runtime *)
(* ===================================================================== *)

Definition Buffer : Set := list byte.

(** The library functions the program calls.  [aes_256_gcm_seal key iv
    plain] is [cipher.update] + [cipher.final] + [cipher.getAuthTag] and
    yields (ciphertext, tag); [aes_256_gcm_open key iv tag encrypted] is
    [setAuthTag] + [decipher.update] + [decipher.final], [None] when it
    throws. *)
Class Node : Type := {
  pbkdf2Sync : string -> string -> nat -> nat -> string -> Buffer;
  sha256_hex : Buffer -> string;
  aes_256_gcm_seal : Buffer -> Buffer -> Buffer -> Buffer * Buffer;
  aes_256_gcm_open : Buffer -> Buffer -> Buffer -> Buffer -> option Buffer;
  toString_base64 : Buffer -> string;
  from_base64 : string -> Buffer;
  toString_hex : Buffer -> string;
  from_hex : string -> Buffer;
  path_extname : string -> string;
  path_dirname : string -> string;
  path_basename : string -> string -> string;
  path_join : string -> string -> string;
  toLowerCase : string -> string
}.

(** The contract of AES-256-GCM and of the base64 codec. *)
Class NodeLaws (N : Node) : Prop := {
  gcm_open_seal : forall key iv plain,
    List.length key = 32 ->
    aes_256_gcm_open key iv (snd (aes_256_gcm_seal key iv plain))
                     (fst (aes_256_gcm_seal key iv plain)) = Some plain;
  gcm_tag_length : forall key iv plain,
    List.length (snd (aes_256_gcm_seal key iv plain)) = 16;
  base64_round_trip : forall b, from_base64 (toString_base64 b) = b
}.

(** [buf.subarray(from, to)] and [buf.subarray(from)]. *)
Definition subarray (from to : nat) (buf : Buffer) : Buffer :=
  firstn (to - from) (skipn from buf).
Definition subarrayFrom (from : nat) (buf : Buffer) : Buffer := skipn from buf.

(* ===================================================================== *)
(** ** The persisted store and the process state *)
(* ===================================================================== *)

(** A row of table [master] and a row of table [credentials]
    (SCHEMA_SQL in db.mts). *)
Record MasterRow : Set := mkMaster { id : nat; password_hash : string; salt : string }.
Record Credential : Set := mkCredential { service : string; username : string; password : string }.

(** The content of the SQLite file: what [PRAGMA integrity_check] reports
    ([None]: the pragma throws or yields no row) and the two tables
    ([None]: the table does not exist), rows in rowid order. *)
Record Database : Set := mkDatabase {
  integrity_check : option string;
  master : option (list MasterRow);
  credentials : option (list Credential)
}.

(** What [new DatabaseSync(path)] creates when the file does not exist. *)
Definition emptyDatabase : Database := mkDatabase (Some "ok") None None.

Inductive FsEntry : Set := File (content : string) | Directory.

(** One answer of the operator at a prompt: the text that the prompt
    resolves with, or Ctrl+C.  The echo of the typed characters is not
    recorded. *)
Inductive Key : Set := Typed (text : string) | CtrlC.

(** [disk] is the committed content of DB_PATH ([None]: no such file), the
    state that survives the process; [txn] the working copy between BEGIN
    and COMMIT.  [entropy] feeds [crypto.randomBytes]; [write_fault n]
    tells whether the storage engine fails on the [n]-th statement that
    the process executes. *)
Record State : Type := mkState {
  disk : option Database;
  txn : option Database;
  fs : string -> option FsEntry;
  stdin : list Key;
  entropy : nat -> byte;
  drawn : nat;
  write_fault : nat -> bool;
  written : nat;
  stdout : list string;
  stderr : list string
}.

Definition set_disk (d : option Database) (s : State) : State :=
  mkState d (txn s) (fs s) (stdin s) (entropy s) (drawn s) (write_fault s) (written s)
          (stdout s) (stderr s).
Definition set_txn (t : option Database) (s : State) : State :=
  mkState (disk s) t (fs s) (stdin s) (entropy s) (drawn s) (write_fault s) (written s)
          (stdout s) (stderr s).
Definition set_fs (f : string -> option FsEntry) (s : State) : State :=
  mkState (disk s) (txn s) f (stdin s) (entropy s) (drawn s) (write_fault s) (written s)
          (stdout s) (stderr s).
Definition set_stdin (k : list Key) (s : State) : State :=
  mkState (disk s) (txn s) (fs s) k (entropy s) (drawn s) (write_fault s) (written s)
          (stdout s) (stderr s).
Definition set_drawn (n : nat) (s : State) : State :=
  mkState (disk s) (txn s) (fs s) (stdin s) (entropy s) n (write_fault s) (written s)
          (stdout s) (stderr s).
Definition set_written (n : nat) (s : State) : State :=
  mkState (disk s) (txn s) (fs s) (stdin s) (entropy s) (drawn s) (write_fault s) n
          (stdout s) (stderr s).
Definition write_stdout (text : string) (s : State) : State :=
  mkState (disk s) (txn s) (fs s) (stdin s) (entropy s) (drawn s) (write_fault s) (written s)
          (stdout s ++ [text])%list (stderr s).
Definition write_stderr (text : string) (s : State) : State :=
  mkState (disk s) (txn s) (fs s) (stdin s) (entropy s) (drawn s) (write_fault s) (written s)
          (stdout s) (stderr s ++ [text])%list.

(** What a [throw] carries: the [{ code }] of [exitWith], or an Error. *)
Inductive Thrown : Set :=
| ExitSignal (code : ExitCode.t)
| JsError (message : string).

(** How a computation ends: it returns, it throws, it calls
    [process.exit] directly, or it awaits a key that never comes. *)
Inductive Result (A : Type) : Type :=
| Ret (a : A)
| Throw (e : Thrown)
| Exit (code : nat)
| Pending.
Arguments Ret {A} a.
Arguments Throw {A} e.
Arguments Exit {A} code.
Arguments Pending {A}.

Definition M (A : Type) : Type := State -> Result A * State.

Definition ret {A} (a : A) : M A := fun s => (Ret a, s).

Definition bind {A B} (m : M A) (k : A -> M B) : M B := fun s =>
  match m s with
  | (Ret a, s') => k a s'
  | (Throw e, s') => (Throw e, s')
  | (Exit c, s') => (Exit c, s')
  | (Pending, s') => (Pending, s')
  end.

Definition throw {A} (e : Thrown) : M A := fun s => (Throw e, s).

(** [try { body } catch (e) { handler }] *)
Definition tryCatch {A} (body : M A) (handler : Thrown -> M A) : M A := fun s =>
  match body s with
  | (Throw e, s') => handler e s'
  | r => r
  end.

Declare Scope run_scope.
Delimit Scope run_scope with run.
Notation "x <- c ;; k" := (bind c (fun x => k))
  (at level 61, c at next level, right associativity) : run_scope.
Notation "c ;; k" := (bind c (fun _ => k))
  (at level 61, right associativity) : run_scope.

(** [message.endsWith('\n') ? message : message + '\n'] *)
Definition printed (message : string) : string :=
  if endsWithLF message then message else message ++ chr LF.

(** [exitWith] as the process runs it: the message goes to stdout (code
    OK) or stderr with a final newline, then [{ code }] is thrown. *)
Definition lift {A} (c : Check A) : M A := fun s =>
  match c with
  | inr a => (Ret a, s)
  | inl e =>
      let s' :=
        match exit_message e with
        | None => s
        | Some message =>
            if String.eqb message "" then s
            else
              let text := printed message in
              if ExitCode.eqb (exit_code e) ExitCode.OK
              then write_stdout text s else write_stderr text s
        end in
      (Throw (ExitSignal (exit_code e)), s')
  end.

(** [console.log(line)] *)
Definition console_log (line : string) : M unit := fun s =>
  (Ret tt, write_stdout (line ++ chr LF) s).

(** [console.error(...)] *)
Definition console_error (line : string) : M unit := fun s =>
  (Ret tt, write_stderr (line ++ chr LF) s).

(** [crypto.randomBytes(n)] *)
Definition randomBytes (n : nat) : M Buffer := fun s =>
  (Ret (map (entropy s) (seq (drawn s) n)), set_drawn (drawn s + n) s).

(** The DB states of dbState.mts. *)
Module DbState.
Inductive t : Set := NO_DB | UNINITIALIZED | READY | CORRUPTED.
End DbState.

(* ===================================================================== *)
(** ** credentialCrypto.mts *)
(* ===================================================================== *)

Section Program.
Context {N : Node}.

Local Open Scope run_scope.

Definition ITERATIONS := 100 * 1000.
Definition KEY_LEN := 32.
Definition DIGEST := "sha256".

Definition deriveKey (masterPw salt : string) : Buffer :=
  pbkdf2Sync masterPw salt ITERATIONS KEY_LEN DIGEST.

Definition hashDerivedKey (key : Buffer) : string := sha256_hex key.

(** [crypto.createCipheriv('aes-256-gcm', key, iv)] and
    [createDecipheriv]: a key that is not 32 bytes long is refused. *)
Definition requireKeyLength (key : Buffer) : M unit :=
  if Nat.eqb (List.length key) 32 then ret tt
  else throw (JsError "Invalid key length").

Definition encrypt (plain : string) (key : Buffer) : M string :=
  iv <- randomBytes 12 ;;
  requireKeyLength key ;;
  let sealed := aes_256_gcm_seal key iv (list_byte_of_string plain) in
  let encrypted := fst sealed in
  let tag := snd sealed in
  ret (toString_base64 (iv ++ tag ++ encrypted)%list).

Definition decrypt (cipherText : string) (key : Buffer) : M string :=
  let data := from_base64 cipherText in
  let iv := subarray 0 12 data in
  let tag := subarray 12 28 data in
  let encrypted := subarrayFrom 28 data in
  requireKeyLength key ;;
  match aes_256_gcm_open key iv tag encrypted with
  | Some plain => ret (string_of_list_byte plain)
  | None => throw (JsError "Unsupported state or unable to authenticate data")
  end.

(* ===================================================================== *)
(** ** node:sqlite over the two tables *)
(* ===================================================================== *)

Inductive DatabaseSync : Set := Handle.

(** The statements that the program executes. *)
Inductive Sql : Set :=
| BEGIN
| COMMIT
| ROLLBACK
| SCHEMA_SQL
| INSERT_master (hash salt_ : string)
| UPDATE_master (hash salt_ : string)
| INSERT_credentials (service_ username_ password_ : string)
| DELETE_credentials
| DELETE_credentials_where (service_ username_ : string).

Definition isMasterId (r : MasterRow) : bool := Nat.eqb (id r) 1.

Definition sameKey (service_ username_ : string) (r : Credential) : bool :=
  String.eqb (service r) service_ && String.eqb (username r) username_.

(** The effect of a data statement on the tables: the new content and
    the number of changed rows, or the message of the SQLite error. *)
Definition applySql (q : Sql) (d : Database) : string + (Database * nat) :=
  match q with
  | BEGIN | COMMIT | ROLLBACK => inr (d, 0)
  | SCHEMA_SQL =>
      inr (mkDatabase (integrity_check d)
             (match master d with None => Some [] | Some rows => Some rows end)
             (match credentials d with None => Some [] | Some rows => Some rows end), 0)
  | INSERT_master hash salt_ =>
      match master d with
      | None => inl "no such table: master"
      | Some rows =>
          if existsb isMasterId rows then inl "UNIQUE constraint failed: master.id"
          else inr (mkDatabase (integrity_check d)
                      (Some (rows ++ [mkMaster 1 hash salt_])%list) (credentials d), 1)
      end
  | UPDATE_master hash salt_ =>
      match master d with
      | None => inl "no such table: master"
      | Some rows =>
          inr (mkDatabase (integrity_check d)
                 (Some (map (fun r => if isMasterId r then mkMaster 1 hash salt_ else r) rows))
                 (credentials d),
               List.length (filter isMasterId rows))
      end
  | INSERT_credentials service_ username_ password_ =>
      match credentials d with
      | None => inl "no such table: credentials"
      | Some rows =>
          if existsb (sameKey service_ username_) rows
          then inl "UNIQUE constraint failed: credentials.service, credentials.username"
          else inr (mkDatabase (integrity_check d) (master d)
                      (Some (rows ++ [mkCredential service_ username_ password_])%list), 1)
      end
  | DELETE_credentials =>
      match credentials d with
      | None => inl "no such table: credentials"
      | Some rows => inr (mkDatabase (integrity_check d) (master d) (Some []), List.length rows)
      end
  | DELETE_credentials_where service_ username_ =>
      match credentials d with
      | None => inl "no such table: credentials"
      | Some rows =>
          inr (mkDatabase (integrity_check d) (master d)
                 (Some (filter (fun r => negb (sameKey service_ username_ r)) rows)),
               List.length (filter (sameKey service_ username_) rows))
      end
  end.

(** What the connection sees: the working copy inside a transaction,
    the committed content outside. *)
Definition view (s : State) : option Database :=
  match txn s with
  | Some d => Some d
  | None => disk s
  end.

(** [db.exec(sql)] and [db.prepare(sql).run(...)]: the number of changed
    rows.  Outside a transaction a statement commits at once. *)
Definition execute (db : DatabaseSync) (q : Sql) : M nat := fun s =>
  let s1 := set_written (S (written s)) s in
  if write_fault s (written s) then (Throw (JsError "disk I/O error"), s1)
  else
    match q with
    | BEGIN =>
        match txn s1, disk s1 with
        | Some _, _ => (Throw (JsError "cannot start a transaction within a transaction"), s1)
        | None, Some d => (Ret 0, set_txn (Some d) s1)
        | None, None => (Throw (JsError "unable to open database file"), s1)
        end
    | COMMIT =>
        match txn s1 with
        | Some d => (Ret 0, set_txn None (set_disk (Some d) s1))
        | None => (Throw (JsError "cannot commit - no transaction is active"), s1)
        end
    | ROLLBACK =>
        match txn s1 with
        | Some _ => (Ret 0, set_txn None s1)
        | None => (Throw (JsError "cannot rollback - no transaction is active"), s1)
        end
    | _ =>
        match view s1 with
        | None => (Throw (JsError "unable to open database file"), s1)
        | Some d =>
            match applySql q d with
            | inl message => (Throw (JsError message), s1)
            | inr (d', changes) =>
                (Ret changes,
                 match txn s1 with
                 | Some _ => set_txn (Some d') s1
                 | None => set_disk (Some d') s1
                 end)
            end
        end
    end.

(** [db.prepare(sql).get()] and [.all()] of a SELECT. *)
Definition query {A} (db : DatabaseSync) (select : Database -> string + A) : M A := fun s =>
  match view s with
  | None => (Throw (JsError "unable to open database file"), s)
  | Some d =>
      match select d with
      | inl message => (Throw (JsError message), s)
      | inr a => (Ret a, s)
      end
  end.

(** [SELECT password_hash, salt FROM master WHERE id = 1] *)
Definition SELECT_master (d : Database) : string + option MasterRow :=
  match master d with
  | None => inl "no such table: master"
  | Some rows => inr (find isMasterId rows)
  end.

(** [SELECT COUNT( * ) as count FROM master] *)
Definition SELECT_COUNT_master (d : Database) : string + nat :=
  match master d with
  | None => inl "no such table: master"
  | Some rows => inr (List.length rows)
  end.

(** [SELECT service, username, password FROM credentials] *)
Definition SELECT_credentials (d : Database) : string + list Credential :=
  match credentials d with
  | None => inl "no such table: credentials"
  | Some rows => inr rows
  end.

(** [SELECT COUNT( * ) AS count FROM credentials] *)
Definition SELECT_COUNT_credentials (d : Database) : string + nat :=
  match credentials d with
  | None => inl "no such table: credentials"
  | Some rows => inr (List.length rows)
  end.

(** [SELECT password FROM credentials WHERE service=? AND username=?] *)
Definition SELECT_password (service_ username_ : string) (d : Database)
  : string + option string :=
  match credentials d with
  | None => inl "no such table: credentials"
  | Some rows => inr (option_map password (find (sameKey service_ username_) rows))
  end.

(** [ORDER BY column ASC|DESC]: a stable sort of the rows on the bytes of
    the column (the BINARY collation). *)
Fixpoint insertSorted (le : Credential -> Credential -> bool) (r : Credential)
  (sorted : list Credential) : list Credential :=
  match sorted with
  | [] => [r]
  | x :: rest => if le r x then r :: x :: rest else x :: insertSorted le r rest
  end.

Definition orderRows (le : Credential -> Credential -> bool) (rows : list Credential)
  : list Credential :=
  fold_right (insertSorted le) [] rows.

Definition columnOf (orderBy : string) (r : Credential) : string :=
  if String.eqb orderBy "username" then username r else service r.

Definition rowOrder (orderBy order : string) (a b : Credential) : bool :=
  if String.eqb order "DESC"
  then String.leb (columnOf orderBy b) (columnOf orderBy a)
  else String.leb (columnOf orderBy a) (columnOf orderBy b).

(** [SELECT service, username FROM credentials ORDER BY ${orderBy} ${order}] *)
Definition SELECT_ordered (orderBy order : string) (d : Database)
  : string + list (string * string) :=
  match credentials d with
  | None => inl "no such table: credentials"
  | Some rows =>
      inr (map (fun r => (service r, username r)) (orderRows (rowOrder orderBy order) rows))
  end.

(** [SELECT name FROM sqlite_master WHERE type='table' AND name=?] *)
Definition SELECT_sqlite_master (name : string) (d : Database) : string + bool :=
  inr (if String.eqb name "master" then
         match master d with Some _ => true | None => false end
       else if String.eqb name "credentials" then
         match credentials d with Some _ => true | None => false end
       else false).

(** [PRAGMA integrity_check] *)
Definition PRAGMA_integrity_check (d : Database) : string + string :=
  match integrity_check d with
  | None => inl "database disk image is malformed"
  | Some verdict => inr verdict
  end.

(* ===================================================================== *)
(** ** db.mts *)
(* ===================================================================== *)

(** [fs.existsSync(DB_PATH)] *)
Definition existsSync_DB_PATH : M bool := fun s =>
  (Ret (match disk s with Some _ => true | None => false end), s).

(** [new DatabaseSync(DB_PATH)] creates the file when there is none. *)
Definition openDb : M DatabaseSync := fun s =>
  match disk s with
  | Some _ => (Ret Handle, s)
  | None => (Ret Handle, set_disk (Some emptyDatabase) s)
  end.

Definition ensureDbExists : M unit :=
  present <- existsSync_DB_PATH ;;
  if negb present
  then lift (exitWith ExitCode.IO_DB_ERROR Messages.errors.dbNotInitialized)
  else ret tt.

(* ===================================================================== *)
(** ** dbState.mts *)
(* ===================================================================== *)

Definition tableExists (name : string) : M bool :=
  db <- openDb ;;
  query db (SELECT_sqlite_master name).

Definition checkDbState : M DbState.t :=
  present <- existsSync_DB_PATH ;;
  if negb present then ret DbState.NO_DB
  else
    db <- openDb ;;
    early <- tryCatch
               (row <- query db PRAGMA_integrity_check ;;
                if negb (String.eqb row "ok") then ret (Some DbState.CORRUPTED)
                else ret None)
               (fun _ => ret (Some DbState.CORRUPTED)) ;;
    match early with
    | Some state => ret state
    | None =>
        hasMaster <- tableExists "master" ;;
        hasCredentials <- tableExists "credentials" ;;
        if negb hasMaster && negb hasCredentials then ret DbState.UNINITIALIZED
        else if negb (Bool.eqb hasMaster hasCredentials) then ret DbState.CORRUPTED
        else
          count <- query db SELECT_COUNT_master ;;
          if Nat.eqb count 0 then ret DbState.UNINITIALIZED
          else if Nat.eqb count 1 then ret DbState.READY
          else ret DbState.CORRUPTED
    end.

Definition requireReadyState : M unit :=
  state <- checkDbState ;;
  match state with
  | DbState.NO_DB | DbState.UNINITIALIZED =>
      lift (exitWith ExitCode.IO_DB_ERROR "Database not initialized.")
  | DbState.CORRUPTED =>
      lift (exitWith ExitCode.IO_DB_ERROR "Database corrupted.")
  | DbState.READY => ret tt
  end.


(* ===================================================================== *)
(** ** utils.mts: prompts and options *)
(* ===================================================================== *)

(** [askPassword(prompt)]: the prompt is written, then the operator's
    next answer resolves the promise; Ctrl+C is [process.exit(1)]. *)
Definition askPassword (prompt : string) : M string := fun s =>
  let s1 := write_stdout prompt s in
  match stdin s1 with
  | [] => (Pending, s1)
  | CtrlC :: rest => (Exit 1, set_stdin rest s1)
  | Typed text :: rest => (Ret text, write_stdout (chr LF) (set_stdin rest s1))
  end.

(** The [while (true)] of [askChoice]: it asks again until a key of the
    allowed set is pressed. *)
Fixpoint askChoiceLoop (prompt : string) (allowedSet : list string) (keys : list Key)
  : M string := fun s =>
  let s1 := write_stdout prompt s in
  match keys with
  | [] => (Pending, set_stdin [] s1)
  | CtrlC :: rest => (Exit 1, set_stdin rest s1)
  | Typed input :: rest =>
      let s2 := write_stdout (input ++ chr LF) (set_stdin rest s1) in
      if existsb (String.eqb input) allowedSet then (Ret input, s2)
      else askChoiceLoop prompt allowedSet rest s2
  end.

Definition askChoice (prompt : string) (allowed : list string) : M string := fun s =>
  askChoiceLoop prompt (map toLowerCase allowed) (stdin s) s.

(** [args[i]]: [None] is [undefined]. *)
Definition arg (args : list string) (i : nat) : option string := nth_error args i.

(** [args[i]] read as a string where the program has checked the length. *)
Definition argText (args : list string) (i : nat) : string := nth i args "".

(** A value used as a condition: [undefined] and the empty string are
    falsy. *)
Definition truthy (v : option string) : bool :=
  match v with
  | Some text => negb (String.eqb text "")
  | None => false
  end.

Fixpoint getOption (args : list string) (name : string) : option string :=
  match args with
  | [] => None
  | a :: rest =>
      if String.eqb a name then
        (if truthy (arg rest 0) then arg rest 0 else None)
      else getOption rest name
  end.

(* ===================================================================== *)
(** ** master.mts *)
(* ===================================================================== *)

Fixpoint bufferEqb (a b : Buffer) : bool :=
  match a, b with
  | [], [] => true
  | x :: a', y :: b' => Byte.eqb x y && bufferEqb a' b'
  | _, _ => false
  end.

(** [crypto.timingSafeEqual(a, b)] throws on buffers of different length. *)
Definition timingSafeEqual (a b : Buffer) : M bool :=
  if Nat.eqb (List.length a) (List.length b) then ret (bufferEqb a b)
  else throw (JsError "Input buffers must have the same byte length").

Definition verifyMasterPassword (inputPw : string) (db : DatabaseSync) : M bool :=
  row <- query db SELECT_master ;;
  match row with
  | None => lift (exitWith ExitCode.GENERAL_ERROR Messages.errors.masterNotSet)
  | Some r =>
      let key := deriveKey inputPw (salt r) in
      let hash := hashDerivedKey key in
      timingSafeEqual (from_hex hash) (from_hex (password_hash r))
  end.

Definition getMasterPassword (args : list string) (argIndex : nat) : M string :=
  if match arg args argIndex with Some a => String.eqb a "--master" | None => false end
     && truthy (arg args (argIndex + 1))
  then ret (argText args (argIndex + 1))
  else askPassword Messages.prompts.enterMaster.

Definition askNewMasterWithConfirm : M string :=
  pw1 <- askPassword Messages.prompts.enterNewMaster ;;
  pw2 <- askPassword Messages.prompts.confirmNewMaster ;;
  if negb (String.eqb pw1 pw2)
  then lift (exitWith ExitCode.USAGE_ERROR Messages.errors.pwMismatch)
  else ret pw1.

Definition getMasterSalt (db : DatabaseSync) : M string :=
  row <- query db SELECT_master ;;
  match row with
  | None => lift (exitWith ExitCode.GENERAL_ERROR Messages.errors.masterNotSet)
  | Some r => ret (salt r)
  end.

(* ===================================================================== *)
(** ** csvSpec.mts: files *)
(* ===================================================================== *)

Definition existsSync (path : string) : M bool := fun s =>
  (Ret (match fs s path with Some _ => true | None => false end), s).

(** [fs.statSync(path).isDirectory()] *)
Definition isDirectory (path : string) : M bool := fun s =>
  match fs s path with
  | Some Directory => (Ret true, s)
  | Some (File _) => (Ret false, s)
  | None => (Throw (JsError "ENOENT: no such file or directory"), s)
  end.

(** [fs.readFileSync(path, 'utf8')] *)
Definition readFileSync (path : string) : M string := fun s =>
  match fs s path with
  | Some (File content) => (Ret content, s)
  | Some Directory => (Throw (JsError "EISDIR: illegal operation on a directory"), s)
  | None => (Throw (JsError "ENOENT: no such file or directory"), s)
  end.

Definition writeFileSync (path content : string) : M unit := fun s =>
  match fs s path with
  | Some Directory => (Throw (JsError "EISDIR: illegal operation on a directory"), s)
  | _ => (Ret tt, set_fs (fun p => if String.eqb p path then Some (File content) else fs s p) s)
  end.

Definition renameSync (oldPath newPath : string) : M unit := fun s =>
  match fs s oldPath with
  | None => (Throw (JsError "ENOENT: no such file or directory"), s)
  | Some entry =>
      (Ret tt, set_fs (fun p => if String.eqb p newPath then Some entry
                                else if String.eqb p oldPath then None
                                else fs s p) s)
  end.

Definition requireCsvExtension (filePath label : string) : Check unit :=
  let ext := toLowerCase (path_extname filePath) in
  if negb (String.eqb ext CsvSpec.extension)
  then exitWith ExitCode.USAGE_ERROR
         (Messages.errors.csvExtensionRequired label CsvSpec.extension filePath)
  else pass tt.

Definition requireExistingFile (filePath : string) : M unit :=
  present <- existsSync filePath ;;
  (if negb present
   then lift (exitWith ExitCode.IO_DB_ERROR (Messages.errors.csvImportFileNotFound filePath))
   else ret tt) ;;
  dir <- isDirectory filePath ;;
  if dir
  then lift (exitWith ExitCode.USAGE_ERROR (Messages.errors.csvImportSourceIsDirectory filePath))
  else ret tt.

Definition validateExportTargetPath (csvPath : string) : M unit :=
  lift (requireCsvExtension csvPath "export") ;;
  present <- existsSync csvPath ;;
  dir <- (if present then isDirectory csvPath else ret false) ;;
  (if dir then lift (exitWith ExitCode.USAGE_ERROR Messages.errors.exportTargetDir)
   else ret tt) ;;
  let dir := path_dirname csvPath in
  dirPresent <- existsSync dir ;;
  if negb dirPresent
  then lift (exitWith ExitCode.IO_DB_ERROR (Messages.errors.exportDirNotExist dir))
  else ret tt.

(** The [for (let i = 1; i <= 9999; i++)] of [suggestNonConflictingPath];
    [left] counts the candidates still to try. *)
Fixpoint suggestFrom (csvPath dir base ext : string) (left i : nat) : M string :=
  match left with
  | 0 => lift (exitWith ExitCode.IO_DB_ERROR
                 (Messages.errors.csvCannotGenerateNewFileName csvPath))
  | S left' =>
      let candidate := path_join dir (base ++ " (" ++ show i ++ ")" ++ ext) in
      present <- existsSync candidate ;;
      if negb present then ret candidate
      else suggestFrom csvPath dir base ext left' (S i)
  end.

Definition suggestNonConflictingPath (csvPath : string) : M string :=
  let dir := path_dirname csvPath in
  let ext := path_extname csvPath in
  let base := path_basename csvPath ext in
  suggestFrom csvPath dir base ext (9 * 1111) 1.

Definition parseCsvFileStrict (filePath : string) : M (list CsvRecord) :=
  lift (requireCsvExtension filePath "import") ;;
  requireExistingFile filePath ;;
  text <- readFileSync filePath ;;
  lift (parseCsvText filePath text).

(* ===================================================================== *)
(** ** pwman.mts: the commands *)
(* ===================================================================== *)

(** [e?.message ?? String(e)] *)
Definition errorText (e : Thrown) : string :=
  match e with
  | JsError message => message
  | ExitSignal _ => "[object Object]"
  end.

(** [e?.message?.includes(needle)] *)
Definition messageIncludes (needle : string) (e : Thrown) : bool :=
  match e with
  | JsError message =>
      match String.index 0 needle message with Some _ => true | None => false end
  | ExitSignal _ => false
  end.

(** [try { db.exec('ROLLBACK'); } catch {}] *)
Definition tryRollback (db : DatabaseSync) : M unit :=
  tryCatch (execute db ROLLBACK ;; ret tt) (fun _ => ret tt).

(** [crypto.randomBytes(16).toString('hex')] *)
Definition freshSalt : M string :=
  bytes <- randomBytes 16 ;;
  ret (toString_hex bytes).

Definition cmdInit (args : list string) : M unit :=
  let len := List.length args in
  (if negb (Nat.eqb len 1
            || (Nat.eqb len 3 && String.eqb (argText args 1) "--master"))
   then lift (exitWith ExitCode.USAGE_ERROR Messages.usage.init) else ret tt) ;;
  state <- checkDbState ;;
  (match state with
   | DbState.READY => lift (exitWith ExitCode.GENERAL_ERROR Messages.errors.dbAlreadyInitialized)
   | DbState.CORRUPTED => lift (exitWith ExitCode.IO_DB_ERROR "Database corrupted.")
   | _ => ret tt
   end) ;;
  masterPw <- (if Nat.eqb len 3 then ret (argText args 2) else askNewMasterWithConfirm) ;;
  (if String.eqb masterPw ""
   then lift (exitWith ExitCode.USAGE_ERROR Messages.errors.emptyPassword) else ret tt) ;;
  db <- openDb ;;
  tryCatch
    (execute db BEGIN ;;
     execute db SCHEMA_SQL ;;
     salt_ <- freshSalt ;;
     let key := deriveKey masterPw salt_ in
     let hash := hashDerivedKey key in
     execute db (INSERT_master hash salt_) ;;
     execute db COMMIT ;;
     ret tt)
    (fun err => execute db ROLLBACK ;; throw err) ;;
  lift (exitWith ExitCode.OK Messages.infos.dbInitialized).

Definition cmdAdd (args : list string) : M unit :=
  let len := List.length args in
  (if negb (Nat.eqb len 4 || Nat.eqb len 6)
   then lift (exitWith ExitCode.USAGE_ERROR Messages.usage.add) else ret tt) ;;
  requireReadyState ;;
  let service_ := argText args 1 in
  let username_ := argText args 2 in
  let password_ := argText args 3 in
  masterPw <- getMasterPassword args 4 ;;
  lift (validateNoControlChars [service_; username_; password_]) ;;
  db <- openDb ;;
  verified <- verifyMasterPassword masterPw db ;;
  (if negb verified
   then lift (exitWith ExitCode.AUTH_ERROR Messages.errors.authFailed) else ret tt) ;;
  salt_ <- getMasterSalt db ;;
  let key := deriveKey masterPw salt_ in
  encrypted <- encrypt password_ key ;;
  tryCatch
    (execute db BEGIN ;;
     execute db (INSERT_credentials service_ username_ encrypted) ;;
     execute db COMMIT ;;
     ret tt)
    (fun e =>
       tryRollback db ;;
       (if messageIncludes "UNIQUE constraint failed" e
        then lift (exitWith ExitCode.GENERAL_ERROR
                     ("Entry already exists: " ++ service_ ++ " " ++ username_))
        else ret tt) ;;
       lift (exitWith ExitCode.IO_DB_ERROR Messages.errors.ioError)) ;;
  lift (exitWith ExitCode.OK ("Added: " ++ service_ ++ " " ++ username_)).

Definition cmdGet (args : list string) : M unit :=
  (if Nat.ltb (List.length args) 3
   then lift (exitWith ExitCode.USAGE_ERROR Messages.usage.get) else ret tt) ;;
  requireReadyState ;;
  let service_ := argText args 1 in
  let username_ := argText args 2 in
  masterPw <- getMasterPassword args 3 ;;
  db <- openDb ;;
  verified <- verifyMasterPassword masterPw db ;;
  (if negb verified
   then lift (exitWith ExitCode.AUTH_ERROR Messages.errors.authFailed) else ret tt) ;;
  row <- query db (SELECT_password service_ username_) ;;
  match row with
  | None => lift (exitWith ExitCode.GENERAL_ERROR Messages.errors.entryNotFound)
  | Some stored =>
      salt_ <- getMasterSalt db ;;
      let key := deriveKey masterPw salt_ in
      decrypted <- decrypt stored key ;;
      lift (exitWith ExitCode.OK (service_ ++ ", " ++ username_ ++ ", " ++ decrypted))
  end.

Definition cmdDel (args : list string) : M unit :=
  (if Nat.ltb (List.length args) 3
   then lift (exitWith ExitCode.USAGE_ERROR Messages.usage.del) else ret tt) ;;
  requireReadyState ;;
  let service_ := argText args 1 in
  let username_ := argText args 2 in
  masterPw <- getMasterPassword args 3 ;;
  db <- openDb ;;
  verified <- verifyMasterPassword masterPw db ;;
  (if negb verified
   then lift (exitWith ExitCode.AUTH_ERROR Messages.errors.authFailed) else ret tt) ;;
  tryCatch
    (execute db BEGIN ;;
     changes <- execute db (DELETE_credentials_where service_ username_) ;;
     (if Nat.eqb changes 0
      then execute db ROLLBACK ;;
           lift (exitWith ExitCode.GENERAL_ERROR Messages.errors.entryNotFound)
      else ret tt) ;;
     execute db COMMIT ;;
     ret tt)
    (fun e =>
       tryRollback db ;;
       lift (exitWith ExitCode.IO_DB_ERROR ("Error accessing DB: " ++ errorText e))) ;;
  lift (exitWith ExitCode.OK Messages.infos.entryDeleted).

(** [rows.forEach(r => console.log(...))] *)
Fixpoint printRows (rows : list (string * string)) : M unit :=
  match rows with
  | [] => ret tt
  | (service_, username_) :: rest =>
      console_log (service_ ++ " " ++ username_) ;;
      printRows rest
  end.

Definition cmdList (args : list string) : M unit :=
  let len := List.length args in
  (if negb (Nat.eqb len 1 || Nat.eqb len 3)
   then lift (exitWith ExitCode.USAGE_ERROR Messages.usage.list) else ret tt) ;;
  requireReadyState ;;
  sorting <-
    (if Nat.eqb len 3 then
       let flag := argText args 1 in
       let column := argText args 2 in
       (if negb (existsb (String.eqb flag) ["--asc"; "--desc"])
           || negb (existsb (String.eqb column) ["service"; "username"])
        then lift (exitWith ExitCode.USAGE_ERROR Messages.usage.list) else ret tt) ;;
       ret (column, if String.eqb flag "--desc" then "DESC" else "ASC")
     else ret ("service", "ASC")) ;;
  let orderBy := fst sorting in
  let order := snd sorting in
  db <- openDb ;;
  rows <- query db (SELECT_ordered orderBy order) ;;
  (if Nat.eqb (List.length rows) 0
   then lift (exitWith ExitCode.OK Messages.infos.NoData)
   else printRows rows) ;;
  lift (exitSilently ExitCode.OK).

Definition cmdStatus (args : list string) : M unit :=
  (if negb (Nat.eqb (List.length args) 1)
   then lift (exitWith ExitCode.USAGE_ERROR Messages.usage.status) else ret tt) ;;
  ensureDbExists ;;
  tryCatch
    (db <- openDb ;;
     count <- query db SELECT_COUNT_credentials ;;
     console_log Messages.infos.initializedYes ;;
     console_log ("Entries: " ++ show count))
    (fun e =>
       lift (exitWith ExitCode.IO_DB_ERROR ("Error accessing DB: " ++ errorText e))) ;;
  lift (exitSilently ExitCode.OK).

(** [rows.map(r => ({ ..., password: decrypt(r.password, key) }))] *)
Fixpoint decryptRows (rows : list Credential) (key : Buffer) : M (list CsvRecord) :=
  match rows with
  | [] => ret []
  | r :: rest =>
      plain <- decrypt (password r) key ;;
      others <- decryptRows rest key ;;
      ret (mkCsvRecord (service r) (username r) plain :: others)
  end.

Definition cmdExport (args : list string) : M unit :=
  let len := List.length args in
  (if negb (Nat.eqb len 2 || Nat.eqb len 4)
   then lift (exitWith ExitCode.USAGE_ERROR Messages.usage.export) else ret tt) ;;
  requireReadyState ;;
  let requestedPath := argText args 1 in
  validateExportTargetPath requestedPath ;;
  conflict <- existsSync requestedPath ;;
  csvPath <-
    (if conflict then
       choice <- askChoice (Messages.prompts.confirmExportConflict requestedPath)
                   ["o"; "r"; "c"] ;;
       (if String.eqb choice "c"
        then lift (exitWith ExitCode.OK Messages.infos.exportCanceled) else ret tt) ;;
       if String.eqb choice "r" then
         renamed <- suggestNonConflictingPath requestedPath ;;
         validateExportTargetPath renamed ;;
         console_log (Messages.infos.exportRenamedTo renamed) ;;
         ret renamed
       else ret requestedPath
     else ret requestedPath) ;;
  let tmpPath := csvPath ++ ".tmp" in
  masterPw <- getMasterPassword args 2 ;;
  db <- openDb ;;
  verified <- verifyMasterPassword masterPw db ;;
  (if negb verified
   then lift (exitWith ExitCode.AUTH_ERROR Messages.errors.authFailed) else ret tt) ;;
  salt_ <- getMasterSalt db ;;
  let key := deriveKey masterPw salt_ in
  rows <- query db SELECT_credentials ;;
  plainRows <- decryptRows rows key ;;
  csv <- lift (buildCsv plainRows) ;;
  writeFileSync tmpPath csv ;;
  renameSync tmpPath csvPath ;;
  lift (exitWith ExitCode.OK ("Success: Exported to " ++ csvPath)).

(** [for (const r of records) insert.run(r.service, r.username,
    encrypt(r.password, key))] *)
Fixpoint insertEncrypted (db : DatabaseSync) (records : list CsvRecord) (key : Buffer)
  : M unit :=
  match records with
  | [] => ret tt
  | r :: rest =>
      encrypted <- encrypt (csv_password r) key ;;
      execute db (INSERT_credentials (csv_service r) (csv_username r) encrypted) ;;
      insertEncrypted db rest key
  end.

Definition cmdImport (args : list string) : M unit :=
  let len := List.length args in
  (if negb (Nat.eqb len 2 || Nat.eqb len 4)
   then lift (exitWith ExitCode.USAGE_ERROR Messages.usage.import) else ret tt) ;;
  requireReadyState ;;
  let filePath := argText args 1 in
  masterPw <- getMasterPassword args 2 ;;
  db <- openDb ;;
  verified <- verifyMasterPassword masterPw db ;;
  (if negb verified
   then lift (exitWith ExitCode.AUTH_ERROR Messages.errors.authFailed) else ret tt) ;;
  records <- parseCsvFileStrict filePath ;;
  existingCount <- query db SELECT_COUNT_credentials ;;
  (if Nat.ltb 0 existingCount then
     choice <- askChoice (Messages.prompts.confirmImportReplace existingCount) ["y"; "n"] ;;
     if String.eqb choice "n"
     then lift (exitWith ExitCode.OK Messages.infos.importCanceled) else ret tt
   else ret tt) ;;
  tryCatch
    (salt_ <- getMasterSalt db ;;
     let key := deriveKey masterPw salt_ in
     execute db BEGIN ;;
     execute db DELETE_credentials ;;
     insertEncrypted db records key ;;
     execute db COMMIT ;;
     ret tt)
    (fun _ =>
       tryRollback db ;;
       lift (exitWith ExitCode.IO_DB_ERROR Messages.errors.importFailed)) ;;
  lift (exitWith ExitCode.OK
          ("Success: imported " ++ show (List.length records) ++ " records.")).

(** The option scan at the head of [cmdChangeMaster], over [args] from
    index 1: [true] when no usage error is raised. *)
Fixpoint changeMasterOptionsOk (rest : list string) : bool :=
  match rest with
  | [] => true
  | a :: rest' =>
      if startsWith "--" a then
        if existsb (String.eqb a) ["--old-master"; "--new-master"] then
          match rest' with
          | [] => true
          | _ :: rest'' => changeMasterOptionsOk rest''
          end
        else false
      else false
  end.

(** [getOption(args, '--old-master') ?? await askPassword(...)] *)
Definition oldMasterOf (args : list string) : M string :=
  match getOption args "--old-master" with
  | Some v => ret v
  | None => askPassword Messages.prompts.enterOldMaster
  end.

(** [getOption(args, '--new-master') ?? await askNewMasterWithConfirm()] *)
Definition newMasterOf (args : list string) : M string :=
  match getOption args "--new-master" with
  | Some v => ret v
  | None => askNewMasterWithConfirm
  end.

Definition cmdChangeMaster (args : list string) : M unit :=
  (if negb (changeMasterOptionsOk (tl args))
   then lift (exitWith ExitCode.USAGE_ERROR Messages.usage.changeMaster) else ret tt) ;;
  requireReadyState ;;
  oldPw <- oldMasterOf args ;;
  newPw <- newMasterOf args ;;
  (if String.eqb oldPw newPw
   then lift (exitWith ExitCode.OK Messages.infos.masterUnchanged) else ret tt) ;;
  db <- openDb ;;
  verified <- verifyMasterPassword oldPw db ;;
  (if negb verified
   then lift (exitWith ExitCode.AUTH_ERROR Messages.errors.invalidOldMaster) else ret tt) ;;
  tryCatch
    (masterRow <- query db SELECT_master ;;
     oldSalt <- match masterRow with
                | Some r => ret (salt r)
                | None => throw (JsError "Cannot read properties of undefined (reading 'salt')")
                end ;;
     let oldKey := deriveKey oldPw oldSalt in
     encryptedRows <- query db SELECT_credentials ;;
     plainRows <- decryptRows encryptedRows oldKey ;;
     newSalt <- freshSalt ;;
     let newKey := deriveKey newPw newSalt in
     let newHash := hashDerivedKey newKey in
     execute db BEGIN ;;
     execute db (UPDATE_master newHash newSalt) ;;
     execute db DELETE_credentials ;;
     insertEncrypted db plainRows newKey ;;
     execute db COMMIT ;;
     ret tt)
    (fun _ =>
       tryRollback db ;;
       lift (exitWith ExitCode.GENERAL_ERROR Messages.errors.changeMasterFailed)) ;;
  lift (exitWith ExitCode.OK Messages.infos.masterChanged).

(* ===================================================================== *)
(** ** pwman.mts: main *)
(* ===================================================================== *)

(** [switch (COMMAND)] with [COMMAND = args[0]]. *)
Definition dispatch (args : list string) : M unit :=
  match arg args 0 with
  | Some "init" => cmdInit args
  | Some "add" => cmdAdd args
  | Some "get" => cmdGet args
  | Some "del" => cmdDel args
  | Some "list" => cmdList args
  | Some "status" => cmdStatus args
  | Some "export" => cmdExport args
  | Some "import" => cmdImport args
  | Some "change-master" => cmdChangeMaster args
  | Some "help" => lift (exitWith ExitCode.OK Messages.usage.help)
  | other =>
      lift (exitWith ExitCode.USAGE_ERROR
              ("Unknown command: "
                 ++ match other with Some c => c | None => "undefined" end
                 ++ " " ++ chr LF ++ Messages.usage.help))
  end.

(** How the process ends: [process.exit(code)], or never (it waits for a
    key). *)
Inductive Outcome : Set :=
| Exited (code : nat)
| Waiting.

(** The top-level [try]/[catch] of pwman.mts on [args =
    process.argv.slice(2)]: the outcome and the final state, whose [disk]
    is what the next process finds. *)
Definition main (args : list string) (s : State) : Outcome * State :=
  match dispatch args s with
  | (Ret _, s') => (Exited 0, s')
  | (Throw (ExitSignal code), s') => (Exited (ExitCode.number code), s')
  | (Throw (JsError message), s') =>
      (Exited (ExitCode.number ExitCode.GENERAL_ERROR),
       snd (console_error ("Unexpected error: " ++ message) s'))
  | (Exit code, s') => (Exited code, s')
  | (Pending, s') => (Waiting, s')
  end.

End Program.

(** The state that the next process starts from: the committed content
    of the DB file and the files; no transaction, nothing printed. *)
Definition nextProcess (s : State) : State := {|
  disk := disk s;
  txn := None;
  fs := fs s;
  stdin := stdin s;
  entropy := entropy s;
  drawn := drawn s;
  write_fault := write_fault s;
  written := written s;
  stdout := [];
  stderr := []
|}.

(* ===================================================================== *)
(** ** A small runtime and sample stores, to run the program *)
(* ===================================================================== *)

Module Model.

Definition padTo (n : nat) (b : Buffer) : Buffer := firstn n (b ++ repeat x00 n)%list.

(** The text from the last dot on. *)
Fixpoint extname (p : string) : string :=
  match p with
  | EmptyString => ""
  | String c rest =>
      if negb (String.eqb (extname rest) "") then extname rest
      else if Ascii.eqb c "."%char then p else ""
  end.

Definition tagOf (key iv encrypted : Buffer) : Buffer :=
  padTo 16 (firstn 6 key ++ firstn 4 iv ++ encrypted)%list.

Definition seal (key iv plain : Buffer) : Buffer * Buffer :=
  (rev plain, tagOf key iv (rev plain)).

Definition open (key iv tag encrypted : Buffer) : option Buffer :=
  if bufferEqb tag (tagOf key iv encrypted) then Some (rev encrypted) else None.

Definition node : Node := {|
  pbkdf2Sync := fun pw salt_ _ keylen _ => padTo keylen (list_byte_of_string (pw ++ salt_));
  sha256_hex := string_of_list_byte;
  aes_256_gcm_seal := seal;
  aes_256_gcm_open := open;
  toString_base64 := string_of_list_byte;
  from_base64 := list_byte_of_string;
  toString_hex := string_of_list_byte;
  from_hex := list_byte_of_string;
  path_extname := extname;
  path_dirname := fun _ => ".";
  path_basename := fun p ext => substring 0 (String.length p - String.length ext) p;
  path_join := fun dir name => dir ++ "/" ++ name;
  toLowerCase := fun text => text
|}.

(** A machine with no DB file, the directory ["."], and an operator who
    types nothing. *)
Definition blank : State := {|
  disk := None;
  txn := None;
  fs := fun p => if String.eqb p "." then Some Directory else None;
  stdin := [];
  entropy := fun n => match Byte.of_nat (65 + Nat.modulo n 26) with Some b => b | None => x00 end;
  drawn := 0;
  write_fault := fun _ => false;
  written := 0;
  stdout := [];
  stderr := []
|}.

(** A store whose integrity check reports a defect while its tables can
    still be read, and a store with both tables but no master row. *)
Definition withContent (d : Database) : State :=
  mkState (Some d) None (fs blank) [] (entropy blank) 0 (write_fault blank) 0 [] [].

Definition damaged : State :=
  withContent
    (mkDatabase (Some "row 1 missing from index sqlite_autoindex_credentials_1")
       (Some [mkMaster 1 "00" "ab"])
       (Some [mkCredential "github" "alice" "AAAA"])).

Definition unfinished : State :=
  withContent (mkDatabase (Some "ok") (Some []) (Some [])).

(** The storage engine fails on the [k]-th statement from now on
    (counting from 0). *)
Definition failingAt (k : nat) (s : State) : State :=
  mkState (disk s) (txn s) (fs s) (stdin s) (entropy s) (drawn s)
          (fun n => Nat.eqb n (written s + k)) (written s) (stdout s) (stderr s).

(** The machine with a file [path] of the given content. *)
Definition withFile (path content : string) (s : State) : State :=
  set_fs (fun p => if String.eqb p path then Some (File content) else fs s p) s.

Definition run (args : list string) (s : State) : State :=
  nextProcess (snd (@main node args s)).

(** [init], then four [add]s. *)
Definition vault : State :=
  run ["add"; "mail"; "dave"; "pw4"; "--master"; "Passw0rd!"]
    (run ["add"; "github"; "carol"; "pw3"; "--master"; "Passw0rd!"]
       (run ["add"; "shop"; "bob"; "pw2"; "--master"; "Passw0rd!"]
          (run ["add"; "github"; "alice"; "s3cret"; "--master"; "Passw0rd!"]
             (run ["init"; "--master"; "Passw0rd!"] blank)))).

(** A rotation of the master password, and an import. *)
Definition rotate : list string :=
  ["change-master"; "--old-master"; "Passw0rd!"; "--new-master"; "n3w-Passw0rd"].

Definition importFrom (path : string) : list string :=
  ["import"; path; "--master"; "Passw0rd!"].

(** A file with a two-column data line, and a well-formed file. *)
Definition twoColumns : string :=
  "service,username,password" ++ chr LF ++ "github,alice".

Definition threeRows : string :=
  "service,username,password" ++ chr LF ++ "a,b,c" ++ chr LF ++ "d,e,f"
    ++ chr LF ++ "g,h,i".

(** The content of the sample vault. *)
Definition vaultContent : Database :=
  match disk vault with Some d => d | None => emptyDatabase end.

Definition vaultRows : list Credential :=
  match credentials vaultContent with Some rows => rows | None => [] end.

End Model.

(* ===================================================================== *)
(** ** Vocabulary of the specification *)
(* ===================================================================== *)

(** On an existing DB file, [m] changes neither the committed content nor
    the transaction, and executes no statement. *)
Definition silent {A} (m : M A) : Prop :=
  forall s, disk s <> None ->
    disk (snd (m s)) = disk s /\ txn (snd (m s)) = txn s
    /\ written (snd (m s)) = written s.

Definition hasTable {A} (t : option (list A)) : bool :=
  match t with Some _ => true | None => false end.

(** The three signs of corruption: the integrity check does not answer
    ok, exactly one of the two tables exists, or table [master] holds more
    than one row. *)
Definition corruptionSign (d : Database) : Prop :=
  integrity_check d <> Some "ok"
  \/ hasTable (master d) <> hasTable (credentials d)
  \/ (exists rows, master d = Some rows /\ 1 < List.length rows).

(** The argument checks that a command performs before it looks at the
    store. *)
Definition usageOk (args : list string) : bool :=
  let len := List.length args in
  match arg args 0 with
  | Some "init" =>
      Nat.eqb len 1 || (Nat.eqb len 3 && String.eqb (argText args 1) "--master")
  | Some "add" => Nat.eqb len 4 || Nat.eqb len 6
  | Some "get" | Some "del" => negb (Nat.ltb len 3)
  | Some "list" => Nat.eqb len 1 || Nat.eqb len 3
  | Some "status" => Nat.eqb len 1
  | Some "export" | Some "import" => Nat.eqb len 2 || Nat.eqb len 4
  | Some "change-master" => changeMasterOptionsOk (tl args)
  | _ => false
  end.

(** The commands that call [requireReadyState]. *)
Definition gated : list string :=
  ["add"; "get"; "del"; "list"; "export"; "import"; "change-master"].

(** What [requireReadyState] prints for a state that is not READY. *)
Definition gateMessage (st : DbState.t) : string :=
  match st with
  | DbState.CORRUPTED => "Database corrupted."
  | _ => "Database not initialized."
  end.

(** Ascending order of the service column. *)
Definition byService (a b : Credential) : Prop :=
  String.leb (service a) (service b) = true.

(** The line that [list] prints for a row. *)
Definition listLine (r : Credential) : string :=
  (service r ++ " " ++ username r) ++ chr LF.

(** The fields of a record, and the data line that [buildCsv] writes
    for it. *)
Definition fieldsOf (r : CsvRecord) : list string :=
  [csv_service r; csv_username r; csv_password r].

Definition csvLine (r : CsvRecord) : string :=
  csv_service r ++ "," ++ csv_username r ++ "," ++ csv_password r.

(** No field holds a tab, a carriage return or a newline. *)
Definition noControlChars (r : CsvRecord) : Prop :=
  forall v, In v (fieldsOf r) -> CONTROL_CHAR_RE v = false.

(** No field holds a comma. *)
Definition noComma (r : CsvRecord) : Prop :=
  forall v, In v (fieldsOf r) -> includes COMMA v = false.

(** [m] leaves the committed content alone. *)
Definition keepsDisk {A} (m : M A) : Prop :=
  forall s, disk s <> None -> disk (snd (m s)) = disk s.

(** Inside a transaction, [m] leaves the committed content alone and
    stays inside the transaction. *)
Definition inTxn {A} (m : M A) : Prop :=
  forall s, disk s <> None -> txn s <> None ->
    disk (snd (m s)) = disk s /\ txn (snd (m s)) <> None.

(** [m] returns, or else it leaves the committed content alone. *)
Definition returnsOrKeeps {A} (m : M A) : Prop :=
  forall s, disk s <> None ->
    (exists a, fst (m s) = Ret a) \/ disk (snd (m s)) = disk s.

(** The same for a computation that starts inside a transaction. *)
Definition returnsOrKeepsInTxn {A} (m : M A) : Prop :=
  forall s, disk s <> None -> txn s <> None ->
    (exists a, fst (m s) = Ret a) \/ disk (snd (m s)) = disk s.

(** A command ends through [exitWith(ExitCode.OK, ...)], or else it
    leaves the committed content alone. *)
Definition succeedsOrKeeps (m : M unit) : Prop :=
  forall s, disk s <> None ->
    fst (m s) = Throw (ExitSignal ExitCode.OK) \/ disk (snd (m s)) = disk s.

(** The statements that change rows or tables. *)
Definition isDataStatement (q : Sql) : bool :=
  match q with
  | BEGIN | COMMIT | ROLLBACK => false
  | _ => true
  end.

(** The violations of the strict CSV format: a byte-order mark, a
    carriage return, a first line that is not the header, a data line
    that does not split into exactly 3 fields, a control character in a
    field, a blank line that is not the last line. *)
Inductive Violation (text : string) : Prop :=
| byteOrderMark :
    startsWith BOM text = true -> Violation text
| carriageReturn :
    includes CR text = true -> Violation text
| badHeader :
    nth 0 (split CsvSpec.newline text) "" <> CsvSpec.header -> Violation text
| wrongColumnCount (i : nat) (line : string) :
    0 < i -> nth_error (split CsvSpec.newline text) i = Some line ->
    line <> "" -> List.length (split COMMA line) <> CsvSpec.columns ->
    Violation text
| controlInField (i : nat) (line field : string) :
    0 < i -> nth_error (split CsvSpec.newline text) i = Some line ->
    In field (split COMMA line) -> CONTROL_CHAR_RE field = true ->
    Violation text
| interiorBlankLine (i : nat) :
    0 < i -> S i < List.length (split CsvSpec.newline text) ->
    nth_error (split CsvSpec.newline text) i = Some "" ->
    Violation text.

(** The messages of the CSV validation. *)
Definition validationMessage (filePath text message : string) : Prop :=
  message = Messages.errors.csvBomNotAllowed filePath
  \/ message = Messages.errors.csvCrlfNotAllowed filePath
  \/ message = Messages.errors.csvEmpty filePath
  \/ message = Messages.errors.csvInvalidHeader CsvSpec.header
                 (nth 0 (split CsvSpec.newline text) "")
  \/ (exists line, message = Messages.errors.invalidImportLine line)
  \/ message = Messages.errors.invalidImportFormat
  \/ message = Messages.errors.controlChar.

(** A data line at index [idx] of [len] lines that the decoder refuses. *)
Definition badLine (len idx : nat) (line : string) : Prop :=
  (line = "" /\ idx <> len - 1)
  \/ (line <> "" /\ List.length (split COMMA line) <> CsvSpec.columns)
  \/ (exists field, In field (split COMMA line) /\ CONTROL_CHAR_RE field = true).

(** [m] reads no key from the terminal. *)
Definition keepsStdin {A} (m : M A) : Prop :=
  forall s, stdin (snd (m s)) = stdin s.

(** The commands that never write to the store. *)
Definition readOnly : list string := ["get"; "list"; "status"; "export"; "help"].

(** The [i]-th candidate of [suggestNonConflictingPath]:
    [path.join(dir, `${base} (${i})${ext}`)]. *)
Definition candidatePath {N : Node} (csvPath : string) (i : nat) : string :=
  path_join (path_dirname csvPath)
    (path_basename csvPath (path_extname csvPath) ++ " (" ++ show i ++ ")"
       ++ path_extname csvPath).

(** The order that a sort option of [list] asks for: the bytes of the
    chosen column, ascending for [--asc] and descending for [--desc]. *)
Definition inColumnOrder (column flag : string) (a b : Credential) : Prop :=
  let key := fun r => if String.eqb column "username" then username r else service r in
  if String.eqb flag "--desc"
  then String.leb (key b) (key a) = true
  else String.leb (key a) (key b) = true.


(** The content of a READY store: the integrity check answers ok, both
    tables exist and [master] holds exactly one row. *)
Definition readyContent (d : Database) : Prop :=
  integrity_check d = Some "ok" /\ credentials d <> None
  /\ exists r, master d = Some [r].

(** The committed content is READY, and so is the working copy of a
    transaction. *)
Definition readyStore (s : State) : Prop :=
  (exists d, disk s = Some d /\ readyContent d)
  /\ (forall d, txn s = Some d -> readyContent d).

(** [m] keeps a READY store READY. *)
Definition keepsReady {A} (m : M A) : Prop :=
  forall s, readyStore s -> readyStore (snd (m s)).

(** The statements of the gated commands: every statement but the insert
    into [master]. *)
Definition keepsMasterRow {N : Node} (q : Sql) : bool :=
  match q with
  | INSERT_master _ _ => false
  | _ => true
  end.

(** The text that [encrypt] returns for a plaintext, a key and a nonce:
    base64 of nonce, tag and ciphertext. *)
Definition envelopeOf {N : Node} (plain : string) (key iv : Buffer) : string :=
  let sealed := aes_256_gcm_seal key iv (list_byte_of_string plain) in
  toString_base64 (iv ++ snd sealed ++ fst sealed)%list.

(** The commands that verify the master password as soon as they have
    it, with the index of [--master] in their arguments. *)
Definition masterIndex (cmd : string) : option nat :=
  if String.eqb cmd "add" then Some 4
  else if existsb (String.eqb cmd) ["get"; "del"] then Some 3
  else None.

(** The key of the UNIQUE(service, username) constraint. *)
Definition keyOf (r : CsvRecord) : string * string := (csv_service r, csv_username r).

(** The rows that [insertEncrypted] writes for [records]: every password
    sealed under [key] with the next 12 bytes of the random source, from
    position [from] on. *)
Fixpoint sealRows {N : Node} (records : list CsvRecord) (key : Buffer)
  (entropy : nat -> byte) (from : nat) : list Credential :=
  match records with
  | [] => []
  | r :: rest =>
      mkCredential (csv_service r) (csv_username r)
        (envelopeOf (csv_password r) key (map entropy (seq from 12)))
      :: sealRows rest key entropy (from + 12)
  end.

(** The master row of the sample vault, and its entries in plain text. *)
Definition vaultMasterRow : MasterRow :=
  match master Model.vaultContent with
  | Some (r :: _) => r
  | _ => mkMaster 0 "" ""
  end.

Definition vaultPlainRows : list CsvRecord :=
  [mkCsvRecord "github" "alice" "s3cret"; mkCsvRecord "shop" "bob" "pw2";
   mkCsvRecord "github" "carol" "pw3"; mkCsvRecord "mail" "dave" "pw4"].

(** The usage line of each command. *)
Definition usageOf (cmd : string) : string :=
  if String.eqb cmd "init" then Messages.usage.init
  else if String.eqb cmd "add" then Messages.usage.add
  else if String.eqb cmd "get" then Messages.usage.get
  else if String.eqb cmd "del" then Messages.usage.del
  else if String.eqb cmd "list" then Messages.usage.list
  else if String.eqb cmd "status" then Messages.usage.status
  else if String.eqb cmd "export" then Messages.usage.export
  else if String.eqb cmd "import" then Messages.usage.import
  else Messages.usage.changeMaster.

Definition commands : list string :=
  ["init"; "add"; "get"; "del"; "list"; "status"; "export"; "import"; "change-master"].

(** When [m] ends the process directly, it does so with exit code 1
    (Ctrl+C at a prompt). *)
Definition exitsOne {A} (m : M A) : Prop :=
  forall s c, fst (m s) = Exit c -> c = 1.

(** [m] writes nothing to stderr. *)
Definition quiet {A} (m : M A) : Prop :=
  forall s, stderr (snd (m s)) = stderr s.

(** [m] writes nothing to stderr, or it throws something other than the
    signal of a successful exit. *)
Definition quietOrFails {A} (m : M A) : Prop :=
  forall s, stderr (snd (m s)) = stderr s
            \/ exists e, fst (m s) = Throw e /\ e <> ExitSignal ExitCode.OK.

(* ===================================================================== *)
(** * Verification *)
(* ===================================================================== *)

(** ** Stepping through the monad *)

Section Stepping.
Context {A B : Type}.

Lemma bind_Ret (m : M A) (k : A -> M B) s a s1 :
  m s = (Ret a, s1) -> bind m k s = k a s1.
Proof. unfold bind; intros ->; reflexivity. Qed.

Lemma bind_Throw (m : M A) (k : A -> M B) s e s1 :
  m s = (Throw e, s1) -> bind m k s = (Throw e, s1).
Proof. unfold bind; intros ->; reflexivity. Qed.

Lemma bind_Exit (m : M A) (k : A -> M B) s c s1 :
  m s = (Exit c, s1) -> bind m k s = (Exit c, s1).
Proof. unfold bind; intros ->; reflexivity. Qed.

Lemma bind_Pending (m : M A) (k : A -> M B) s s1 :
  m s = (Pending, s1) -> bind m k s = (Pending, s1).
Proof. unfold bind; intros ->; reflexivity. Qed.

Lemma bind_assoc C (m : M A) (f : A -> M B) (g : B -> M C) s :
  bind (bind m f) g s = bind m (fun x => bind (f x) g) s.
Proof. unfold bind. destruct (m s) as [[a|e|c|] s1]; reflexivity. Qed.

End Stepping.

Arguments bind_Ret {A B} [m] k [s a s1] _.
Arguments bind_Throw {A B} [m] k [s e s1] _.
Arguments bind_Exit {A B} [m] k [s c s1] _.
Arguments bind_Pending {A B} [m] k [s s1] _.

(** ** Computations that leave the store alone *)


Create HintDb silent.

Section Silent.
Context {N : Node}.

Lemma silent_ret A (a : A) : silent (ret a).
Proof. intros s _; simpl; auto. Qed.

Lemma silent_throw A e : silent (@throw A e).
Proof. intros s _; simpl; auto. Qed.

Lemma silent_bind A B (m : M A) (k : A -> M B) :
  silent m -> (forall a, silent (k a)) -> silent (bind m k).
Proof.
  intros Hm Hk s Hs. specialize (Hm s Hs). unfold bind.
  destruct (m s) as [r s1]; simpl in Hm. destruct Hm as (Hd & Ht & Hw).
  destruct r; simpl; auto.
  assert (Hs1 : disk s1 <> None) by (rewrite Hd; exact Hs).
  destruct (Hk a s1 Hs1) as (Hd' & Ht' & Hw').
  repeat split; congruence.
Qed.

Lemma silent_tryCatch A (m : M A) (h : Thrown -> M A) :
  silent m -> (forall e, silent (h e)) -> silent (tryCatch m h).
Proof.
  intros Hm Hh s Hs. specialize (Hm s Hs). unfold tryCatch.
  destruct (m s) as [r s1]; simpl in Hm. destruct Hm as (Hd & Ht & Hw).
  destruct r; simpl; auto.
  assert (Hs1 : disk s1 <> None) by (rewrite Hd; exact Hs).
  destruct (Hh e s1 Hs1) as (Hd' & Ht' & Hw').
  repeat split; congruence.
Qed.

Lemma silent_lift A (c : Check A) : silent (lift c).
Proof.
  intros s _. unfold lift. destruct c as [[code [message|]]|a]; simpl; auto.
  destruct (String.eqb message ""); simpl; auto.
  destruct (ExitCode.eqb code ExitCode.OK); simpl; auto.
Qed.

Lemma silent_console_log line : silent (console_log line).
Proof. intros s _; simpl; auto. Qed.

Lemma silent_randomBytes n : silent (randomBytes n).
Proof. intros s _; simpl; auto. Qed.

Lemma silent_askPassword prompt : silent (askPassword prompt).
Proof.
  intros s _. unfold askPassword. simpl.
  destruct (stdin s) as [|[text|] rest]; simpl; auto.
Qed.

Lemma silent_askChoiceLoop prompt allowed keys : silent (askChoiceLoop prompt allowed keys).
Proof.
  induction keys as [|[text|] rest IH]; intros s Hs; simpl; auto.
  destruct (existsb (String.eqb text) allowed); simpl; auto.
  apply (IH (write_stdout (text ++ chr LF) (set_stdin rest (write_stdout prompt s)))).
  exact Hs.
Qed.

Lemma silent_askChoice prompt allowed : silent (askChoice prompt allowed).
Proof. intros s Hs. unfold askChoice. apply silent_askChoiceLoop, Hs. Qed.

Lemma silent_query A db (select : Database -> string + A) : silent (query db select).
Proof.
  intros s _. unfold query. destruct (view s) as [d|]; simpl; auto.
  destruct (select d); simpl; auto.
Qed.

Lemma silent_openDb : silent openDb.
Proof. intros s Hs. unfold openDb. destruct (disk s) eqn:E; simpl; auto. congruence. Qed.

Lemma silent_existsSync_DB_PATH : silent existsSync_DB_PATH.
Proof. intros s _; simpl; auto. Qed.

Lemma silent_existsSync path : silent (existsSync path).
Proof. intros s _; simpl; auto. Qed.

Lemma silent_isDirectory path : silent (isDirectory path).
Proof. intros s _. unfold isDirectory. destruct (fs s path) as [[c|]|]; simpl; auto. Qed.

Lemma silent_readFileSync path : silent (readFileSync path).
Proof. intros s _. unfold readFileSync. destruct (fs s path) as [[c|]|]; simpl; auto. Qed.

Lemma silent_writeFileSync path content : silent (writeFileSync path content).
Proof. intros s _. unfold writeFileSync. destruct (fs s path) as [[c|]|]; simpl; auto. Qed.

Lemma silent_renameSync a b : silent (renameSync a b).
Proof. intros s _. unfold renameSync. destruct (fs s a) as [e|]; simpl; auto. Qed.

End Silent.

#[export] Hint Resolve silent_ret silent_throw silent_lift silent_console_log
  silent_randomBytes silent_askPassword silent_askChoice silent_query silent_openDb
  silent_existsSync_DB_PATH silent_existsSync silent_isDirectory silent_readFileSync
  silent_writeFileSync silent_renameSync : silent.

(** Decomposes a goal [silent m] along the structure of [m]. *)
Ltac silence :=
  repeat first
    [ progress auto with silent
    | apply silent_bind; [| intro]
    | apply silent_tryCatch; [| intro]
    | match goal with
      | |- silent (if ?b then _ else _) => destruct b
      | |- silent (match ?x with _ => _ end) => destruct x
      | |- silent (let _ := _ in _) => cbv zeta
      end ].

Section SilentProgram.
Context {N : Node}.

Lemma silent_checkDbState : silent checkDbState.
Proof. unfold checkDbState, tableExists. silence. Qed.

Lemma silent_requireReadyState : silent requireReadyState.
Proof. unfold requireReadyState. pose proof silent_checkDbState. silence. Qed.

End SilentProgram.

(** ** The state machine of [checkDbState] *)

Section Classification.
Context {N : Node}.

(** [checkDbState] only observes. *)
Lemma checkDbState_pure (s : State) :
  exists st, checkDbState s = (Ret st, s).
Proof.
  unfold checkDbState, bind, existsSync_DB_PATH, tableExists, openDb, tryCatch, query, view, ret.
  destruct s as [dk tx f k e dr wf wr so se]; simpl.
  destruct dk as [d|]; simpl; [|eauto].
  destruct tx as [d'|]; simpl.
  - destruct d' as [[v|] [m|] [c|]]; simpl; eauto;
    destruct (String.eqb v "ok"); simpl; eauto.
    destruct m as [|r [|r' m]]; simpl; eauto.
  - destruct d as [[v|] [m|] [c|]]; simpl; eauto;
    destruct (String.eqb v "ok"); simpl; eauto.
    destruct m as [|r [|r' m]]; simpl; eauto.
Qed.

Lemma checkDbState_NO_DB (s : State) :
  disk s = None -> checkDbState s = (Ret DbState.NO_DB, s).
Proof.
  intros H. unfold checkDbState, bind, existsSync_DB_PATH. rewrite H. reflexivity.
Qed.

Lemma checkDbState_exists (s : State) st :
  checkDbState s = (Ret st, s) -> st <> DbState.NO_DB -> disk s <> None.
Proof.
  intros H Hst Hd. rewrite (checkDbState_NO_DB s Hd) in H. congruence.
Qed.

Lemma checkDbState_NO_DB_inv (s : State) :
  checkDbState s = (Ret DbState.NO_DB, s) -> disk s = None.
Proof.
  unfold checkDbState, bind, existsSync_DB_PATH, tableExists, openDb, tryCatch, query, view, ret.
  destruct s as [dk tx f k e dr wf wr so se]; simpl.
  destruct dk as [d|]; simpl; [|reflexivity].
  destruct tx as [d'|]; simpl.
  - destruct d' as [[v|] [m|] [c|]]; simpl; try discriminate;
    destruct (String.eqb v "ok"); simpl; try discriminate.
    destruct m as [|r [|r' m]]; simpl; discriminate.
  - destruct d as [[v|] [m|] [c|]]; simpl; try discriminate;
    destruct (String.eqb v "ok"); simpl; try discriminate.
    destruct m as [|r [|r' m]]; simpl; discriminate.
Qed.

Lemma checkDbState_UNINITIALIZED_inv (s : State) :
  checkDbState s = (Ret DbState.UNINITIALIZED, s) -> txn s = None ->
  exists d, disk s = Some d /\ integrity_check d = Some "ok"
    /\ ((master d = None /\ credentials d = None)
        \/ (master d = Some [] /\ credentials d <> None)).
Proof.
  unfold checkDbState, bind, existsSync_DB_PATH, tableExists, openDb, tryCatch, query, view, ret.
  destruct s as [dk tx f k e dr wf wr so se]; simpl. intros H ->.
  destruct dk as [d|]; simpl in H; [|discriminate].
  exists d. split; [reflexivity|].
  destruct d as [[v|] m c]; simpl in *; [|discriminate].
  destruct (String.eqb_spec v "ok") as [->|Hv]; simpl in H; [|discriminate].
  split; [reflexivity|].
  destruct m as [[|r [|r' m]]|], c as [c|]; simpl in H; try discriminate.
  - right. split; [reflexivity|discriminate].
  - left. split; reflexivity.
Qed.

Ltac settle :=
  repeat match goal with
  | |- _ /\ _ => split
  | |- _ <-> _ => split; intro
  | H : exists _, _ |- _ => destruct H
  | H : _ /\ _ |- _ => destruct H
  | H : Some _ = Some _ |- _ => inversion H; clear H; subst
  | H : corruptionSign _ |- _ => destruct H as [H|[H|H]]; simpl in H
  | H : _ \/ _ |- _ => destruct H
  end; simpl in *; try congruence; try discriminate; try lia.

Ltac finish :=
  try solve
    [ eexists; split; [reflexivity|]; unfold corruptionSign; simpl;
      first [ left; congruence
            | right; left; congruence
            | right; right; eexists; split; [reflexivity|simpl; lia] ]
    | eexists; split; [reflexivity|]; unfold corruptionSign; simpl; split; [|auto];
      intros [?|[?|[rows [? ?]]]]; try congruence;
      match goal with
      | E : Some _ = Some _ |- _ => inversion E; subst; simpl in *; lia
      end
    | eexists; split; [reflexivity|]; simpl; repeat split; try congruence; eauto
    | exfalso;
      match goal with
      | H : ~ corruptionSign _ |- _ => apply H; unfold corruptionSign; simpl
      end;
      first [ left; congruence
            | right; left; congruence
            | right; right; eexists; split; [reflexivity|simpl; lia] ] ].

(** C6. [checkDbState] answers NO_DB exactly when there is no DB file;
    CORRUPTED exactly when the file shows a sign of corruption (integrity
    check not ok, exactly one of the tables [master] / [credentials], more
    than one master row); UNINITIALIZED exactly when there is no such sign
    and table [master] is absent or empty; READY exactly when the integrity
    check passes, both tables exist and [master] holds exactly one row. *)
Theorem checkDbState_classification (s : State) :
  txn s = None ->
  exists st, checkDbState s = (Ret st, s)
    /\ (st = DbState.NO_DB <-> disk s = None)
    /\ (st = DbState.CORRUPTED <-> exists d, disk s = Some d /\ corruptionSign d)
    /\ (st = DbState.UNINITIALIZED <->
          exists d, disk s = Some d /\ ~ corruptionSign d
                    /\ (master d = None \/ master d = Some []))
    /\ (st = DbState.READY <->
          exists d, disk s = Some d /\ integrity_check d = Some "ok"
                    /\ master d <> None /\ credentials d <> None
                    /\ exists r, master d = Some [r]).
Proof.
  intros Htxn.
  unfold checkDbState, bind, existsSync_DB_PATH, tableExists, openDb, tryCatch, query, view, ret.
  destruct s as [dk tx f k e dr wf wr so se]; simpl in *. subst tx.
  destruct dk as [[[v|] m c]|]; simpl.
  - destruct (String.eqb_spec v "ok") as [->|Hv]; simpl.
    + destruct m as [[|r [|r' m]]|], c as [c|]; simpl;
        (eexists; split; [reflexivity|]); settle; finish.
    + eexists; split; [reflexivity|]; settle; finish.
  - eexists; split; [reflexivity|]; settle; finish.
  - eexists; split; [reflexivity|]; settle; finish.
Qed.

End Classification.

(** ** The READY gate *)

Section Gate.
Context {N : Node}.

Lemma requireReadyState_passes (s : State) :
  checkDbState s = (Ret DbState.READY, s) -> requireReadyState s = (Ret tt, s).
Proof. intros H. unfold requireReadyState. rewrite (bind_Ret _ H). reflexivity. Qed.

Lemma requireReadyState_blocks (s : State) st :
  checkDbState s = (Ret st, s) -> st <> DbState.READY ->
  requireReadyState s
  = (Throw (ExitSignal ExitCode.IO_DB_ERROR), write_stderr (printed (gateMessage st)) s).
Proof.
  intros H Hst. unfold requireReadyState. rewrite (bind_Ret _ H).
  destruct st; try congruence; reflexivity.
Qed.

Lemma ret_tt_runs (s : State) : ret tt s = (Ret tt, s).
Proof. reflexivity. Qed.

(** A gated command stops at [requireReadyState] when the state is not
    READY. *)
Lemma gated_command_blocked (args : list string) (s : State) st cmd :
  In cmd gated -> arg args 0 = Some cmd -> usageOk args = true ->
  checkDbState s = (Ret st, s) -> st <> DbState.READY ->
  main args s = (Exited 4, write_stderr (printed (gateMessage st)) s).
Proof.
  intros Hin Hcmd Hu Hst Hne.
  pose proof (requireReadyState_blocks Hst Hne) as Hgate.
  unfold main, dispatch. unfold usageOk in Hu. rewrite Hcmd in *.
  simpl in Hin.
  destruct Hin as [<-|[<-|[<-|[<-|[<-|[<-|[<-|[]]]]]]]]; cbv iota beta in *;
    cbn [String.eqb Ascii.eqb Bool.eqb] in *.
  - unfold cmdAdd. cbv zeta. rewrite Hu. cbn [negb].
    rewrite (bind_Ret _ (ret_tt_runs s)). rewrite (bind_Throw _ Hgate). reflexivity.
  - unfold cmdGet. apply negb_true_iff in Hu. rewrite Hu.
    rewrite (bind_Ret _ (ret_tt_runs s)). rewrite (bind_Throw _ Hgate). reflexivity.
  - unfold cmdDel. apply negb_true_iff in Hu. rewrite Hu.
    rewrite (bind_Ret _ (ret_tt_runs s)). rewrite (bind_Throw _ Hgate). reflexivity.
  - unfold cmdList. cbv zeta. rewrite Hu. cbn [negb].
    rewrite (bind_Ret _ (ret_tt_runs s)). rewrite (bind_Throw _ Hgate). reflexivity.
  - unfold cmdExport. cbv zeta. rewrite Hu. cbn [negb].
    rewrite (bind_Ret _ (ret_tt_runs s)). rewrite (bind_Throw _ Hgate). reflexivity.
  - unfold cmdImport. cbv zeta. rewrite Hu. cbn [negb].
    rewrite (bind_Ret _ (ret_tt_runs s)). rewrite (bind_Throw _ Hgate). reflexivity.
  - unfold cmdChangeMaster. rewrite Hu. cbn [negb].
    rewrite (bind_Ret _ (ret_tt_runs s)). rewrite (bind_Throw _ Hgate). reflexivity.
Qed.

End Gate.

Section GateInit.
Context {N : Node}.

Lemma init_refused (args : list string) (s : State) st :
  arg args 0 = Some "init" -> usageOk args = true ->
  checkDbState s = (Ret st, s) ->
  (st = DbState.READY ->
   main args s = (Exited 1, write_stderr (printed Messages.errors.dbAlreadyInitialized) s))
  /\ (st = DbState.CORRUPTED ->
      main args s = (Exited 4, write_stderr (printed "Database corrupted.") s)).
Proof.
  intros Hcmd Hu Hst. unfold main, dispatch. unfold usageOk in Hu. rewrite Hcmd in *.
  cbv iota beta in *. unfold cmdInit. cbv zeta. rewrite Hu. cbn [negb].
  rewrite (bind_Ret _ (ret_tt_runs s)). rewrite (bind_Ret _ Hst).
  split; intros ->; reflexivity.
Qed.

(** From NO_DB or UNINITIALIZED, [init --master pw] with a non-empty
    password and a storage engine that does not fail ends with exit code
    0 and leaves a READY store. *)
Lemma init_succeeds (pw : string) (s : State) st :
  checkDbState s = (Ret st, s) ->
  st = DbState.NO_DB \/ st = DbState.UNINITIALIZED ->
  txn s = None -> (forall n, write_fault s n = false) -> pw <> "" ->
  fst (main ["init"; "--master"; pw] s) = Exited 0
  /\ fst (checkDbState (nextProcess (snd (main ["init"; "--master"; pw] s))))
     = Ret DbState.READY.
Proof.
  intros Hst Hcase Htxn Hwf Hpw.
  apply String.eqb_neq in Hpw.
  unfold main, dispatch. cbn [arg nth_error]. unfold cmdInit. cbv zeta.
  cbn [List.length Nat.eqb argText nth String.eqb Ascii.eqb Bool.eqb andb orb negb].
  rewrite (bind_Ret _ (ret_tt_runs s)). rewrite (bind_Ret _ Hst).
  assert (Hskip : (match st with
                   | DbState.READY =>
                       lift (exitWith ExitCode.GENERAL_ERROR Messages.errors.dbAlreadyInitialized)
                   | DbState.CORRUPTED => lift (exitWith ExitCode.IO_DB_ERROR "Database corrupted.")
                   | _ => ret tt
                   end) s = (Ret tt, s)) by (destruct Hcase; subst; reflexivity).
  rewrite (bind_Ret _ Hskip).
  rewrite (bind_Ret _ (eq_refl : ret pw s = (Ret pw, s))).
  rewrite Hpw. rewrite (bind_Ret _ (ret_tt_runs s)).
  destruct Hcase as [->| ->].
  - pose proof (checkDbState_NO_DB_inv Hst) as Hdisk.
    destruct s as [dk tx f k e dr wf wr so se]; simpl in Htxn, Hwf, Hdisk; subst tx dk.
    unfold bind, tryCatch, openDb, execute, freshSalt, randomBytes, lift, ret; simpl.
    repeat (rewrite Hwf; simpl). split; reflexivity.
  - destruct (checkDbState_UNINITIALIZED_inv Hst Htxn) as (d & Hdisk & Hic & Htables).
    destruct s as [dk tx f k e dr wf wr so se]; simpl in Htxn, Hwf, Hdisk; subst tx dk.
    destruct d as [ic m c]; simpl in Hic, Htables. subst ic.
    unfold bind, tryCatch, openDb, execute, freshSalt, randomBytes, lift, ret; simpl.
    destruct Htables as [[-> ->]|[-> Hc]]; [|destruct c as [c|]; [|congruence]];
      repeat (rewrite Hwf; simpl); split; reflexivity.
Qed.

Lemma status_without_file (args : list string) (s : State) :
  arg args 0 = Some "status" -> usageOk args = true -> disk s = None ->
  main args s = (Exited 4, write_stderr (printed Messages.errors.dbNotInitialized) s).
Proof.
  intros Hcmd Hu Hd. unfold main, dispatch. unfold usageOk in Hu. rewrite Hcmd in *.
  cbv iota beta in *. unfold cmdStatus. rewrite Hu. cbn [negb].
  rewrite (bind_Ret _ (ret_tt_runs s)).
  unfold ensureDbExists, bind, existsSync_DB_PATH. rewrite Hd. reflexivity.
Qed.

End GateInit.

(** ** Read-only parts of the program *)

Section SilentCommands.
Context {N : Node}.

Lemma silent_requireKeyLength key : silent (requireKeyLength key).
Proof. unfold requireKeyLength. silence. Qed.

Lemma silent_encrypt plain key : silent (encrypt plain key).
Proof. unfold encrypt. pose proof silent_requireKeyLength. silence. Qed.

Lemma silent_decrypt cipherText key : silent (decrypt cipherText key).
Proof. unfold decrypt. pose proof silent_requireKeyLength. silence. Qed.

Lemma silent_decryptRows rows key : silent (decryptRows rows key).
Proof.
  induction rows as [|r rest IH]; simpl; [silence|].
  pose proof silent_decrypt. silence.
Qed.

Lemma silent_timingSafeEqual a b : silent (timingSafeEqual a b).
Proof. unfold timingSafeEqual. silence. Qed.

Lemma silent_verifyMasterPassword pw db : silent (verifyMasterPassword pw db).
Proof. unfold verifyMasterPassword. pose proof silent_timingSafeEqual. silence. Qed.

Lemma silent_getMasterPassword args i : silent (getMasterPassword args i).
Proof. unfold getMasterPassword. silence. Qed.

Lemma silent_askNewMasterWithConfirm : silent askNewMasterWithConfirm.
Proof. unfold askNewMasterWithConfirm. silence. Qed.

Lemma silent_oldMasterOf args : silent (oldMasterOf args).
Proof. unfold oldMasterOf. silence. Qed.

Lemma silent_newMasterOf args : silent (newMasterOf args).
Proof. unfold newMasterOf. pose proof silent_askNewMasterWithConfirm. silence. Qed.

Lemma silent_getMasterSalt db : silent (getMasterSalt db).
Proof. unfold getMasterSalt. silence. Qed.

Lemma silent_freshSalt : silent freshSalt.
Proof. unfold freshSalt. silence. Qed.

Lemma silent_requireExistingFile path : silent (requireExistingFile path).
Proof. unfold requireExistingFile. silence. Qed.

Lemma silent_validateExportTargetPath path : silent (validateExportTargetPath path).
Proof. unfold validateExportTargetPath. silence. Qed.

Lemma silent_suggestFrom csvPath dir base ext left i :
  silent (suggestFrom csvPath dir base ext left i).
Proof. revert i. induction left as [|left IH]; intros i; simpl; silence. Qed.

Lemma silent_suggestNonConflictingPath path : silent (suggestNonConflictingPath path).
Proof. unfold suggestNonConflictingPath. apply silent_suggestFrom. Qed.

Lemma silent_parseCsvFileStrict path : silent (parseCsvFileStrict path).
Proof. unfold parseCsvFileStrict. pose proof silent_requireExistingFile. silence. Qed.

Lemma silent_printRows rows : silent (printRows rows).
Proof. induction rows as [|[a b] rest IH]; simpl; silence. Qed.

Lemma silent_ensureDbExists : silent ensureDbExists.
Proof. unfold ensureDbExists. silence. Qed.

End SilentCommands.

#[export] Hint Resolve silent_checkDbState silent_requireReadyState silent_requireKeyLength
  silent_encrypt silent_decrypt silent_decryptRows silent_timingSafeEqual
  silent_verifyMasterPassword silent_getMasterPassword silent_askNewMasterWithConfirm
  silent_oldMasterOf silent_newMasterOf silent_getMasterSalt silent_freshSalt
  silent_requireExistingFile silent_validateExportTargetPath
  silent_suggestNonConflictingPath silent_parseCsvFileStrict silent_printRows
  silent_ensureDbExists : silent.

Section ReadOnlyCommands.
Context {N : Node}.

Lemma silent_cmdGet args : silent (cmdGet args).
Proof. unfold cmdGet. silence. Qed.

Lemma silent_cmdList args : silent (cmdList args).
Proof. unfold cmdList. silence. Qed.

Lemma silent_cmdStatus args : silent (cmdStatus args).
Proof. unfold cmdStatus. silence. Qed.

Lemma silent_cmdExport args : silent (cmdExport args).
Proof. unfold cmdExport. silence. Qed.

(** [main] keeps the committed content whenever the command does. *)
Lemma main_keeps_disk (args : list string) (s : State) :
  disk (snd (dispatch args s)) = disk s -> disk (snd (main args s)) = disk s.
Proof.
  unfold main. destruct (dispatch args s) as [[a|[c|m]|c|] s']; simpl; auto.
Qed.

Lemma main_keeps_written (args : list string) (s : State) :
  written (snd (dispatch args s)) = written s -> written (snd (main args s)) = written s.
Proof.
  unfold main. destruct (dispatch args s) as [[a|[c|m]|c|] s']; simpl; auto.
Qed.

(** [status] never writes, whatever the state of the store. *)
Lemma status_read_only (args : list string) (s : State) :
  arg args 0 = Some "status" ->
  disk (snd (main args s)) = disk s /\ written (snd (main args s)) = written s.
Proof.
  intros Hcmd.
  assert (H : disk (snd (dispatch args s)) = disk s
              /\ written (snd (dispatch args s)) = written s).
  { unfold dispatch. rewrite Hcmd. cbv iota beta.
    destruct (disk s) as [d|] eqn:Hd.
    - rewrite <- Hd.
      destruct (silent_cmdStatus args s) as (H1 & _ & H3); [congruence|]. auto.
    - unfold cmdStatus.
      assert (Hens : ensureDbExists s
                = (Throw (ExitSignal ExitCode.IO_DB_ERROR),
                   write_stderr (printed Messages.errors.dbNotInitialized) s)).
      { unfold ensureDbExists, bind, existsSync_DB_PATH. rewrite Hd. reflexivity. }
      destruct (negb (Nat.eqb (List.length args) 1)).
      + unfold bind, lift; simpl. rewrite Hd. auto.
      + rewrite (bind_Ret _ (ret_tt_runs s)). rewrite (bind_Throw _ Hens). simpl.
        rewrite Hd. auto. }
  destruct H. split; [apply main_keeps_disk | apply main_keeps_written]; assumption.
Qed.

End ReadOnlyCommands.

Section GateTheorem.
Context {N : Node}.

(** C7, as the code has it.  [init] is refused on a READY store (already
    initialized, exit 1) and on a CORRUPTED one (exit 4), and succeeds from
    NO_DB or UNINITIALIZED; each of add, get, del, list, export, import and
    change-master stops at the gate when the state is not READY, with
    "Database not initialized." for NO_DB and UNINITIALIZED and "Database
    corrupted." for CORRUPTED (exit 4); [status] is refused when there is no
    DB file.  In every refusal the final state is the initial one plus the
    message on stderr, and [status] never writes. *)
Theorem ready_gate (args : list string) (s : State) (st : DbState.t) :
  usageOk args = true ->
  checkDbState s = (Ret st, s) ->
  (arg args 0 = Some "init" ->
     (st = DbState.READY ->
      main args s
      = (Exited 1, write_stderr (printed Messages.errors.dbAlreadyInitialized) s))
     /\ (st = DbState.CORRUPTED ->
         main args s = (Exited 4, write_stderr (printed "Database corrupted.") s))
     /\ (forall pw, args = ["init"; "--master"; pw] -> pw <> "" ->
         st = DbState.NO_DB \/ st = DbState.UNINITIALIZED ->
         txn s = None -> (forall n, write_fault s n = false) ->
         fst (main args s) = Exited 0
         /\ fst (checkDbState (nextProcess (snd (main args s)))) = Ret DbState.READY))
  /\ (forall cmd, In cmd gated -> arg args 0 = Some cmd -> st <> DbState.READY ->
      main args s = (Exited 4, write_stderr (printed (gateMessage st)) s))
  /\ (arg args 0 = Some "status" ->
      (st = DbState.NO_DB ->
       main args s
       = (Exited 4, write_stderr (printed Messages.errors.dbNotInitialized) s))
      /\ disk (snd (main args s)) = disk s
      /\ written (snd (main args s)) = written s).
Proof.
  intros Hu Hst. repeat split.
  - intros ->. apply (init_refused args H Hu Hst); reflexivity.
  - intros ->. apply (init_refused args H Hu Hst); reflexivity.
  - subst args. apply (init_succeeds Hst); assumption.
  - subst args. apply (init_succeeds Hst); assumption.
  - intros cmd Hin Hcmd Hne. apply (gated_command_blocked args Hin Hcmd Hu Hst Hne).
  - intros ->. apply status_without_file; auto. apply checkDbState_NO_DB_inv, Hst.
  - apply status_read_only, H.
  - apply status_read_only, H.
Qed.

End GateTheorem.

(** [ready_gate] on a machine without DB file: [add] is refused. *)
Lemma ready_gate_add_without_store :
  @main Model.node ["add"; "github"; "alice"; "s3cret"] Model.blank
  = (Exited 4, write_stderr (printed "Database not initialized.") Model.blank).
Proof.
  refine (proj1 (proj2 (@ready_gate Model.node ["add"; "github"; "alice"; "s3cret"]
                          Model.blank DbState.NO_DB _ _)) "add" _ _ _).
  - reflexivity.
  - reflexivity.
  - simpl; auto.
  - reflexivity.
  - discriminate.
Defined.

(** [status] is not behind the READY gate: on a CORRUPTED store and on an
    UNINITIALIZED one it reports "Initialized: yes" and ends with exit code
    0. *)
Lemma status_ignores_the_gate :
  (fst (checkDbState Model.damaged) = Ret DbState.CORRUPTED
   /\ fst (@main Model.node ["status"] Model.damaged) = Exited 0
   /\ stdout (snd (@main Model.node ["status"] Model.damaged))
      = [printed Messages.infos.initializedYes; printed "Entries: 1"])
  /\ (fst (checkDbState Model.unfinished) = Ret DbState.UNINITIALIZED
      /\ fst (@main Model.node ["status"] Model.unfinished) = Exited 0
      /\ stdout (snd (@main Model.node ["status"] Model.unfinished))
         = [printed Messages.infos.initializedYes; printed "Entries: 0"]).
Proof. vm_compute. repeat split. Qed.

(** [checkDbState_classification] on the sample vault. *)
Lemma checkDbState_classification_vault :
  exists st, checkDbState Model.vault = (Ret st, Model.vault)
    /\ (st = DbState.NO_DB <-> disk Model.vault = None)
    /\ (st = DbState.CORRUPTED <->
          exists d, disk Model.vault = Some d /\ corruptionSign d)
    /\ (st = DbState.UNINITIALIZED <->
          exists d, disk Model.vault = Some d /\ ~ corruptionSign d
                    /\ (master d = None \/ master d = Some []))
    /\ (st = DbState.READY <->
          exists d, disk Model.vault = Some d /\ integrity_check d = Some "ok"
                    /\ master d <> None /\ credentials d <> None
                    /\ exists r, master d = Some [r]).
Proof. apply (checkDbState_classification Model.vault). reflexivity. Defined.

(** ** add: control characters *)

Lemma validateNoControlChars_rejects (values : list string) (v : string) :
  In v values -> CONTROL_CHAR_RE v = true ->
  validateNoControlChars values
  = exitWith ExitCode.GENERAL_ERROR Messages.errors.controlChar.
Proof.
  induction values as [|x rest IH]; intros Hin Hv; [contradiction|].
  simpl. destruct (CONTROL_CHAR_RE x) eqn:Hx; [reflexivity|].
  destruct Hin as [->|Hin]; [congruence|]. apply IH; assumption.
Qed.

Lemma validateNoControlChars_accepts (values : list string) :
  (forall v, In v values -> CONTROL_CHAR_RE v = false) ->
  validateNoControlChars values = pass tt.
Proof.
  induction values as [|x rest IH]; intros H; [reflexivity|].
  simpl. rewrite (H x (or_introl eq_refl)). apply IH. intros v Hv. apply H. right; exact Hv.
Qed.

Section Add.
Context {N : Node}.

(** C9. On a READY store, an [add] whose password argument contains a
    tab, a carriage return or a newline ends with the control-character
    error (exit 1) as soon as the master password has been obtained: the
    master password is not verified, no statement is executed and the store
    is unchanged. *)
Theorem add_rejects_control_chars (args : list string) (s s1 : State) (masterPw : string) :
  arg args 0 = Some "add" ->
  usageOk args = true ->
  checkDbState s = (Ret DbState.READY, s) ->
  getMasterPassword args 4 s = (Ret masterPw, s1) ->
  CONTROL_CHAR_RE (argText args 3) = true ->
  main args s = (Exited 1, write_stderr (printed Messages.errors.controlChar) s1)
  /\ disk s1 = disk s /\ txn s1 = txn s /\ written s1 = written s.
Proof.
  intros Hcmd Hu Hst Hpw Hctl. split.
  - unfold main, dispatch. unfold usageOk in Hu. rewrite Hcmd in *. cbv iota beta in *.
    unfold cmdAdd. cbv zeta. rewrite Hu. cbn [negb].
    rewrite (bind_Ret _ (ret_tt_runs s)).
    rewrite (bind_Ret _ (requireReadyState_passes Hst)).
    rewrite (bind_Ret _ Hpw).
    rewrite (validateNoControlChars_rejects
               [argText args 1; argText args 2; argText args 3] (argText args 3));
      [reflexivity | simpl; auto | exact Hctl].
  - assert (Hd : disk s <> None) by (apply (checkDbState_exists Hst); discriminate).
    pose proof (silent_getMasterPassword args 4 s Hd) as H. rewrite Hpw in H. exact H.
Qed.

End Add.

(** [add_rejects_control_chars] on the sample vault, with a password that
    holds a tab and a master password that is wrong. *)
Lemma add_rejects_tab_before_authentication :
  @main Model.node
    ["add"; "github"; "erin"; "pw" ++ chr TAB ++ "x"; "--master"; "not the master"]
    Model.vault
  = (Exited 1, write_stderr (printed Messages.errors.controlChar) Model.vault)
  /\ disk Model.vault = disk Model.vault /\ txn Model.vault = txn Model.vault
  /\ written Model.vault = written Model.vault.
Proof.
  apply (@add_rejects_control_chars Model.node
           ["add"; "github"; "erin"; "pw" ++ chr TAB ++ "x"; "--master"; "not the master"]
           Model.vault Model.vault "not the master").
  - reflexivity.
  - reflexivity.
  - vm_compute; reflexivity.
  - reflexivity.
  - reflexivity.
Defined.

(** ** list: the default order *)

Section ListOrder.

Variable le : Credential -> Credential -> bool.
Hypothesis le_total : forall a b, le a b = true \/ le b a = true.

Lemma insertSorted_perm (r : Credential) (rows : list Credential) :
  Permutation (insertSorted le r rows) (r :: rows).
Proof.
  induction rows as [|x rest IH]; simpl; [reflexivity|].
  destruct (le r x); [reflexivity|].
  rewrite IH. apply perm_swap.
Qed.

Lemma orderRows_perm (rows : list Credential) : Permutation (orderRows le rows) rows.
Proof.
  induction rows as [|x rest IH]; simpl; [reflexivity|].
  rewrite insertSorted_perm. constructor. exact IH.
Qed.

Lemma insertSorted_sorted (r : Credential) (rows : list Credential) :
  Sorted (fun a b => le a b = true) rows ->
  Sorted (fun a b => le a b = true) (insertSorted le r rows).
Proof.
  induction rows as [|x rest IH]; intros Hs; simpl.
  - repeat constructor.
  - destruct (le r x) eqn:Hrx.
    + constructor; [exact Hs|]. constructor. exact Hrx.
    + inversion Hs as [|? ? Hrest Hhd]; subst.
      constructor; [apply IH, Hrest|].
      destruct rest as [|y rest']; simpl.
      * constructor. destruct (le_total r x); congruence.
      * destruct (le r y); constructor.
        -- destruct (le_total r x); congruence.
        -- inversion Hhd; assumption.
Qed.

Lemma orderRows_sorted (rows : list Credential) :
  Sorted (fun a b => le a b = true) (orderRows le rows).
Proof.
  induction rows as [|x rest IH]; simpl; [constructor|].
  apply insertSorted_sorted, IH.
Qed.

End ListOrder.

Section List.
Context {N : Node}.

Lemma printRows_prints (pairs : list (string * string)) (s : State) :
  exists s', printRows pairs s = (Ret tt, s')
    /\ stdout s'
       = (stdout s ++ map (fun p => ((fst p ++ " " ++ snd p) ++ chr LF)%string) pairs)%list.
Proof.
  revert s. induction pairs as [|[a b] rest IH]; intros s; simpl.
  - exists s. split; [reflexivity|]. now rewrite app_nil_r.
  - destruct (IH (write_stdout ((a ++ " " ++ b) ++ chr LF) s)) as (s' & Hrun & Hout).
    exists s'. split.
    + unfold bind, console_log. exact Hrun.
    + rewrite Hout. simpl. now rewrite <- app_assoc.
Qed.

(** C10. On a READY store, [list] without options prints the (service,
    username) pairs of all rows in ascending order of the service, exactly
    as [list --asc service] does; with no rows it prints "No data.". *)
Theorem list_default_order (s : State) (d : Database) (rows : list Credential) :
  checkDbState s = (Ret DbState.READY, s) ->
  txn s = None -> disk s = Some d -> credentials d = Some rows ->
  exists sorted,
    Permutation sorted rows
    /\ Sorted byService sorted
    /\ fst (main ["list"] s) = Exited 0
    /\ stdout (snd (main ["list"] s))
       = (stdout s ++ match rows with
                      | [] => [printed Messages.infos.NoData]
                      | _ => map listLine sorted
                      end)%list
    /\ main ["list"] s = main ["list"; "--asc"; "service"] s.
Proof.
  intros Hst Htxn Hd Hrows.
  set (le := rowOrder "service" "ASC").
  assert (Hle : forall a b, le a b = String.leb (service a) (service b)) by reflexivity.
  exists (orderRows le rows).
  assert (Hperm : Permutation (orderRows le rows) rows).
  { apply orderRows_perm. }
  assert (Hsorted : Sorted byService (orderRows le rows)).
  { apply (orderRows_sorted le). intros a b. rewrite !Hle. apply String.leb_total. }
  assert (Hopen : openDb s = (Ret Handle, s)) by (unfold openDb; rewrite Hd; reflexivity).
  assert (Hq : query Handle (SELECT_ordered "service" "ASC") s
               = (Ret (map (fun r => (service r, username r)) (orderRows le rows)), s)).
  { unfold query, view. rewrite Htxn, Hd. unfold SELECT_ordered. rewrite Hrows. reflexivity. }
  assert (Hrun : forall args, List.length args = 1 \/ args = ["list"; "--asc"; "service"] ->
            arg args 0 = Some "list" ->
            dispatch args s
            = (x <- (if Nat.eqb (List.length
                         (map (fun r => (service r, username r)) (orderRows le rows))) 0
                     then lift (exitWith ExitCode.OK Messages.infos.NoData)
                     else printRows (map (fun r => (service r, username r))
                                       (orderRows le rows))) ;;
               lift (exitSilently ExitCode.OK))%run s).
  { intros args Hshape Hcmd. unfold dispatch. rewrite Hcmd. cbv iota beta.
    unfold cmdList. cbv zeta.
    destruct Hshape as [Hlen | ->].
    - rewrite Hlen. cbn [Nat.eqb orb negb].
      rewrite (bind_Ret _ (ret_tt_runs s)).
      rewrite (bind_Ret _ (requireReadyState_passes Hst)).
      rewrite (bind_Ret _ (eq_refl : ret ("service", "ASC") s = (Ret ("service", "ASC"), s))).
      cbn [fst snd].
      rewrite (bind_Ret _ Hopen). rewrite (bind_Ret _ Hq). reflexivity.
    - cbn [List.length Nat.eqb orb negb argText nth].
      rewrite (bind_Ret _ (ret_tt_runs s)).
      rewrite (bind_Ret _ (requireReadyState_passes Hst)).
      cbn [existsb String.eqb Ascii.eqb Bool.eqb orb negb andb].
      rewrite bind_assoc.
      rewrite (bind_Ret _ (ret_tt_runs s)).
      rewrite (bind_Ret _ (eq_refl : ret ("service", "ASC") s = (Ret ("service", "ASC"), s))).
      cbn [fst snd].
      rewrite (bind_Ret _ Hopen). rewrite (bind_Ret _ Hq). reflexivity. }
  assert (H1 : dispatch ["list"] s = dispatch ["list"; "--asc"; "service"] s).
  { rewrite !Hrun; auto. }
  split; [exact Hperm|]. split; [exact Hsorted|].
  assert (Hmain : main ["list"] s = main ["list"; "--asc"; "service"] s).
  { unfold main. rewrite H1. reflexivity. }
  split; [|split; [|exact Hmain]]; unfold main; rewrite (Hrun ["list"]); auto;
    rewrite length_map.
  - destruct (Nat.eqb (List.length (orderRows le rows)) 0).
    + reflexivity.
    + destruct (printRows_prints (map (fun r => (service r, username r)) (orderRows le rows)) s)
        as (s' & Hp & _).
      rewrite (bind_Ret _ Hp). reflexivity.
  - rewrite (Permutation_length Hperm).
    destruct rows as [|r rest].
    + reflexivity.
    + cbn [List.length Nat.eqb].
      destruct (printRows_prints (map (fun r => (service r, username r))
                                    (orderRows le (r :: rest))) s) as (s' & Hp & Hout).
      rewrite (bind_Ret _ Hp). cbn [lift exitSilently exit_message snd].
      rewrite Hout. rewrite map_map. reflexivity.
Qed.

End List.

(** [list_default_order] on the sample vault. *)
Lemma list_default_order_vault :
  exists sorted,
    Permutation sorted Model.vaultRows
    /\ Sorted byService sorted
    /\ fst (@main Model.node ["list"] Model.vault) = Exited 0
    /\ stdout (snd (@main Model.node ["list"] Model.vault))
       = (stdout Model.vault ++ match Model.vaultRows with
                                | [] => [printed Messages.infos.NoData]
                                | _ => map listLine sorted
                                end)%list
    /\ @main Model.node ["list"] Model.vault
       = @main Model.node ["list"; "--asc"; "service"] Model.vault.
Proof.
  apply (@list_default_order Model.node Model.vault Model.vaultContent Model.vaultRows).
  - vm_compute; reflexivity.
  - reflexivity.
  - vm_compute; reflexivity.
  - vm_compute; reflexivity.
Defined.

(** ** The CSV codec *)

Section Strings.

Lemma includes_append (c : ascii) (a b : string) :
  includes c (a ++ b) = includes c a || includes c b.
Proof.
  induction a as [|x a IH]; simpl; [reflexivity|].
  rewrite IH. now rewrite orb_assoc.
Qed.

Lemma split_clean (sep : ascii) (piece : string) :
  includes sep piece = false -> split sep piece = [piece].
Proof.
  induction piece as [|x piece IH]; simpl; intros H; [reflexivity|].
  apply orb_false_iff in H. destruct H as [Hx Hp].
  rewrite Hx. rewrite (IH Hp). reflexivity.
Qed.

Lemma split_append (sep : ascii) (piece rest : string) :
  includes sep piece = false ->
  split sep (piece ++ String sep rest) = piece :: split sep rest.
Proof.
  induction piece as [|x piece IH]; simpl; intros H.
  - now rewrite Ascii.eqb_refl.
  - apply orb_false_iff in H. destruct H as [Hx Hp].
    rewrite Hx. rewrite (IH Hp). reflexivity.
Qed.

(** [join] then [split] gives the pieces back. *)
Lemma split_join (sep : ascii) (pieces : list string) :
  pieces <> [] ->
  (forall p, In p pieces -> includes sep p = false) ->
  split sep (join sep pieces) = pieces.
Proof.
  induction pieces as [|p rest IH]; intros Hne Hclean; [congruence|].
  unfold join in *. simpl. destruct rest as [|q rest'].
  - apply split_clean, Hclean. now left.
  - change (chr sep ++ String.concat (chr sep) (q :: rest'))
      with (String sep (String.concat (chr sep) (q :: rest'))).
    rewrite split_append by (apply Hclean; now left).
    f_equal. apply IH; [discriminate|]. intros x Hx. apply Hclean. now right.
Qed.

Lemma includes_join (c sep : ascii) (pieces : list string) :
  Ascii.eqb sep c = false ->
  (forall p, In p pieces -> includes c p = false) ->
  includes c (join sep pieces) = false.
Proof.
  intros Hsep. induction pieces as [|p rest IH]; intros Hclean; [reflexivity|].
  unfold join in *. simpl. destruct rest as [|q rest'].
  - apply Hclean. now left.
  - rewrite includes_append. rewrite (Hclean p (or_introl eq_refl)).
    change (chr sep ++ String.concat (chr sep) (q :: rest'))
      with (String sep (String.concat (chr sep) (q :: rest'))).
    simpl includes. rewrite Hsep. simpl. apply IH. intros x Hx. apply Hclean. now right.
Qed.

Lemma csvLine_join (r : CsvRecord) : csvLine r = join COMMA (fieldsOf r).
Proof. reflexivity. Qed.

Lemma csvLine_not_empty (r : CsvRecord) : String.eqb (csvLine r) "" = false.
Proof.
  unfold csvLine. destruct (csv_service r); reflexivity.
Qed.

Lemma control_parts (v : string) :
  CONTROL_CHAR_RE v = false ->
  includes TAB v = false /\ includes CR v = false /\ includes LF v = false.
Proof.
  unfold CONTROL_CHAR_RE. intros H.
  apply orb_false_iff in H. destruct H as [H H3].
  apply orb_false_iff in H. destruct H as [H1 H2]. auto.
Qed.

Lemma csvLine_clean (c : ascii) (r : CsvRecord) :
  Ascii.eqb COMMA c = false ->
  (forall v, In v (fieldsOf r) -> includes c v = false) ->
  includes c (csvLine r) = false.
Proof. intros Hc H. rewrite csvLine_join. apply includes_join; assumption. Qed.

End Strings.

Section Codec.

Lemma buildLines_accepts (records : list CsvRecord) (lines : list string) :
  (forall r, In r records -> noControlChars r) ->
  buildLines records lines = pass (lines ++ map csvLine records)%list.
Proof.
  revert lines. induction records as [|r rest IH]; intros lines H; cbn [buildLines map].
  - now rewrite app_nil_r.
  - change [csv_service r; csv_username r; csv_password r] with (fieldsOf r).
    rewrite (validateNoControlChars_accepts (fieldsOf r)) by (apply (H r); now left).
    cbn [andThen pass]. rewrite IH by (intros x Hx; apply H; now right).
    now rewrite <- app_assoc.
Qed.

Lemma parseLines_accepts (len i : nat) (records acc : list CsvRecord) :
  (forall r, In r records -> noControlChars r /\ noComma r) ->
  parseLines len i (map csvLine records) acc = pass (acc ++ records)%list.
Proof.
  revert i acc. induction records as [|r rest IH]; intros i acc H; cbn [parseLines map].
  - now rewrite app_nil_r.
  - destruct (H r (or_introl eq_refl)) as [Hctl Hcomma].
    rewrite csvLine_not_empty. cbn [andb].
    rewrite csvLine_join. rewrite split_join by (discriminate || exact Hcomma).
    cbn [fieldsOf List.length CsvSpec.columns Nat.eqb negb nth].
    change [csv_service r; csv_username r; csv_password r] with (fieldsOf r).
    rewrite (validateNoControlChars_accepts (fieldsOf r) Hctl). cbn [andThen pass].
    rewrite IH by (intros x Hx; apply H; now right).
    rewrite <- app_assoc. destruct r; reflexivity.
Qed.

End Codec.

Section RoundTrip.
Context {N : Node}.

Lemma header_clean (c : ascii) :
  In c [TAB; CR; LF] -> includes c CsvSpec.header = false.
Proof. intros [<-|[<-|[<-|[]]]]; reflexivity. Qed.

Lemma exported_lines (records : list CsvRecord) :
  (forall r, In r records -> noControlChars r) ->
  split CsvSpec.newline (join CsvSpec.newline (CsvSpec.header :: map csvLine records))
  = CsvSpec.header :: map csvLine records.
Proof.
  intros H. apply split_join; [discriminate|].
  intros p [<-|Hp]; [reflexivity|].
  apply in_map_iff in Hp. destruct Hp as (r & <- & Hr).
  apply csvLine_clean; [reflexivity|].
  intros v Hv. apply (control_parts _ (H r Hr v Hv)).
Qed.

(** C5, as the code has it.  For records whose fields hold no tab, no
    carriage return, no newline and no comma, [buildCsv] succeeds with the
    header line followed by one line per record, and [parseCsvFileStrict]
    on a [.csv] file with exactly that text returns the same records. *)
Theorem csv_round_trip (records : list CsvRecord) :
  (forall r, In r records -> noControlChars r /\ noComma r) ->
  exists text,
    buildCsv records = pass text
    /\ split CsvSpec.newline text = CsvSpec.header :: map csvLine records
    /\ forall filePath,
         parseCsvText filePath text = pass records
         /\ forall s,
              toLowerCase (path_extname filePath) = CsvSpec.extension ->
              fs s filePath = Some (File text) ->
              parseCsvFileStrict filePath s = (Ret records, s).
Proof.
  intros H.
  assert (Hctl : forall r, In r records -> noControlChars r) by (intros r Hr; apply H, Hr).
  exists (join CsvSpec.newline (CsvSpec.header :: map csvLine records)).
  assert (Hbuild : buildCsv records
                   = pass (join CsvSpec.newline (CsvSpec.header :: map csvLine records))).
  { unfold buildCsv. rewrite buildLines_accepts by exact Hctl. reflexivity. }
  assert (Hparse : forall filePath,
            parseCsvText filePath (join CsvSpec.newline (CsvSpec.header :: map csvLine records))
            = pass records).
  { intros filePath. unfold parseCsvText.
    assert (Hbom : startsWith BOM
                     (join CsvSpec.newline (CsvSpec.header :: map csvLine records)) = false).
    { unfold join. simpl String.concat. destruct (map csvLine records); reflexivity. }
    rewrite Hbom.
    assert (Hcr : includes CR
                    (join CsvSpec.newline (CsvSpec.header :: map csvLine records)) = false).
    { apply includes_join; [reflexivity|].
      intros p [<-|Hp]; [reflexivity|].
      apply in_map_iff in Hp. destruct Hp as (r & <- & Hr).
      apply csvLine_clean; [reflexivity|].
      intros v Hv. apply (control_parts _ (Hctl r Hr v Hv)). }
    rewrite Hcr. cbv zeta. rewrite (exported_lines records Hctl).
    cbn [List.length Nat.eqb nth orb tl]. 
    change (String.eqb CsvSpec.header "") with false.
    rewrite String.eqb_refl. cbn [negb].
    apply (parseLines_accepts _ 1 records [] H). }
  split; [exact Hbuild|]. split; [apply exported_lines, Hctl|].
  intros filePath. split; [apply Hparse|].
  intros s Hext Hfile. unfold parseCsvFileStrict, requireCsvExtension.
  rewrite Hext. rewrite String.eqb_refl. cbn [negb].
  rewrite (bind_Ret _ (eq_refl : lift (pass tt) s = (Ret tt, s))).
  assert (Hreq : requireExistingFile filePath s = (Ret tt, s)).
  { unfold requireExistingFile, bind, existsSync, isDirectory. rewrite Hfile.
    cbn. rewrite Hfile. reflexivity. }
  rewrite (bind_Ret _ Hreq).
  assert (Hread : readFileSync filePath s
                  = (Ret (join CsvSpec.newline (CsvSpec.header :: map csvLine records)), s)).
  { unfold readFileSync. rewrite Hfile. reflexivity. }
  rewrite (bind_Ret _ Hread). rewrite Hparse. reflexivity.
Qed.

End RoundTrip.

(** [csv_round_trip] on two records. *)
Lemma csv_round_trip_example :
  exists text,
    buildCsv [mkCsvRecord "github" "alice" "s3cret"; mkCsvRecord "shop" "bob" "pw 2"]
    = pass text
    /\ split CsvSpec.newline text
       = CsvSpec.header
           :: map csvLine [mkCsvRecord "github" "alice" "s3cret"; mkCsvRecord "shop" "bob" "pw 2"]
    /\ forall filePath,
         parseCsvText filePath text
         = pass [mkCsvRecord "github" "alice" "s3cret"; mkCsvRecord "shop" "bob" "pw 2"]
         /\ forall s,
              @toLowerCase Model.node (@path_extname Model.node filePath) = CsvSpec.extension ->
              fs s filePath = Some (File text) ->
              @parseCsvFileStrict Model.node filePath s
              = (Ret [mkCsvRecord "github" "alice" "s3cret"; mkCsvRecord "shop" "bob" "pw 2"],
                 s).
Proof.
  apply (@csv_round_trip Model.node).
  intros r [<-|[<-|[]]]; split; intros v [<-|[<-|[<-|[]]]]; reflexivity.
Defined.

(** A comma inside a field does not survive: the exported line has four
    columns and the import refuses it. *)
Lemma csv_comma_breaks_round_trip :
  noControlChars (mkCsvRecord "a,b" "alice" "s3cret")
  /\ buildCsv [mkCsvRecord "a,b" "alice" "s3cret"]
     = pass ("service,username,password" ++ chr LF ++ "a,b,alice,s3cret")
  /\ parseCsvText "vault.csv" ("service,username,password" ++ chr LF ++ "a,b,alice,s3cret")
     = exitWith ExitCode.GENERAL_ERROR Messages.errors.invalidImportFormat.
Proof.
  split; [|split; reflexivity].
  intros v [<-|[<-|[<-|[]]]]; reflexivity.
Qed.

(** ** The envelope *)

Section Envelope.
Context {N : Node} {L : NodeLaws N}.

Lemma firstn_exact (a b : Buffer) : firstn (List.length a) (a ++ b)%list = a.
Proof. induction a as [|x a IH]; simpl; [now destruct b | now rewrite IH]. Qed.

Lemma skipn_exact (a b : Buffer) : skipn (List.length a) (a ++ b)%list = b.
Proof. induction a as [|x a IH]; simpl; [reflexivity | exact IH]. Qed.

Lemma envelope_layout (iv tag encrypted : Buffer) :
  List.length iv = 12 -> List.length tag = 16 ->
  subarray 0 12 (iv ++ tag ++ encrypted)%list = iv
  /\ subarray 12 28 (iv ++ tag ++ encrypted)%list = tag
  /\ subarrayFrom 28 (iv ++ tag ++ encrypted)%list = encrypted.
Proof.
  intros Hiv Htag. unfold subarray, subarrayFrom. repeat split.
  - change (12 - 0) with 12. change (skipn 0 (iv ++ tag ++ encrypted)%list)
      with (iv ++ tag ++ encrypted)%list.
    rewrite <- Hiv. apply firstn_exact.
  - change (28 - 12) with 16. rewrite <- Htag. rewrite <- Hiv. rewrite skipn_exact.
    apply firstn_exact.
  - replace 28 with (List.length (iv ++ tag)%list) by (rewrite length_app; lia).
    rewrite app_assoc. apply skipn_exact.
Qed.

(** C8. With a 32-byte key, [encrypt] draws a 12-byte nonce from the
    random source and returns the base64 text of nonce (12 bytes), tag (16
    bytes) and ciphertext in this order, and [decrypt] of that text under
    the same key returns the plaintext. *)
Theorem envelope_round_trip (plain : string) (key : Buffer) (s : State) :
  List.length key = 32 ->
  exists envelope iv tag encrypted,
    encrypt plain key s = (Ret envelope, set_drawn (drawn s + 12) s)
    /\ iv = map (entropy s) (seq (drawn s) 12)
    /\ (encrypted, tag) = aes_256_gcm_seal key iv (list_byte_of_string plain)
    /\ envelope = toString_base64 (iv ++ tag ++ encrypted)%list
    /\ from_base64 envelope = (iv ++ tag ++ encrypted)%list
    /\ List.length iv = 12 /\ List.length tag = 16
    /\ forall s', decrypt envelope key s' = (Ret plain, s').
Proof.
  intros Hkey.
  set (iv := map (entropy s) (seq (drawn s) 12)).
  set (sealed := aes_256_gcm_seal key iv (list_byte_of_string plain)).
  exists (toString_base64 (iv ++ snd sealed ++ fst sealed)%list), iv, (snd sealed), (fst sealed).
  assert (Hiv : List.length iv = 12) by (unfold iv; now rewrite length_map, length_seq).
  assert (Htag : List.length (snd sealed) = 16) by (unfold sealed; apply gcm_tag_length).
  split.
  { unfold encrypt, bind, randomBytes, requireKeyLength. rewrite Hkey. reflexivity. }
  split; [reflexivity|]. split; [symmetry; apply surjective_pairing|]. split; [reflexivity|].
  split; [apply base64_round_trip|]. split; [exact Hiv|]. split; [exact Htag|].
  intros s'. unfold decrypt. rewrite base64_round_trip.
  destruct (envelope_layout iv (snd sealed) (fst sealed) Hiv Htag) as (-> & -> & ->).
  unfold bind, requireKeyLength. rewrite Hkey. cbn [Nat.eqb ret].
  unfold sealed. rewrite (gcm_open_seal key iv (list_byte_of_string plain) Hkey).
  now rewrite string_of_list_byte_of_string.
Qed.

End Envelope.

Lemma bufferEqb_refl (b : Buffer) : bufferEqb b b = true.
Proof.
  induction b as [|x b IH]; simpl; [reflexivity|].
  rewrite IH. destruct x; reflexivity.
Qed.

(** The sample runtime honours the contract. *)
Lemma model_node_laws : NodeLaws Model.node.
Proof.
  constructor; simpl.
  - intros key iv plain _. unfold Model.open, Model.seal; simpl.
    rewrite bufferEqb_refl. now rewrite rev_involutive.
  - intros key iv plain. unfold Model.seal, Model.tagOf, Model.padTo; simpl snd.
    rewrite length_firstn, !length_app, repeat_length. lia.
  - intros b. apply list_byte_of_string_of_list_byte.
Qed.

(** [envelope_round_trip] in the sample runtime. *)
Lemma envelope_round_trip_example :
  exists envelope iv tag encrypted,
    @encrypt Model.node "s3cret" (@deriveKey Model.node "Passw0rd!" "salt") Model.blank
    = (Ret envelope, set_drawn (drawn Model.blank + 12) Model.blank)
    /\ iv = map (entropy Model.blank) (seq (drawn Model.blank) 12)
    /\ (encrypted, tag)
       = @aes_256_gcm_seal Model.node (@deriveKey Model.node "Passw0rd!" "salt") iv
           (list_byte_of_string "s3cret")
    /\ envelope = @toString_base64 Model.node (iv ++ tag ++ encrypted)%list
    /\ @from_base64 Model.node envelope = (iv ++ tag ++ encrypted)%list
    /\ List.length iv = 12 /\ List.length tag = 16
    /\ forall s',
         @decrypt Model.node envelope (@deriveKey Model.node "Passw0rd!" "salt") s'
         = (Ret "s3cret", s').
Proof.
  apply (@envelope_round_trip Model.node model_node_laws).
  vm_compute; reflexivity.
Defined.

(** ** Transactions *)

Section Transactions.
Context {N : Node}.

Lemma silent_keepsDisk A (m : M A) : silent m -> keepsDisk m.
Proof. intros H s Hs. apply (H s Hs). Qed.

Lemma silent_inTxn A (m : M A) : silent m -> inTxn m.
Proof.
  intros H s Hs Ht. destruct (H s Hs) as (Hd & Htx & _). split; congruence.
Qed.

Lemma keepsDisk_bind A B (m : M A) (k : A -> M B) :
  keepsDisk m -> (forall a, keepsDisk (k a)) -> keepsDisk (bind m k).
Proof.
  intros Hm Hk s Hs. specialize (Hm s Hs). unfold bind.
  destruct (m s) as [r s1]; simpl in Hm. destruct r; simpl; auto.
  rewrite <- Hm. apply Hk. congruence.
Qed.

Lemma inTxn_bind A B (m : M A) (k : A -> M B) :
  inTxn m -> (forall a, inTxn (k a)) -> inTxn (bind m k).
Proof.
  intros Hm Hk s Hs Ht. specialize (Hm s Hs Ht). unfold bind.
  destruct (m s) as [r s1]; simpl in Hm. destruct Hm as [Hd Htx].
  destruct r; simpl; auto.
  destruct (Hk a s1) as [Hd' Htx']; [congruence|assumption|].
  split; congruence.
Qed.

Lemma execute_data db (q : Sql) (s : State) (t : Database) :
  isDataStatement q = true -> txn s = Some t ->
  execute db q s
  = if write_fault s (written s)
    then (Throw (JsError "disk I/O error"), set_written (S (written s)) s)
    else match applySql q t with
         | inl message => (Throw (JsError message), set_written (S (written s)) s)
         | inr (d', changes) =>
             (Ret changes, set_txn (Some d') (set_written (S (written s)) s))
         end.
Proof.
  intros Hq Ht. unfold execute, view.
  destruct (write_fault s (written s)); [reflexivity|].
  destruct q; try discriminate; simpl; rewrite Ht;
    match goal with
    | |- context [match ?x with _ => _ end] => destruct x
    end; try reflexivity;
    match goal with
    | |- context [if ?x then _ else _] => destruct x
    end; reflexivity.
Qed.

Lemma inTxn_execute db (q : Sql) : isDataStatement q = true -> inTxn (execute db q).
Proof.
  intros Hq s Hs Ht.
  destruct (txn s) as [t|] eqn:Htxn; [|congruence].
  rewrite (execute_data db q s Hq Htxn).
  destruct (write_fault s (written s)); simpl; [rewrite Htxn; split; congruence|].
  destruct (applySql q t) as [m|[d' c]]; simpl; rewrite ?Htxn; split; congruence.
Qed.

Lemma keepsDisk_rollback db : keepsDisk (execute db ROLLBACK).
Proof.
  intros s _. destruct s as [dk tx f k e dr wf wr so se]. unfold execute; simpl.
  destruct (wf wr); [reflexivity|]. destruct tx; reflexivity.
Qed.

Lemma keepsDisk_tryRollback db : keepsDisk (tryRollback db).
Proof.
  intros s Hs. unfold tryRollback, tryCatch, bind.
  pose proof (keepsDisk_rollback db s Hs) as H.
  destruct (execute db ROLLBACK s) as [[a|e|c|] s1]; simpl in *; exact H.
Qed.

Lemma execute_begin db (s : State) :
  disk (snd (execute db BEGIN s)) = disk s
  /\ (forall a, fst (execute db BEGIN s) = Ret a -> txn (snd (execute db BEGIN s)) <> None).
Proof.
  destruct s as [dk tx f k e dr wf wr so se]. unfold execute; simpl.
  destruct (wf wr); [split; [reflexivity|discriminate]|].
  destruct tx, dk; simpl; split; try reflexivity; intros; discriminate.
Qed.

Lemma execute_commit db (s : State) :
  (exists a, fst (execute db COMMIT s) = Ret a)
  \/ disk (snd (execute db COMMIT s)) = disk s.
Proof.
  destruct s as [dk tx f k e dr wf wr so se]. unfold execute; simpl.
  destruct (wf wr); [right; reflexivity|].
  destruct tx; simpl; [left; eauto | right; reflexivity].
Qed.

Lemma returnsOrKeeps_bind A B (m : M A) (k : A -> M B) :
  silent m -> (forall a, returnsOrKeeps (k a)) -> returnsOrKeeps (bind m k).
Proof.
  intros Hm Hk s Hs. destruct (Hm s Hs) as (Hd & _ & _). unfold bind.
  destruct (m s) as [r s1]; simpl in Hd. destruct r; simpl; auto.
  destruct (Hk a s1) as [Hret|Hkeep]; [congruence| |]; [left; exact Hret|right; congruence].
Qed.

Lemma returnsOrKeepsInTxn_bind A B (m : M A) (k : A -> M B) :
  inTxn m -> (forall a, returnsOrKeepsInTxn (k a)) -> returnsOrKeepsInTxn (bind m k).
Proof.
  intros Hm Hk s Hs Ht. destruct (Hm s Hs Ht) as (Hd & Htx). unfold bind.
  destruct (m s) as [r s1]; simpl in Hd, Htx. destruct r; simpl; auto.
  destruct (Hk a s1) as [Hret|Hkeep]; [congruence|assumption| |];
    [left; exact Hret|right; congruence].
Qed.

Lemma returnsOrKeeps_begin A db (rest : M A) :
  returnsOrKeepsInTxn rest -> returnsOrKeeps (bind (execute db BEGIN) (fun _ => rest)).
Proof.
  intros Hrest s Hs. destruct (execute_begin db s) as [Hd Ht]. unfold bind.
  destruct (execute db BEGIN s) as [r s1]; simpl in Hd, Ht. destruct r; simpl; auto.
  destruct (Hrest s1) as [Hret|Hkeep]; [congruence|eapply Ht; reflexivity| |];
    [left; exact Hret|right; congruence].
Qed.

Lemma returnsOrKeepsInTxn_commit db :
  returnsOrKeepsInTxn (bind (execute db COMMIT) (fun _ => ret tt)).
Proof.
  intros s _ _. destruct (execute_commit db s) as [[a Ha]|Hkeep]; unfold bind.
  - destruct (execute db COMMIT s) as [r s1]; simpl in Ha; subst r. left; eexists; reflexivity.
  - destruct (execute db COMMIT s) as [r s1]; simpl in Hkeep.
    destruct r; simpl; [left; eexists; reflexivity| | |]; right; exact Hkeep.
Qed.

Lemma inTxn_insertEncrypted db (records : list CsvRecord) (key : Buffer) :
  inTxn (insertEncrypted db records key).
Proof.
  induction records as [|r rest IH]; simpl.
  - apply silent_inTxn, silent_ret.
  - apply inTxn_bind; [apply silent_inTxn, silent_encrypt|]. intros encrypted.
    apply inTxn_bind; [apply inTxn_execute; reflexivity|]. intros _. exact IH.
Qed.

(** A command that ends with a guarded transaction and the success
    message. *)
Lemma succeedsOrKeeps_transaction (body : M unit) (handler : Thrown -> M unit)
  (message : string) :
  returnsOrKeeps body -> (forall e, keepsDisk (handler e)) ->
  succeedsOrKeeps (bind (tryCatch body handler)
                        (fun _ => lift (exitWith ExitCode.OK message))).
Proof.
  intros Hbody Hhandler s Hs. unfold bind, tryCatch.
  destruct (Hbody s Hs) as [[a Ha]|Hkeep].
  - destruct (body s) as [r s1]; simpl in Ha; subst r. left.
    unfold lift, exitWith; simpl. reflexivity.
  - destruct (body s) as [r s1]; simpl in Hkeep. destruct r.
    + left. reflexivity.
    + pose proof (Hhandler e s1) as Hh. 
      destruct (handler e s1) as [r2 s2]; simpl in Hh.
      destruct r2; simpl; [left; reflexivity| | |]; right; rewrite Hh; congruence.
    + right. exact Hkeep.
    + right. exact Hkeep.
Qed.

Lemma succeedsOrKeeps_bind A (m : M A) (k : A -> M unit) :
  silent m -> (forall a, succeedsOrKeeps (k a)) -> succeedsOrKeeps (bind m k).
Proof.
  intros Hm Hk s Hs. destruct (Hm s Hs) as (Hd & _ & _). unfold bind.
  destruct (m s) as [r s1]; simpl in Hd. destruct r; simpl; auto.
  destruct (Hk a s1) as [Hok|Hkeep]; [congruence| |]; [left; exact Hok|right; congruence].
Qed.

End Transactions.

(** ** import and change-master are all-or-nothing *)

Ltac in_transaction :=
  repeat first
    [ apply returnsOrKeepsInTxn_commit
    | apply returnsOrKeepsInTxn_bind;
      [ first [ apply inTxn_execute; reflexivity
              | apply inTxn_insertEncrypted
              | apply silent_inTxn; solve [silence] ]
      | intro ] ].

Ltac guarded_body :=
  cbv zeta;
  repeat first
    [ apply returnsOrKeeps_begin; in_transaction
    | apply returnsOrKeeps_bind; [ solve [silence] | intro; cbv zeta ] ].

Ltac guarded_command :=
  cbv zeta;
  repeat first
    [ apply succeedsOrKeeps_bind; [ solve [silence] | intro; cbv zeta ]
    | apply succeedsOrKeeps_transaction;
      [ guarded_body
      | intro; apply keepsDisk_bind;
        [ apply keepsDisk_tryRollback | intro; apply silent_keepsDisk; silence ] ] ].

Section Atomicity.
Context {N : Node}.


Lemma succeedsOrKeeps_cmdChangeMaster (args : list string) :
  succeedsOrKeeps (cmdChangeMaster args).
Proof. unfold cmdChangeMaster. guarded_command. Qed.

(** Without a DB file a gated command ends at the gate at the latest. *)
Lemma gate_without_file (b : bool) (c : Check unit) (rest : unit -> M unit) (s : State) :
  disk s = None ->
  disk (snd (bind (if b then lift c else ret tt)
                  (fun _ => bind requireReadyState rest) s)) = disk s.
Proof.
  intros Hd.
  pose proof (requireReadyState_blocks (checkDbState_NO_DB s Hd)) as Hgate.
  destruct b.
  - unfold bind, lift. destruct c as [[code [message|]]|[]]; simpl.
    + destruct (String.eqb message ""); simpl; [reflexivity|].
      destruct (ExitCode.eqb code ExitCode.OK); reflexivity.
    + reflexivity.
    + change (disk (snd (bind requireReadyState rest s)) = disk s).
      rewrite (bind_Throw _ (Hgate ltac:(discriminate))). reflexivity.
  - rewrite (bind_Ret _ (ret_tt_runs s)).
    rewrite (bind_Throw _ (Hgate ltac:(discriminate))). reflexivity.
Qed.

Lemma main_succeeds (args : list string) (s : State) :
  fst (dispatch args s) = Throw (ExitSignal ExitCode.OK) -> fst (main args s) = Exited 0.
Proof.
  unfold main. destruct (dispatch args s) as [r s']; simpl. intros ->. reflexivity.
Qed.


Lemma change_master_all_or_nothing (args : list string) (s : State) :
  arg args 0 = Some "change-master" ->
  fst (main args s) <> Exited 0 -> disk (snd (main args s)) = disk s.
Proof.
  intros Hcmd Hfail. apply main_keeps_disk.
  assert (Hd : dispatch args s = cmdChangeMaster args s)
    by (unfold dispatch; rewrite Hcmd; reflexivity).
  destruct (disk s) as [d|] eqn:Hdisk.
  - rewrite <- Hdisk.
    destruct (succeedsOrKeeps_cmdChangeMaster args s) as [Hok|Hkeep]; [congruence| |].
    + exfalso. apply Hfail, main_succeeds. rewrite Hd. exact Hok.
    + rewrite Hd. exact Hkeep.
  - rewrite <- Hdisk. rewrite Hd. unfold cmdChangeMaster.
    apply gate_without_file, Hdisk.
Qed.

(** What [verifyMasterPassword] answers depends on the committed content
    only, once the process has ended. *)
Lemma verification_persists (pw : string) (a b : State) :
  disk a = disk b ->
  fst (verifyMasterPassword pw Handle (nextProcess a))
  = fst (verifyMasterPassword pw Handle (nextProcess b)).
Proof.
  intros H. unfold verifyMasterPassword, bind, query, view, nextProcess; simpl.
  rewrite H. destruct (disk b) as [d|]; simpl; [|reflexivity].
  destruct (SELECT_master d) as [m|[r|]]; simpl; try reflexivity.
  unfold timingSafeEqual. 
  destruct (Nat.eqb _ _); reflexivity.
Qed.

End Atomicity.

(** ** The strict CSV decoder refuses every violation *)

Section Decoder.

Lemma split_not_nil (sep : ascii) (text : string) : split sep text <> [].
Proof.
  destruct text as [|a rest]; simpl; [discriminate|].
  destruct (Ascii.eqb a sep); [discriminate|].
  destruct (split sep rest); discriminate.
Qed.

Lemma validate_three (parts : list string) :
  List.length parts = 3 -> [nth 0 parts ""; nth 1 parts ""; nth 2 parts ""] = parts.
Proof.
  destruct parts as [|a [|b [|c [|d rest]]]]; simpl; intros H; try discriminate; reflexivity.
Qed.

(** Whatever [parseLines] refuses, it refuses with a validation message. *)
Lemma parseLines_error_kind (filePath text : string) (len i : nat) (rest : list string)
  (acc : list CsvRecord) (e : ExitCall) :
  parseLines len i rest acc = inl e ->
  exists message,
    e = mkExit ExitCode.GENERAL_ERROR (Some message)
    /\ validationMessage filePath text message.
Proof.
  revert i acc. induction rest as [|line rest IH]; intros i acc; cbn [parseLines].
  - discriminate.
  - destruct (String.eqb line "" && Nat.eqb i (len - 1)); [apply IH|].
    destruct (String.eqb line "").
    { intros H. inversion H. eexists; split; [reflexivity|].
      unfold validationMessage. do 4 right. left. eauto. }
    destruct (negb (Nat.eqb (List.length (split COMMA line)) CsvSpec.columns)).
    { intros H. inversion H. eexists; split; [reflexivity|].
      unfold validationMessage. do 5 right. left. reflexivity. }
    cbv zeta.
    destruct (validateNoControlChars
                [nth 0 (split COMMA line) ""; nth 1 (split COMMA line) "";
                 nth 2 (split COMMA line) ""]) as [e'|[]] eqn:Hv; cbn [andThen].
    + intros H. inversion H; subst e'.
      assert (Hkind : forall values x,
                validateNoControlChars values = inl x ->
                x = mkExit ExitCode.GENERAL_ERROR (Some Messages.errors.controlChar)).
      { clear. induction values as [|v values IHv]; simpl; intros x Hx; [discriminate|].
        destruct (CONTROL_CHAR_RE v); [inversion Hx; reflexivity | apply IHv, Hx]. }
      rewrite (Hkind _ _ Hv). eexists; split; [reflexivity|].
      unfold validationMessage. do 6 right. reflexivity.
    + apply IH.
Qed.

(** A bad line anywhere makes [parseLines] fail. *)
Lemma parseLines_bad (len : nat) (rest : list string) :
  forall (i j : nat) (acc : list CsvRecord) (line : string),
    nth_error rest j = Some line -> badLine len (i + j) line ->
    exists e, parseLines len i rest acc = inl e.
Proof.
  induction rest as [|x rest IH]; intros i j acc line Hnth Hbad.
  - destruct j; discriminate.
  - cbn [parseLines]. destruct j as [|j].
    + simpl in Hnth. inversion Hnth; subst x. rewrite Nat.add_0_r in Hbad.
      destruct Hbad as [[-> Hidx]|[[Hne Hcols]|(field & Hin & Hctl)]].
      * apply Nat.eqb_neq in Hidx. rewrite Hidx. cbn. eexists; reflexivity.
      * apply String.eqb_neq in Hne. rewrite Hne. cbn [andb].
        apply Nat.eqb_neq in Hcols. rewrite Hcols. cbn. eexists; reflexivity.
      * assert (Hne : String.eqb line "" = false).
        { destruct line; [|reflexivity]. simpl in Hin. destruct Hin as [<-|[]]. discriminate. }
        rewrite Hne. cbn [andb].
        destruct (Nat.eqb (List.length (split COMMA line)) CsvSpec.columns) eqn:Hlen;
          cbn [negb]; [|cbn; eexists; reflexivity].
        apply Nat.eqb_eq in Hlen. cbv zeta. rewrite (validate_three _ Hlen).
        rewrite (validateNoControlChars_rejects _ field Hin Hctl). cbn. eexists; reflexivity.
    + simpl in Hnth. rewrite <- Nat.add_succ_comm in Hbad.
      destruct (String.eqb x "" && Nat.eqb i (len - 1)); [eapply IH; eassumption|].
      destruct (String.eqb x ""); [cbn; eexists; reflexivity|].
      destruct (negb (Nat.eqb (List.length (split COMMA x)) CsvSpec.columns)); [cbn; eexists; reflexivity|].
      cbv zeta.
      destruct (validateNoControlChars _) as [e'|[]]; cbn [andThen]; [eexists; reflexivity|].
      eapply IH; eassumption.
Qed.

Lemma parseCsvText_error_kind (filePath text : string) (e : ExitCall) :
  parseCsvText filePath text = inl e ->
  exists message,
    e = mkExit ExitCode.GENERAL_ERROR (Some message)
    /\ validationMessage filePath text message.
Proof.
  unfold parseCsvText.
  destruct (startsWith BOM text).
  { intros H; inversion H. eexists; split; [reflexivity|]. left. reflexivity. }
  destruct (includes CR text).
  { intros H; inversion H. eexists; split; [reflexivity|]. right; left. reflexivity. }
  cbv zeta.
  destruct (Nat.eqb (List.length (split CsvSpec.newline text)) 0
            || String.eqb (nth 0 (split CsvSpec.newline text) "") "").
  { intros H; inversion H. eexists; split; [reflexivity|]. do 2 right; left. reflexivity. }
  destruct (negb (String.eqb (nth 0 (split CsvSpec.newline text) "") CsvSpec.header)).
  { intros H; inversion H. eexists; split; [reflexivity|]. do 3 right; left. reflexivity. }
  apply parseLines_error_kind.
Qed.

Lemma parseCsvText_fails (filePath text : string) :
  Violation text -> exists e, parseCsvText filePath text = inl e.
Proof.
  intros V. unfold parseCsvText.
  destruct (startsWith BOM text) eqn:Hbom; [cbn; eexists; reflexivity|].
  destruct (includes CR text) eqn:Hcr; [cbn; eexists; reflexivity|].
  cbv zeta.
  destruct (Nat.eqb (List.length (split CsvSpec.newline text)) 0
            || String.eqb (nth 0 (split CsvSpec.newline text) "") ""); [cbn; eexists; reflexivity|].
  destruct (String.eqb_spec (nth 0 (split CsvSpec.newline text) "") CsvSpec.header)
    as [Hhd|Hhd]; cbn [negb]; [|cbn; eexists; reflexivity].
  assert (Hdata : forall i line, 0 < i ->
            nth_error (split CsvSpec.newline text) i = Some line ->
            badLine (List.length (split CsvSpec.newline text)) i line ->
            exists e, parseLines (List.length (split CsvSpec.newline text)) 1
                        (tl (split CsvSpec.newline text)) [] = inl e).
  { intros i line Hi Hnth Hbad. destruct i as [|i]; [lia|].
    apply (@parseLines_bad _ _ 1 i [] line).
    - destruct (split CsvSpec.newline text); [discriminate|exact Hnth].
    - exact Hbad. }
  destruct V as [H|H|H|i line Hi Hnth Hne Hcols|i line field Hi Hnth Hin Hctl|i Hi Hlast Hnth].
  - congruence.
  - congruence.
  - congruence.
  - apply (Hdata i line Hi Hnth). right; left. auto.
  - apply (Hdata i line Hi Hnth). right; right. eauto.
  - apply (Hdata i "" Hi Hnth). left. split; [reflexivity|lia].
Qed.

(** Every violation ends the decoder with a validation message. *)
Lemma parseCsvText_rejects (filePath text : string) :
  Violation text ->
  exists message,
    parseCsvText filePath text = exitWith ExitCode.GENERAL_ERROR message
    /\ validationMessage filePath text message.
Proof.
  intros V. destruct (parseCsvText_fails filePath V) as [e He].
  destruct (parseCsvText_error_kind filePath text He) as (message & -> & Hm).
  exists message. split; assumption.
Qed.

End Decoder.

(** ** rotate-master and import: the theorems *)

Section Rollback.
Context {N : Node}.

(** C1. Whenever change-master ends otherwise than with exit code 0 (a
    failure while decrypting, re-encrypting or writing, after any number
    of re-inserted rows), the committed content of the store (the master
    row with hash and salt, and every ciphertext) is what it was before,
    and every password is verified by the next process exactly as before. *)
Theorem change_master_atomic (args : list string) (s : State) :
  arg args 0 = Some "change-master" ->
  fst (main args s) <> Exited 0 ->
  disk (snd (main args s)) = disk s
  /\ forall pw,
       fst (verifyMasterPassword pw Handle (nextProcess (snd (main args s))))
       = fst (verifyMasterPassword pw Handle (nextProcess s)).
Proof.
  intros Hcmd Hfail.
  pose proof (change_master_all_or_nothing args s Hcmd Hfail) as Hd.
  split; [exact Hd|]. intros pw. apply verification_persists, Hd.
Qed.

Lemma validationMessage_not_empty (filePath text message : string) :
  validationMessage filePath text message -> String.eqb message "" = false.
Proof.
  intros [->|[->|[->|[->|[[line ->]|[->| ->]]]]]]; reflexivity.
Qed.

Lemma lift_error A (code : ExitCode.t) (message : string) (s : State) :
  String.eqb message "" = false -> code <> ExitCode.OK ->
  @lift A (exitWith code message) s
  = (Throw (ExitSignal code), write_stderr (printed message) s).
Proof.
  intros Hm Hc. unfold lift, exitWith; simpl. rewrite Hm.
  destruct code; try congruence; reflexivity.
Qed.

(** On a READY store and after a verified master password, a file that
    violates the format ends import with a validation message, in the
    state in which the password was obtained. *)
Lemma import_refuses_violation (args : list string) (s s1 : State)
  (masterPw text : string) :
  arg args 0 = Some "import" ->
  usageOk args = true ->
  checkDbState s = (Ret DbState.READY, s) ->
  getMasterPassword args 2 s = (Ret masterPw, s1) ->
  verifyMasterPassword masterPw Handle s1 = (Ret true, s1) ->
  toLowerCase (path_extname (argText args 1)) = CsvSpec.extension ->
  fs s1 (argText args 1) = Some (File text) ->
  Violation text ->
  exists message,
    validationMessage (argText args 1) text message
    /\ main args s = (Exited 1, write_stderr (printed message) s1)
    /\ disk s1 = disk s /\ txn s1 = txn s /\ written s1 = written s.
Proof.
  intros Hcmd Hu Hst Hpw Hver Hext Hfile V.
  destruct (parseCsvText_rejects (argText args 1) V) as (message & Hparse & Hmsg).
  exists message. split; [exact Hmsg|].
  assert (Hd : disk s <> None) by (apply (checkDbState_exists Hst); discriminate).
  pose proof (silent_getMasterPassword args 2 s Hd) as Hsilent.
  rewrite Hpw in Hsilent. cbn [snd] in Hsilent. destruct Hsilent as (Hd1 & Ht1 & Hw1).
  split; [|auto].
  unfold main, dispatch. unfold usageOk in Hu. rewrite Hcmd in *. cbv iota beta in *.
  unfold cmdImport. cbv zeta. rewrite Hu. cbn [negb].
  rewrite (bind_Ret _ (ret_tt_runs s)).
  rewrite (bind_Ret _ (requireReadyState_passes Hst)).
  rewrite (bind_Ret _ Hpw).
  assert (Hopen : openDb s1 = (Ret Handle, s1)).
  { unfold openDb. destruct (disk s1) eqn:E; [reflexivity|congruence]. }
  rewrite (bind_Ret _ Hopen). rewrite (bind_Ret _ Hver). cbn [negb].
  rewrite (bind_Ret _ (ret_tt_runs s1)).
  assert (Hfail : parseCsvFileStrict (argText args 1) s1
                  = (Throw (ExitSignal ExitCode.GENERAL_ERROR),
                     write_stderr (printed message) s1)).
  { unfold parseCsvFileStrict, requireCsvExtension.
    rewrite Hext. rewrite String.eqb_refl. cbn [negb].
    rewrite (bind_Ret _ (eq_refl : lift (pass tt) s1 = (Ret tt, s1))).
    assert (Hreq : requireExistingFile (argText args 1) s1 = (Ret tt, s1)).
    { unfold requireExistingFile, bind, existsSync, isDirectory. rewrite Hfile.
      cbn. rewrite Hfile. reflexivity. }
    rewrite (bind_Ret _ Hreq).
    assert (Hread : readFileSync (argText args 1) s1 = (Ret text, s1)).
    { unfold readFileSync. rewrite Hfile. reflexivity. }
    rewrite (bind_Ret _ Hread). rewrite Hparse.
    apply lift_error; [apply (validationMessage_not_empty Hmsg)|discriminate]. }
  rewrite (bind_Throw _ Hfail). reflexivity.
Qed.


End Rollback.

(** [change_master_atomic] on the sample vault of four records, with a
    storage failure on the third re-insert: BEGIN, UPDATE, DELETE and two
    INSERTs have run, the third INSERT fails, ROLLBACK follows. *)
Lemma change_master_fails_after_two_of_four :
  fst (@main Model.node Model.rotate (Model.failingAt 5 Model.vault)) = Exited 1
  /\ written (snd (@main Model.node Model.rotate (Model.failingAt 5 Model.vault)))
     = written Model.vault + 7
  /\ fst (@verifyMasterPassword Model.node "Passw0rd!" Handle
            (nextProcess (snd (@main Model.node Model.rotate
                                 (Model.failingAt 5 Model.vault))))) = Ret true
  /\ disk (snd (@main Model.node Model.rotate (Model.failingAt 5 Model.vault)))
     = disk (Model.failingAt 5 Model.vault)
  /\ forall pw,
       fst (@verifyMasterPassword Model.node pw Handle
              (nextProcess (snd (@main Model.node Model.rotate
                                   (Model.failingAt 5 Model.vault)))))
       = fst (@verifyMasterPassword Model.node pw Handle
                (nextProcess (Model.failingAt 5 Model.vault))).
Proof.
  split; [vm_compute; reflexivity|]. split; [vm_compute; reflexivity|].
  split; [vm_compute; reflexivity|].
  apply (@change_master_atomic Model.node Model.rotate (Model.failingAt 5 Model.vault)).
  - reflexivity.
  - vm_compute; discriminate.
Defined.


(** An import that fails on its third INSERT: the two inserted rows and
    the DELETE are rolled back. *)
Example import_fails_after_two_of_three :
  let s := Model.failingAt 4
             (set_stdin [Typed "y"] (Model.withFile "in.csv" Model.threeRows Model.vault)) in
  fst (@main Model.node (Model.importFrom "in.csv") s) = Exited 4
  /\ stderr (snd (@main Model.node (Model.importFrom "in.csv") s))
     = [printed Messages.errors.importFailed]
  /\ written (snd (@main Model.node (Model.importFrom "in.csv") s)) = written s + 6
  /\ disk (snd (@main Model.node (Model.importFrom "in.csv") s)) = disk Model.vault.
Proof. vm_compute. repeat split. Qed.

(** ** rotate-master: the order of the checks *)

Section RotateOrder.
Context {N : Node}.

Lemma askPassword_keeps_drawn (prompt : string) (s : State) :
  drawn (snd (askPassword prompt s)) = drawn s.
Proof. unfold askPassword. simpl. destruct (stdin s) as [|[text|] rest]; reflexivity. Qed.

Lemma oldMasterOf_keeps_drawn (args : list string) (s : State) :
  drawn (snd (oldMasterOf args s)) = drawn s.
Proof.
  unfold oldMasterOf. destruct (getOption args "--old-master"); [reflexivity|].
  apply askPassword_keeps_drawn.
Qed.

Lemma newMasterOf_keeps_drawn (args : list string) (s : State) :
  drawn (snd (newMasterOf args s)) = drawn s.
Proof.
  unfold newMasterOf. destruct (getOption args "--new-master"); [reflexivity|].
  unfold askNewMasterWithConfirm, bind.
  pose proof (askPassword_keeps_drawn Messages.prompts.enterNewMaster s) as H1.
  destruct (askPassword Messages.prompts.enterNewMaster s) as [[pw1|e|c|] s1];
    simpl in *; try exact H1.
  pose proof (askPassword_keeps_drawn Messages.prompts.confirmNewMaster s1) as H2.
  destruct (askPassword Messages.prompts.confirmNewMaster s1) as [[pw2|e|c|] s2];
    simpl in *; try congruence.
  destruct (negb (String.eqb pw1 pw2)); simpl; congruence.
Qed.

(** C3, as the code has it.  On a READY store, change-master obtains the
    old and the new password and compares them first: when they are equal
    it ends with "master password unchanged" and exit code 0 without
    verifying anything; only when they differ is the old password verified,
    and a wrong one ends the command with exit code 3.  In both cases no
    statement has been executed, no random byte drawn, and the store is
    unchanged. *)
Theorem change_master_order (args : list string) (s s1 s2 : State) (oldPw newPw : string) :
  arg args 0 = Some "change-master" ->
  usageOk args = true ->
  checkDbState s = (Ret DbState.READY, s) ->
  oldMasterOf args s = (Ret oldPw, s1) ->
  newMasterOf args s1 = (Ret newPw, s2) ->
  (oldPw = newPw ->
   main args s = (Exited 0, write_stdout (printed Messages.infos.masterUnchanged) s2))
  /\ (oldPw <> newPw ->
      verifyMasterPassword oldPw Handle s2 = (Ret false, s2) ->
      main args s = (Exited 3, write_stderr (printed Messages.errors.invalidOldMaster) s2))
  /\ disk s2 = disk s /\ txn s2 = txn s /\ written s2 = written s /\ drawn s2 = drawn s.
Proof.
  intros Hcmd Hu Hst Hold Hnew.
  assert (Hd : disk s <> None) by (apply (checkDbState_exists Hst); discriminate).
  pose proof (silent_oldMasterOf args s Hd) as H1. rewrite Hold in H1. cbn [snd] in H1.
  destruct H1 as (Hd1 & Ht1 & Hw1).
  assert (Hd1' : disk s1 <> None) by congruence.
  pose proof (silent_newMasterOf args s1 Hd1') as H2. rewrite Hnew in H2. cbn [snd] in H2.
  destruct H2 as (Hd2 & Ht2 & Hw2).
  pose proof (oldMasterOf_keeps_drawn args s) as Hr1. rewrite Hold in Hr1.
  pose proof (newMasterOf_keeps_drawn args s1) as Hr2. rewrite Hnew in Hr2.
  cbn [snd] in Hr1, Hr2.
  unfold main, dispatch. unfold usageOk in Hu. rewrite Hcmd in *. cbv iota beta in *.
  unfold cmdChangeMaster. rewrite Hu. cbn [negb].
  rewrite (bind_Ret _ (ret_tt_runs s)).
  rewrite (bind_Ret _ (requireReadyState_passes Hst)).
  rewrite (bind_Ret _ Hold). rewrite (bind_Ret _ Hnew).
  repeat split; try congruence.
  - intros ->. rewrite String.eqb_refl. reflexivity.
  - intros Hne Hver. apply String.eqb_neq in Hne. rewrite Hne.
    rewrite (bind_Ret _ (ret_tt_runs s2)).
    assert (Hopen : openDb s2 = (Ret Handle, s2)).
    { unfold openDb. destruct (disk s2) eqn:E; [reflexivity|congruence]. }
    rewrite (bind_Ret _ Hopen). rewrite (bind_Ret _ Hver). reflexivity.
Qed.

End RotateOrder.

(** [change_master_order] on the sample vault, with both passwords given
    as options: a rotation to the same password. *)
Lemma change_master_order_vault :
  @main Model.node
    ["change-master"; "--old-master"; "Passw0rd!"; "--new-master"; "Passw0rd!"] Model.vault
  = (Exited 0, write_stdout (printed Messages.infos.masterUnchanged) Model.vault).
Proof.
  refine (proj1 (@change_master_order Model.node
                   ["change-master"; "--old-master"; "Passw0rd!"; "--new-master"; "Passw0rd!"]
                   Model.vault Model.vault Model.vault "Passw0rd!" "Passw0rd!"
                   _ _ _ _ _) _); reflexivity.
Defined.

(** With the same wrong password as old and new master, change-master
    reports success without an authentication failure. *)
Lemma change_master_skips_verification :
  fst (@verifyMasterPassword Model.node "guess" Handle Model.vault) = Ret false
  /\ @main Model.node
       ["change-master"; "--old-master"; "guess"; "--new-master"; "guess"] Model.vault
     = (Exited 0, write_stdout (printed Messages.infos.masterUnchanged) Model.vault).
Proof. split; vm_compute; reflexivity. Qed.

(** ** import: the order of the steps *)

Section KeepsStdin.
Context {N : Node}.

Lemma keepsStdin_ret A (a : A) : keepsStdin (ret a).
Proof. intros s; reflexivity. Qed.

Lemma keepsStdin_throw A e : keepsStdin (@throw A e).
Proof. intros s; reflexivity. Qed.

Lemma keepsStdin_lift A (c : Check A) : keepsStdin (lift c).
Proof.
  intros s. unfold lift. destruct c as [[code [message|]]|a]; simpl; auto.
  destruct (String.eqb message ""); simpl; auto.
  destruct (ExitCode.eqb code ExitCode.OK); reflexivity.
Qed.

Lemma keepsStdin_bind A B (m : M A) (k : A -> M B) :
  keepsStdin m -> (forall a, keepsStdin (k a)) -> keepsStdin (bind m k).
Proof.
  intros Hm Hk s. specialize (Hm s). unfold bind.
  destruct (m s) as [r s1]; simpl in Hm. destruct r; simpl; auto.
  rewrite <- Hm. apply Hk.
Qed.

Lemma keepsStdin_tryCatch A (m : M A) (h : Thrown -> M A) :
  keepsStdin m -> (forall e, keepsStdin (h e)) -> keepsStdin (tryCatch m h).
Proof.
  intros Hm Hh s. specialize (Hm s). unfold tryCatch.
  destruct (m s) as [r s1]; simpl in Hm. destruct r; simpl; auto.
  rewrite <- Hm. apply Hh.
Qed.

Lemma keepsStdin_query A db (select : Database -> string + A) : keepsStdin (query db select).
Proof.
  intros s. unfold query. destruct (view s) as [d|]; simpl; auto.
  destruct (select d); reflexivity.
Qed.

Lemma keepsStdin_execute db (q : Sql) : keepsStdin (execute db q).
Proof.
  intros s. destruct s as [dk tx f k e dr wf wr so se]. unfold execute, view; simpl.
  destruct (wf wr); [reflexivity|].
  destruct q; simpl; destruct tx as [t|]; simpl; try destruct dk as [d|]; simpl;
    try reflexivity;
    repeat match goal with
    | |- context [match ?x with _ => _ end] => destruct x; simpl; try reflexivity
    end.
Qed.

Lemma keepsStdin_encrypt plain key : keepsStdin (encrypt plain key).
Proof.
  unfold encrypt. apply keepsStdin_bind; [intros s; reflexivity|]. intros iv.
  apply keepsStdin_bind.
  - unfold requireKeyLength. destruct (Nat.eqb _ _);
      [apply keepsStdin_ret | apply keepsStdin_throw].
  - intros _. apply keepsStdin_ret.
Qed.

Lemma keepsStdin_insertEncrypted db records key :
  keepsStdin (insertEncrypted db records key).
Proof.
  induction records as [|r rest IH]; simpl; [apply keepsStdin_ret|].
  apply keepsStdin_bind; [apply keepsStdin_encrypt|]. intros encrypted.
  apply keepsStdin_bind; [apply keepsStdin_execute|]. intros _. exact IH.
Qed.

Lemma keepsStdin_getMasterSalt db : keepsStdin (getMasterSalt db).
Proof.
  unfold getMasterSalt. apply keepsStdin_bind; [apply keepsStdin_query|].
  intros [r|]; [apply keepsStdin_ret | apply keepsStdin_lift].
Qed.

Lemma keepsStdin_tryRollback db : keepsStdin (tryRollback db).
Proof.
  unfold tryRollback. apply keepsStdin_tryCatch.
  - apply keepsStdin_bind; [apply keepsStdin_execute | intros _; apply keepsStdin_ret].
  - intros _. apply keepsStdin_ret.
Qed.

(** The transaction of [cmdImport] and what follows it. *)
Lemma keepsStdin_import_transaction db (masterPw : string) (records : list CsvRecord) :
  @keepsStdin unit
    (bind (tryCatch
             (bind (getMasterSalt db) (fun salt_ =>
                let key := deriveKey masterPw salt_ in
                bind (execute db BEGIN) (fun _ =>
                bind (execute db DELETE_credentials) (fun _ =>
                bind (insertEncrypted db records key) (fun _ =>
                bind (execute db COMMIT) (fun _ => ret tt))))))
             (fun _ =>
                bind (tryRollback db) (fun _ =>
                lift (exitWith ExitCode.IO_DB_ERROR Messages.errors.importFailed))))
          (fun _ =>
             lift (exitWith ExitCode.OK
                     ("Success: imported " ++ show (List.length records) ++ " records.")))).
Proof.
  apply keepsStdin_bind; [|intros _; apply keepsStdin_lift].
  apply keepsStdin_tryCatch.
  - apply keepsStdin_bind; [apply keepsStdin_getMasterSalt|]. intros salt_. cbv zeta.
    apply keepsStdin_bind; [apply keepsStdin_execute|]. intros _.
    apply keepsStdin_bind; [apply keepsStdin_execute|]. intros _.
    apply keepsStdin_bind; [apply keepsStdin_insertEncrypted|]. intros _.
    apply keepsStdin_bind; [apply keepsStdin_execute|]. intros _. apply keepsStdin_ret.
  - intros _. apply keepsStdin_bind; [apply keepsStdin_tryRollback|].
    intros _. apply keepsStdin_lift.
Qed.

Lemma main_keeps_stdin (args : list string) (s : State) :
  stdin (snd (main args s)) = stdin (snd (dispatch args s)).
Proof.
  unfold main. destruct (dispatch args s) as [[a|[c|m]|c|] s']; reflexivity.
Qed.

End KeepsStdin.

Section ImportOrder.
Context {N : Node}.

(** C4, as the code has it.  On a READY store, import first verifies the
    master password: a wrong one ends the command with the authentication
    failure (exit 3) whatever the file holds.  Only then is the file read
    and validated: a violation ends the command with a validation message
    (exit 1) and no confirmation is asked.  Only for a valid file, and only
    when the store holds rows, is the confirmation asked: the answer n
    cancels the import; with no rows no key is read. *)
Theorem import_order (args : list string) (s s1 : State) (masterPw : string) :
  arg args 0 = Some "import" ->
  usageOk args = true ->
  checkDbState s = (Ret DbState.READY, s) ->
  getMasterPassword args 2 s = (Ret masterPw, s1) ->
  (verifyMasterPassword masterPw Handle s1 = (Ret false, s1) ->
   main args s = (Exited 3, write_stderr (printed Messages.errors.authFailed) s1))
  /\ (verifyMasterPassword masterPw Handle s1 = (Ret true, s1) ->
      forall text,
        toLowerCase (path_extname (argText args 1)) = CsvSpec.extension ->
        fs s1 (argText args 1) = Some (File text) ->
        (Violation text ->
         exists message,
           validationMessage (argText args 1) text message
           /\ main args s = (Exited 1, write_stderr (printed message) s1))
        /\ (forall records d rows,
              parseCsvText (argText args 1) text = pass records ->
              txn s = None -> disk s = Some d -> credentials d = Some rows ->
              (rows <> [] -> toLowerCase "y" = "y" -> toLowerCase "n" = "n" ->
               forall rest, stdin s1 = Typed "n" :: rest ->
               main args s
               = (Exited 0,
                  write_stdout (printed Messages.infos.importCanceled)
                    (write_stdout ("n" ++ chr LF)
                       (set_stdin rest
                          (write_stdout
                             (Messages.prompts.confirmImportReplace (List.length rows))
                             s1)))))
              /\ (rows = [] -> stdin (snd (main args s)) = stdin s1))).
Proof.
  intros Hcmd Hu Hst Hpw.
  assert (Hd : disk s <> None) by (apply (checkDbState_exists Hst); discriminate).
  pose proof (silent_getMasterPassword args 2 s Hd) as Hsilent.
  rewrite Hpw in Hsilent. cbn [snd] in Hsilent. destruct Hsilent as (Hd1 & Ht1 & Hw1).
  assert (Hopen : openDb s1 = (Ret Handle, s1)).
  { unfold openDb. destruct (disk s1) eqn:E; [reflexivity|congruence]. }
  assert (Hstart : forall verdict,
            verifyMasterPassword masterPw Handle s1 = (Ret verdict, s1) ->
            dispatch args s
            = bind (if negb verdict
                    then lift (exitWith ExitCode.AUTH_ERROR Messages.errors.authFailed)
                    else ret tt)
                (fun _ =>
                 bind (parseCsvFileStrict (argText args 1)) (fun records =>
                 bind (query Handle SELECT_COUNT_credentials) (fun existingCount =>
                 bind (if Nat.ltb 0 existingCount then
                         bind (askChoice (Messages.prompts.confirmImportReplace existingCount)
                                 ["y"; "n"])
                              (fun choice =>
                                 if String.eqb choice "n"
                                 then lift (exitWith ExitCode.OK Messages.infos.importCanceled)
                                 else ret tt)
                       else ret tt)
                 (fun _ =>
                 bind (tryCatch
                        (bind (getMasterSalt Handle) (fun salt_ =>
                           let key := deriveKey masterPw salt_ in
                           bind (execute Handle BEGIN) (fun _ =>
                           bind (execute Handle DELETE_credentials) (fun _ =>
                           bind (insertEncrypted Handle records key) (fun _ =>
                           bind (execute Handle COMMIT) (fun _ => ret tt))))))
                        (fun _ =>
                           bind (tryRollback Handle) (fun _ =>
                           lift (exitWith ExitCode.IO_DB_ERROR
                                   Messages.errors.importFailed))))
                 (fun _ =>
                    lift (exitWith ExitCode.OK
                            ("Success: imported " ++ show (List.length records)
                               ++ " records."))))))) s1).
  { intros verdict Hver. unfold dispatch. unfold usageOk in Hu. rewrite Hcmd in *.
    cbv iota beta in *. unfold cmdImport. cbv zeta. rewrite Hu. cbn [negb].
    rewrite (bind_Ret _ (ret_tt_runs s)).
    rewrite (bind_Ret _ (requireReadyState_passes Hst)).
    rewrite (bind_Ret _ Hpw). rewrite (bind_Ret _ Hopen). rewrite (bind_Ret _ Hver).
    reflexivity. }
  split.
  - intros Hver. unfold main. rewrite (Hstart false Hver). reflexivity.
  - intros Hver text Hext Hfile. split.
    + intros V.
      destruct (import_refuses_violation args Hcmd Hu Hst Hpw Hver Hext Hfile V)
        as (message & Hm & Hrun & _).
      exists message. split; assumption.
    + intros records d rows Hparse Htxn Hdisk Hrows.
      assert (Hread : parseCsvFileStrict (argText args 1) s1 = (Ret records, s1)).
      { unfold parseCsvFileStrict, requireCsvExtension.
        rewrite Hext. rewrite String.eqb_refl. cbn [negb].
        rewrite (bind_Ret _ (eq_refl : lift (pass tt) s1 = (Ret tt, s1))).
        assert (Hreq : requireExistingFile (argText args 1) s1 = (Ret tt, s1)).
        { unfold requireExistingFile, bind, existsSync, isDirectory. rewrite Hfile.
          cbn. rewrite Hfile. reflexivity. }
        rewrite (bind_Ret _ Hreq).
        assert (Hfs : readFileSync (argText args 1) s1 = (Ret text, s1)).
        { unfold readFileSync. rewrite Hfile. reflexivity. }
        rewrite (bind_Ret _ Hfs). rewrite Hparse. reflexivity. }
      assert (Hcount : query Handle SELECT_COUNT_credentials s1
                       = (Ret (List.length rows), s1)).
      { unfold query, view. rewrite Ht1, Htxn, Hd1, Hdisk.
        unfold SELECT_COUNT_credentials. rewrite Hrows. reflexivity. }
      split.
      * intros Hne Hy Hn rest Hkeys. unfold main. rewrite (Hstart true Hver).
        cbn [negb]. rewrite (bind_Ret _ (ret_tt_runs s1)).
        rewrite (bind_Ret _ Hread). rewrite (bind_Ret _ Hcount).
        assert (Hask : forall prompt,
                  askChoice prompt ["y"; "n"] s1
                  = (Ret "n",
                     write_stdout ("n" ++ chr LF)
                       (set_stdin rest (write_stdout prompt s1)))).
        { intros prompt. unfold askChoice. rewrite Hkeys. cbn [map askChoiceLoop].
          rewrite Hy, Hn. reflexivity. }
        destruct rows as [|r rows']; [congruence|]. cbn [List.length Nat.ltb Nat.leb].
        rewrite bind_assoc. rewrite (bind_Ret _ (Hask _)). reflexivity.
      * intros ->. rewrite main_keeps_stdin. rewrite (Hstart true Hver).
        cbn [negb]. rewrite (bind_Ret _ (ret_tt_runs s1)).
        rewrite (bind_Ret _ Hread). rewrite (bind_Ret _ Hcount).
        cbn [List.length Nat.ltb Nat.leb]. rewrite (bind_Ret _ (ret_tt_runs s1)).
        apply keepsStdin_import_transaction.
Qed.

End ImportOrder.

(** [import_order] on the sample vault: the file is valid, the store
    holds four rows, and the operator answers n. *)
Lemma import_order_cancelled :
  @main Model.node (Model.importFrom "in.csv")
    (set_stdin [Typed "n"] (Model.withFile "in.csv" Model.threeRows Model.vault))
  = (Exited 0,
     write_stdout (printed Messages.infos.importCanceled)
       (write_stdout ("n" ++ chr LF)
          (set_stdin []
             (write_stdout
                (Messages.prompts.confirmImportReplace (List.length Model.vaultRows))
                (set_stdin [Typed "n"]
                   (Model.withFile "in.csv" Model.threeRows Model.vault)))))).
Proof.
  pose (s := set_stdin [Typed "n"] (Model.withFile "in.csv" Model.threeRows Model.vault)).
  destruct (@import_order Model.node (Model.importFrom "in.csv") s s "Passw0rd!")
    as [_ Hvalid].
  - reflexivity.
  - reflexivity.
  - vm_compute; reflexivity.
  - reflexivity.
  - destruct (Hvalid ltac:(vm_compute; reflexivity) Model.threeRows eq_refl eq_refl)
      as [_ Hconfirm].
    destruct (Hconfirm [mkCsvRecord "a" "b" "c"; mkCsvRecord "d" "e" "f";
                        mkCsvRecord "g" "h" "i"]
                Model.vaultContent Model.vaultRows) as [Hcancel _].
    + vm_compute; reflexivity.
    + reflexivity.
    + vm_compute; reflexivity.
    + vm_compute; reflexivity.
    + apply (Hcancel ltac:(vm_compute; discriminate) eq_refl eq_refl [] eq_refl).
Defined.

(** With a wrong master password and a malformed file, import reports
    the authentication failure and not the validation error. *)
Lemma import_authenticates_before_parsing :
  parseCsvText "in.csv" Model.twoColumns
  = exitWith ExitCode.GENERAL_ERROR Messages.errors.invalidImportFormat
  /\ fst (@verifyMasterPassword Model.node "guess" Handle
            (Model.withFile "in.csv" Model.twoColumns Model.vault)) = Ret false
  /\ @main Model.node ["import"; "in.csv"; "--master"; "guess"]
       (Model.withFile "in.csv" Model.twoColumns Model.vault)
     = (Exited 3,
        write_stderr (printed Messages.errors.authFailed)
          (Model.withFile "in.csv" Model.twoColumns Model.vault)).
Proof.
  split; [vm_compute; reflexivity|].
  split; vm_compute; reflexivity.
Qed.

(* ===================================================================== *)
(** * Further properties of the program *)
(* ===================================================================== *)

(** ** Which commands can change the store *)

Section StoreChanges.
Context {N : Node}.

Lemma gate_without_file_written (b : bool) (c : Check unit) (rest : unit -> M unit)
  (s : State) :
  disk s = None ->
  written (snd (bind (if b then lift c else ret tt)
                     (fun _ => bind requireReadyState rest) s)) = written s.
Proof.
  intros Hd.
  pose proof (requireReadyState_blocks (checkDbState_NO_DB s Hd)) as Hgate.
  destruct b.
  - unfold bind, lift. destruct c as [[code [message|]]|[]]; simpl.
    + destruct (String.eqb message ""); simpl; [reflexivity|].
      destruct (ExitCode.eqb code ExitCode.OK); reflexivity.
    + reflexivity.
    + change (written (snd (bind requireReadyState rest s)) = written s).
      rewrite (bind_Throw _ (Hgate ltac:(discriminate))). reflexivity.
  - rewrite (bind_Ret _ (ret_tt_runs s)).
    rewrite (bind_Throw _ (Hgate ltac:(discriminate))). reflexivity.
Qed.

(** X1. The commands get, list, status, export and help never change
    the committed content of the store and execute no statement, whatever
    the arguments, the state of the store and the outcome. *)
Theorem read_only_commands (args : list string) (s : State) (cmd : string) :
  In cmd readOnly -> arg args 0 = Some cmd ->
  disk (snd (main args s)) = disk s /\ written (snd (main args s)) = written s.
Proof.
  intros Hin Hcmd.
  assert (H : disk (snd (dispatch args s)) = disk s
              /\ written (snd (dispatch args s)) = written s).
  { simpl in Hin.
    destruct Hin as [<-|[<-|[<-|[<-|[<-|[]]]]]].
    - assert (Hd : dispatch args s = cmdGet args s)
        by (unfold dispatch; rewrite Hcmd; reflexivity).
      rewrite Hd. destruct (disk s) as [d|] eqn:Hdisk.
      + rewrite <- Hdisk.
        destruct (silent_cmdGet args s) as (H1 & _ & H3); [congruence|]. auto.
      + rewrite <- Hdisk. unfold cmdGet. split.
        * apply gate_without_file, Hdisk.
        * apply gate_without_file_written, Hdisk.
    - assert (Hd : dispatch args s = cmdList args s)
        by (unfold dispatch; rewrite Hcmd; reflexivity).
      rewrite Hd. destruct (disk s) as [d|] eqn:Hdisk.
      + rewrite <- Hdisk.
        destruct (silent_cmdList args s) as (H1 & _ & H3); [congruence|]. auto.
      + rewrite <- Hdisk. unfold cmdList. cbv zeta. split.
        * apply gate_without_file, Hdisk.
        * apply gate_without_file_written, Hdisk.
    - destruct (status_read_only args s Hcmd) as [H1 H2].
      unfold main in H1, H2.
      destruct (dispatch args s) as [[a|[c|m]|c|] s']; simpl in *; auto.
    - assert (Hd : dispatch args s = cmdExport args s)
        by (unfold dispatch; rewrite Hcmd; reflexivity).
      rewrite Hd. destruct (disk s) as [d|] eqn:Hdisk.
      + rewrite <- Hdisk.
        destruct (silent_cmdExport args s) as (H1 & _ & H3); [congruence|]. auto.
      + rewrite <- Hdisk. unfold cmdExport. cbv zeta. split.
        * apply gate_without_file, Hdisk.
        * apply gate_without_file_written, Hdisk.
    - unfold dispatch. rewrite Hcmd. split; reflexivity. }
  destruct H. split; [apply main_keeps_disk | apply main_keeps_written]; assumption.
Qed.

Lemma returnsOrKeepsInTxn_abort A db (code : ExitCode.t) (message : string)
  (k : unit -> M A) (b : bool) :
  returnsOrKeepsInTxn (k tt) ->
  returnsOrKeepsInTxn
    (bind (if b then bind (execute db ROLLBACK) (fun _ => lift (exitWith code message))
           else ret tt) k).
Proof.
  intros Hk s Hs Ht. destruct b.
  - right. unfold bind.
    pose proof (keepsDisk_rollback db s Hs) as Hr.
    destruct (execute db ROLLBACK s) as [[a|e|c|] s1]; simpl in *; try exact Hr.
    unfold lift, exitWith; simpl.
    destruct (String.eqb message ""); simpl; [exact Hr|].
    destruct (ExitCode.eqb code ExitCode.OK); simpl; exact Hr.
  - rewrite (bind_Ret _ (ret_tt_runs s)). apply Hk; assumption.
Qed.

Lemma succeedsOrKeeps_cmdAdd (args : list string) : succeedsOrKeeps (cmdAdd args).
Proof. unfold cmdAdd. guarded_command. Qed.

Lemma succeedsOrKeeps_cmdDel (args : list string) : succeedsOrKeeps (cmdDel args).
Proof.
  unfold cmdDel.
  repeat (apply succeedsOrKeeps_bind; [ solve [silence] | intro; cbv zeta ]).
  apply succeedsOrKeeps_transaction.
  - apply returnsOrKeeps_begin.
    apply returnsOrKeepsInTxn_bind; [apply inTxn_execute; reflexivity|]. intros changes.
    apply returnsOrKeepsInTxn_abort. apply returnsOrKeepsInTxn_commit.
  - intro. apply keepsDisk_bind; [apply keepsDisk_tryRollback|].
    intro. apply silent_keepsDisk. silence.
Qed.

(** X2. add and del are all-or-nothing: whenever one of them ends
    otherwise than with exit code 0 (wrong password, duplicate or missing
    entry, a storage failure on any statement), the committed content of
    the store is what it was before. *)
Theorem add_del_all_or_nothing (args : list string) (s : State) :
  arg args 0 = Some "add" \/ arg args 0 = Some "del" ->
  fst (main args s) <> Exited 0 -> disk (snd (main args s)) = disk s.
Proof.
  intros Hcmd Hfail. apply main_keeps_disk.
  destruct Hcmd as [Hcmd|Hcmd].
  - assert (Hd : dispatch args s = cmdAdd args s)
      by (unfold dispatch; rewrite Hcmd; reflexivity).
    destruct (disk s) as [d|] eqn:Hdisk.
    + rewrite <- Hdisk.
      destruct (succeedsOrKeeps_cmdAdd args s) as [Hok|Hkeep]; [congruence| |].
      * exfalso. apply Hfail, main_succeeds. rewrite Hd. exact Hok.
      * rewrite Hd. exact Hkeep.
    + rewrite <- Hdisk. rewrite Hd. unfold cmdAdd. cbv zeta.
      apply gate_without_file, Hdisk.
  - assert (Hd : dispatch args s = cmdDel args s)
      by (unfold dispatch; rewrite Hcmd; reflexivity).
    destruct (disk s) as [d|] eqn:Hdisk.
    + rewrite <- Hdisk.
      destruct (succeedsOrKeeps_cmdDel args s) as [Hok|Hkeep]; [congruence| |].
      * exfalso. apply Hfail, main_succeeds. rewrite Hd. exact Hok.
      * rewrite Hd. exact Hkeep.
    + rewrite <- Hdisk. rewrite Hd. unfold cmdDel.
      apply gate_without_file, Hdisk.
Qed.

End StoreChanges.

(** [read_only_commands] on an export of the sample vault. *)
Lemma read_only_commands_export :
  disk (snd (@main Model.node ["export"; "out.csv"; "--master"; "Passw0rd!"] Model.vault))
  = disk Model.vault
  /\ written (snd (@main Model.node ["export"; "out.csv"; "--master"; "Passw0rd!"]
                    Model.vault))
     = written Model.vault.
Proof.
  apply (@read_only_commands Model.node
           ["export"; "out.csv"; "--master"; "Passw0rd!"] Model.vault "export").
  - simpl; auto.
  - reflexivity.
Defined.

(** [add_del_all_or_nothing] on an [add] whose INSERT fails. *)
Lemma add_del_all_or_nothing_fault :
  disk (snd (@main Model.node ["add"; "bank"; "erin"; "pw5"; "--master"; "Passw0rd!"]
               (Model.failingAt 1 Model.vault)))
  = disk (Model.failingAt 1 Model.vault).
Proof.
  apply (@add_del_all_or_nothing Model.node
           ["add"; "bank"; "erin"; "pw5"; "--master"; "Passw0rd!"]
           (Model.failingAt 1 Model.vault)).
  - left; reflexivity.
  - vm_compute; discriminate.
Defined.

(** ** del and add: the refused cases *)

Section Refusals.
Context {N : Node}.

Lemma filter_none (A : Type) (p : A -> bool) (l : list A) :
  (forall x, In x l -> p x = false) -> filter p l = [].
Proof.
  induction l as [|x l IH]; intros H; simpl; [reflexivity|].
  rewrite (H x (or_introl eq_refl)). apply IH. intros y Hy. apply H. now right.
Qed.

(** X3. del of an entry that does not exist, on a READY store with a
    verified master password and a storage engine that does not fail:
    the [exitWith] for "Entry not found." is thrown inside the [try] and
    caught by its own [catch], so the command prints "Error: Entry not
    found." and then "Error accessing DB: [object Object]" and ends with
    exit code 4, not 1; the store is unchanged. *)
Theorem del_missing_entry (args : list string) (s s1 : State) (masterPw : string)
  (d : Database) (rows : list Credential) :
  arg args 0 = Some "del" ->
  usageOk args = true ->
  checkDbState s = (Ret DbState.READY, s) ->
  getMasterPassword args 3 s = (Ret masterPw, s1) ->
  verifyMasterPassword masterPw Handle s1 = (Ret true, s1) ->
  txn s = None -> disk s = Some d -> credentials d = Some rows ->
  (forall r, In r rows -> sameKey (argText args 1) (argText args 2) r = false) ->
  (forall n, write_fault s1 n = false) ->
  fst (main args s) = Exited 4
  /\ stderr (snd (main args s))
     = (stderr s1 ++ [printed Messages.errors.entryNotFound;
                      printed "Error accessing DB: [object Object]"])%list
  /\ disk (snd (main args s)) = disk s.
Proof.
  intros Hcmd Hu Hst Hpw Hver Htxn Hdisk Hrows Hmiss Hwf.
  assert (Hd : disk s <> None) by congruence.
  pose proof (silent_getMasterPassword args 3 s Hd) as Hsilent.
  rewrite Hpw in Hsilent. cbn [snd] in Hsilent. destruct Hsilent as (Hd1 & Ht1 & _).
  rewrite Hdisk in Hd1. rewrite Htxn in Ht1.
  assert (Hopen : openDb s1 = (Ret Handle, s1)) by (unfold openDb; rewrite Hd1; reflexivity).
  unfold main, dispatch. unfold usageOk in Hu. rewrite Hcmd in *. cbv iota beta in *.
  unfold cmdDel. apply negb_true_iff in Hu. rewrite Hu.
  rewrite (bind_Ret _ (ret_tt_runs s)).
  rewrite (bind_Ret _ (requireReadyState_passes Hst)).
  rewrite (bind_Ret _ Hpw). rewrite (bind_Ret _ Hopen). rewrite (bind_Ret _ Hver).
  cbn [negb]. rewrite (bind_Ret _ (ret_tt_runs s1)).
  rewrite Hdisk.
  destruct s1 as [dk tx f k e dr wf wr so se]. simpl in Hd1, Ht1, Hwf. subst dk tx.
  destruct d as [ic m c]. simpl in Hrows. subst c.
  unfold tryRollback; unfold bind, tryCatch, execute, view, lift, ret; simpl.
  repeat (rewrite Hwf; simpl).
  rewrite (@filter_none _ _ rows Hmiss). simpl.
  repeat (rewrite Hwf; simpl).
  split; [reflexivity|]. split; [|reflexivity].
  rewrite <- app_assoc. reflexivity.
Qed.

(** X4. add of an entry whose (service, username) is already stored, on
    a READY store with a verified master password, a 32-byte derived key
    and a storage engine that does not fail: the INSERT is refused, the
    transaction rolled back, and the command ends with "Entry already
    exists" and exit code 1; the store is unchanged. *)
Theorem add_duplicate_entry (args : list string) (s s1 : State) (masterPw : string)
  (d : Database) (rows : list Credential) :
  arg args 0 = Some "add" ->
  usageOk args = true ->
  checkDbState s = (Ret DbState.READY, s) ->
  getMasterPassword args 4 s = (Ret masterPw, s1) ->
  verifyMasterPassword masterPw Handle s1 = (Ret true, s1) ->
  (forall v, In v [argText args 1; argText args 2; argText args 3] ->
             CONTROL_CHAR_RE v = false) ->
  (forall salt_, List.length (deriveKey masterPw salt_) = 32) ->
  txn s = None -> disk s = Some d -> credentials d = Some rows ->
  existsb (sameKey (argText args 1) (argText args 2)) rows = true ->
  (forall n, write_fault s1 n = false) ->
  fst (main args s) = Exited 1
  /\ stderr (snd (main args s))
     = (stderr s1 ++ [printed ("Entry already exists: " ++ argText args 1 ++ " "
                                 ++ argText args 2)])%list
  /\ disk (snd (main args s)) = disk s.
Proof.
  intros Hcmd Hu Hst Hpw Hver Hclean Hkey Htxn Hdisk Hrows Hdup Hwf.
  assert (Hd : disk s <> None) by congruence.
  pose proof (silent_getMasterPassword args 4 s Hd) as Hsilent.
  rewrite Hpw in Hsilent. cbn [snd] in Hsilent. destruct Hsilent as (Hd1 & Ht1 & _).
  rewrite Hdisk in Hd1. rewrite Htxn in Ht1.
  assert (Hopen : openDb s1 = (Ret Handle, s1)) by (unfold openDb; rewrite Hd1; reflexivity).
  assert (Hsalt : exists r, getMasterSalt Handle s1 = (Ret (salt r), s1)).
  { unfold verifyMasterPassword, getMasterSalt, bind, query, view in *.
    rewrite Ht1, Hd1 in *. destruct (SELECT_master d) as [m|[r|]]; simpl in *;
      try discriminate.
    exists r. reflexivity. }
  destruct Hsalt as [r Hsalt].
  unfold main, dispatch. unfold usageOk in Hu. rewrite Hcmd in *. cbv iota beta in *.
  unfold cmdAdd. cbv zeta. rewrite Hu. cbn [negb].
  rewrite (bind_Ret _ (ret_tt_runs s)).
  rewrite (bind_Ret _ (requireReadyState_passes Hst)).
  rewrite (bind_Ret _ Hpw).
  rewrite (validateNoControlChars_accepts _ Hclean).
  rewrite (bind_Ret _ (eq_refl : lift (pass tt) s1 = (Ret tt, s1))).
  rewrite (bind_Ret _ Hopen). rewrite (bind_Ret _ Hver).
  cbn [negb]. rewrite (bind_Ret _ (ret_tt_runs s1)).
  rewrite (bind_Ret _ Hsalt).
  assert (Henc : encrypt (argText args 3) (deriveKey masterPw (salt r)) s1
                 = (Ret (toString_base64
                           (map (entropy s1) (seq (drawn s1) 12)
                              ++ snd (aes_256_gcm_seal (deriveKey masterPw (salt r))
                                        (map (entropy s1) (seq (drawn s1) 12))
                                        (list_byte_of_string (argText args 3)))
                              ++ fst (aes_256_gcm_seal (deriveKey masterPw (salt r))
                                        (map (entropy s1) (seq (drawn s1) 12))
                                        (list_byte_of_string (argText args 3))))%list),
                    set_drawn (drawn s1 + 12) s1)).
  { unfold encrypt, bind, randomBytes, requireKeyLength. rewrite Hkey. reflexivity. }
  rewrite (bind_Ret _ Henc).
  rewrite Hdisk.
  destruct s1 as [dk tx f k e dr wf wr so se]. simpl in Hd1, Ht1, Hwf. subst dk tx.
  destruct d as [ic m c]. simpl in Hrows. subst c.
  unfold tryRollback; unfold bind, tryCatch, execute, view, lift, ret, set_drawn; simpl.
  repeat (rewrite Hwf; simpl).
  rewrite Hdup. simpl.
  repeat (rewrite Hwf; simpl).
  repeat split; reflexivity.
Qed.

End Refusals.

Lemma model_key_length (pw salt_ : string) :
  List.length (@deriveKey Model.node pw salt_) = 32.
Proof.
  unfold deriveKey; simpl. unfold Model.padTo.
  rewrite length_firstn, length_app, repeat_length. unfold KEY_LEN. lia.
Qed.

(** [del_missing_entry] on the sample vault. *)
Lemma del_missing_entry_vault :
  fst (@main Model.node ["del"; "nowhere"; "nobody"; "--master"; "Passw0rd!"] Model.vault)
  = Exited 4
  /\ stderr (snd (@main Model.node ["del"; "nowhere"; "nobody"; "--master"; "Passw0rd!"]
                   Model.vault))
     = (stderr Model.vault ++ [printed Messages.errors.entryNotFound;
                               printed "Error accessing DB: [object Object]"])%list
  /\ disk (snd (@main Model.node ["del"; "nowhere"; "nobody"; "--master"; "Passw0rd!"]
                 Model.vault))
     = disk Model.vault.
Proof.
  apply (@del_missing_entry Model.node
           ["del"; "nowhere"; "nobody"; "--master"; "Passw0rd!"]
           Model.vault Model.vault "Passw0rd!" Model.vaultContent Model.vaultRows).
  - reflexivity.
  - reflexivity.
  - vm_compute; reflexivity.
  - reflexivity.
  - vm_compute; reflexivity.
  - reflexivity.
  - vm_compute; reflexivity.
  - vm_compute; reflexivity.
  - intros r Hr.
    assert (Hall : forallb (fun x => negb (sameKey "nowhere" "nobody" x)) Model.vaultRows
                   = true) by (vm_compute; reflexivity).
    rewrite forallb_forall in Hall. apply negb_true_iff, Hall, Hr.
  - intros n; reflexivity.
Defined.

(** [add_duplicate_entry] on the sample vault. *)
Lemma add_duplicate_entry_vault :
  fst (@main Model.node ["add"; "github"; "alice"; "other"; "--master"; "Passw0rd!"]
         Model.vault) = Exited 1
  /\ stderr (snd (@main Model.node
                    ["add"; "github"; "alice"; "other"; "--master"; "Passw0rd!"]
                    Model.vault))
     = (stderr Model.vault ++ [printed ("Entry already exists: " ++ "github" ++ " "
                                          ++ "alice")])%list
  /\ disk (snd (@main Model.node
                  ["add"; "github"; "alice"; "other"; "--master"; "Passw0rd!"]
                  Model.vault))
     = disk Model.vault.
Proof.
  apply (@add_duplicate_entry Model.node
           ["add"; "github"; "alice"; "other"; "--master"; "Passw0rd!"]
           Model.vault Model.vault "Passw0rd!" Model.vaultContent Model.vaultRows).
  - reflexivity.
  - reflexivity.
  - vm_compute; reflexivity.
  - reflexivity.
  - vm_compute; reflexivity.
  - intros v [<-|[<-|[<-|[]]]]; reflexivity.
  - intros salt_. apply model_key_length.
  - reflexivity.
  - vm_compute; reflexivity.
  - vm_compute; reflexivity.
  - vm_compute; reflexivity.
  - intros n; reflexivity.
Defined.

(** ** init *)

Section Init.
Context {N : Node}.

(** X5. After a successful [init --master pw] (from NO_DB or
    UNINITIALIZED, non-empty password, no storage failure) the store holds
    one master row with id 1, a salt of 16 random bytes in hex and the
    hash of the key derived from [pw] and that salt, and the next process
    verifies [pw]. *)
Theorem init_then_verify (pw : string) (s : State) (st : DbState.t) :
  checkDbState s = (Ret st, s) ->
  st = DbState.NO_DB \/ st = DbState.UNINITIALIZED ->
  txn s = None -> (forall n, write_fault s n = false) -> pw <> "" ->
  let final := snd (main ["init"; "--master"; pw] s) in
  let salt_ := toString_hex (map (entropy s) (seq (drawn s) 16)) in
  (exists d, disk final = Some d
     /\ master d = Some [mkMaster 1 (hashDerivedKey (deriveKey pw salt_)) salt_])
  /\ fst (verifyMasterPassword pw Handle (nextProcess final)) = Ret true.
Proof.
  intros Hst Hcase Htxn Hwf Hpw. cbv zeta.
  apply String.eqb_neq in Hpw.
  unfold main, dispatch. cbn [arg nth_error]. unfold cmdInit. cbv zeta.
  cbn [List.length Nat.eqb argText nth String.eqb Ascii.eqb Bool.eqb andb orb negb].
  rewrite (bind_Ret _ (ret_tt_runs s)). rewrite (bind_Ret _ Hst).
  assert (Hskip : (match st with
                   | DbState.READY =>
                       lift (exitWith ExitCode.GENERAL_ERROR Messages.errors.dbAlreadyInitialized)
                   | DbState.CORRUPTED => lift (exitWith ExitCode.IO_DB_ERROR "Database corrupted.")
                   | _ => ret tt
                   end) s = (Ret tt, s)) by (destruct Hcase; subst; reflexivity).
  rewrite (bind_Ret _ Hskip).
  rewrite (bind_Ret _ (eq_refl : ret pw s = (Ret pw, s))).
  rewrite Hpw. rewrite (bind_Ret _ (ret_tt_runs s)).
  assert (Hsame : forall b : Buffer, Nat.eqb (List.length b) (List.length b) = true)
    by (intros; apply Nat.eqb_refl).
  destruct Hcase as [->| ->].
  - pose proof (checkDbState_NO_DB_inv Hst) as Hdisk.
    destruct s as [dk tx f k e dr wf wr so se]; simpl in Htxn, Hwf, Hdisk; subst tx dk.
    unfold verifyMasterPassword, timingSafeEqual, query, view.
    unfold bind, tryCatch, openDb, execute, freshSalt, randomBytes, lift, ret; simpl.
    repeat (rewrite Hwf; simpl).
    rewrite Hsame, bufferEqb_refl. split; [eexists; split; reflexivity|reflexivity].
  - destruct (checkDbState_UNINITIALIZED_inv Hst Htxn) as (d & Hdisk & Hic & Htables).
    destruct s as [dk tx f k e dr wf wr so se]; simpl in Htxn, Hwf, Hdisk; subst tx dk.
    destruct d as [ic m c]; simpl in Hic, Htables. subst ic.
    unfold verifyMasterPassword, timingSafeEqual, query, view.
    unfold bind, tryCatch, openDb, execute, freshSalt, randomBytes, lift, ret; simpl.
    destruct Htables as [[-> ->]|[-> Hc]]; [|destruct c as [c|]; [|congruence]];
      repeat (rewrite Hwf; simpl);
      rewrite Hsame, bufferEqb_refl;
      (split; [eexists; split; reflexivity|reflexivity]).
Qed.

(** X6. [init] creates the DB file before it opens its transaction: when
    [init --master pw] with a non-empty password starts without a DB file
    and fails (a storage failure on any statement), it leaves an empty
    database file behind, and the store is UNINITIALIZED instead of NO_DB. *)
Theorem init_failure_leaves_empty_file (pw : string) (s : State) :
  disk s = None -> txn s = None -> pw <> "" ->
  fst (main ["init"; "--master"; pw] s) <> Exited 0 ->
  disk (snd (main ["init"; "--master"; pw] s)) = Some emptyDatabase
  /\ fst (checkDbState (nextProcess (snd (main ["init"; "--master"; pw] s))))
     = Ret DbState.UNINITIALIZED.
Proof.
  intros Hdisk Htxn Hpw. apply String.eqb_neq in Hpw.
  pose proof (checkDbState_NO_DB s Hdisk) as Hst.
  unfold main, dispatch. cbn [arg nth_error]. unfold cmdInit. cbv zeta.
  cbn [List.length Nat.eqb argText nth String.eqb Ascii.eqb Bool.eqb andb orb negb].
  rewrite (bind_Ret _ (ret_tt_runs s)). rewrite (bind_Ret _ Hst).
  rewrite (bind_Ret _ (ret_tt_runs s)).
  rewrite (bind_Ret _ (eq_refl : ret pw s = (Ret pw, s))).
  rewrite Hpw. rewrite (bind_Ret _ (ret_tt_runs s)).
  destruct s as [dk tx f k e dr wf wr so se]; simpl in Htxn, Hdisk; subst tx dk.
  unfold bind, tryCatch, openDb, execute, freshSalt, randomBytes, lift, ret; simpl.
  destruct (wf wr); simpl;
    [destruct (wf (S wr)); simpl; intros _; split; reflexivity|].
  destruct (wf (S wr)); simpl;
    [destruct (wf (S (S wr))); simpl; intros _; split; reflexivity|].
  destruct (wf (S (S wr))); simpl;
    [destruct (wf (S (S (S wr)))); simpl; intros _; split; reflexivity|].
  destruct (wf (S (S (S wr)))); simpl;
    [destruct (wf (S (S (S (S wr))))); simpl; intros _; split; reflexivity|].
  intros H. exfalso. apply H. reflexivity.
Qed.

End Init.

(** [init_then_verify] on a machine without DB file. *)
Lemma init_then_verify_blank :
  (exists d,
     disk (snd (@main Model.node ["init"; "--master"; "Passw0rd!"] Model.blank)) = Some d
     /\ master d
        = Some [mkMaster 1
                  (@hashDerivedKey Model.node
                     (@deriveKey Model.node "Passw0rd!"
                        (@toString_hex Model.node
                           (map (entropy Model.blank) (seq (drawn Model.blank) 16)))))
                  (@toString_hex Model.node
                     (map (entropy Model.blank) (seq (drawn Model.blank) 16)))])
  /\ fst (@verifyMasterPassword Model.node "Passw0rd!" Handle
            (nextProcess (snd (@main Model.node ["init"; "--master"; "Passw0rd!"]
                                 Model.blank)))) = Ret true.
Proof.
  apply (@init_then_verify Model.node "Passw0rd!" Model.blank DbState.NO_DB).
  - reflexivity.
  - left; reflexivity.
  - reflexivity.
  - intros n; reflexivity.
  - discriminate.
Defined.

(** [init_failure_leaves_empty_file] with a failure on the INSERT. *)
Lemma init_failure_leaves_empty_file_insert :
  disk (snd (@main Model.node ["init"; "--master"; "Passw0rd!"]
               (Model.failingAt 2 Model.blank))) = Some emptyDatabase
  /\ fst (checkDbState
            (nextProcess (snd (@main Model.node ["init"; "--master"; "Passw0rd!"]
                                 (Model.failingAt 2 Model.blank)))))
     = Ret DbState.UNINITIALIZED.
Proof.
  apply (@init_failure_leaves_empty_file Model.node "Passw0rd!"
           (Model.failingAt 2 Model.blank)).
  - reflexivity.
  - reflexivity.
  - discriminate.
  - vm_compute; discriminate.
Defined.

(** ** export: the alternative file name *)

Section Suggest.
Context {N : Node}.

Lemma suggestFrom_first_free (csvPath : string) (left : nat) :
  forall (i : nat) (s : State),
    (exists j, j < left
       /\ fs s (candidatePath csvPath (i + j)) = None
       /\ (forall k, k < j -> fs s (candidatePath csvPath (i + k)) <> None)
       /\ suggestFrom csvPath (path_dirname csvPath)
            (path_basename csvPath (path_extname csvPath)) (path_extname csvPath) left i s
          = (Ret (candidatePath csvPath (i + j)), s))
    \/ ((forall j, j < left -> fs s (candidatePath csvPath (i + j)) <> None)
        /\ suggestFrom csvPath (path_dirname csvPath)
             (path_basename csvPath (path_extname csvPath)) (path_extname csvPath) left i s
           = (Throw (ExitSignal ExitCode.IO_DB_ERROR),
              write_stderr
                (printed (Messages.errors.csvCannotGenerateNewFileName csvPath)) s)).
Proof.
  induction left as [|left IH]; intros i s.
  - right. split; [intros j Hj; lia|]. reflexivity.
  - cbn [suggestFrom].
    fold (candidatePath csvPath i).
    destruct (fs s (candidatePath csvPath i)) as [entry|] eqn:Hfs.
    + assert (Hex : existsSync (candidatePath csvPath i) s = (Ret true, s))
        by (unfold existsSync; rewrite Hfs; reflexivity).
      rewrite (bind_Ret _ Hex). cbn [negb].
      destruct (IH (S i) s) as [(j & Hj & Hfree & Hbusy & Hrun)|[Hbusy Hrun]].
      * left. exists (S j). rewrite <- Nat.add_succ_comm. repeat split; try assumption.
        -- lia.
        -- intros k Hk. destruct k as [|k].
           ++ rewrite Nat.add_0_r. congruence.
           ++ rewrite <- Nat.add_succ_comm. apply Hbusy. lia.
      * right. split; [|exact Hrun].
        intros j Hj. destruct j as [|j].
        -- rewrite Nat.add_0_r. congruence.
        -- rewrite <- Nat.add_succ_comm. apply Hbusy. lia.
    + assert (Hex : existsSync (candidatePath csvPath i) s = (Ret false, s))
        by (unfold existsSync; rewrite Hfs; reflexivity).
      rewrite (bind_Ret _ Hex). cbn [negb].
      left. exists 0. rewrite Nat.add_0_r. repeat split; try assumption.
      * lia.
      * intros k Hk. lia.
Qed.

(** X7. [suggestNonConflictingPath] returns the candidate "base (i).ext"
    with the smallest index i from 1 to 9999 that does not exist, and
    never the name of an existing file; when all 9999 candidates exist it
    ends with the "could not generate new file name" error (exit code 4).
    It changes nothing. *)
Theorem suggestNonConflictingPath_first_free (csvPath : string) (s : State) :
  (exists i, 1 <= i <= 9 * 1111
     /\ fs s (candidatePath csvPath i) = None
     /\ (forall k, 1 <= k < i -> fs s (candidatePath csvPath k) <> None)
     /\ suggestNonConflictingPath csvPath s = (Ret (candidatePath csvPath i), s))
  \/ ((forall i, 1 <= i <= 9 * 1111 -> fs s (candidatePath csvPath i) <> None)
      /\ suggestNonConflictingPath csvPath s
         = (Throw (ExitSignal ExitCode.IO_DB_ERROR),
            write_stderr
              (printed (Messages.errors.csvCannotGenerateNewFileName csvPath)) s)).
Proof.
  unfold suggestNonConflictingPath. cbv zeta.
  destruct (suggestFrom_first_free csvPath (9 * 1111) 1 s)
    as [(j & Hj & Hfree & Hbusy & Hrun)|[Hbusy Hrun]].
  - left. exists (1 + j). repeat split; try assumption; try lia.
    intros k Hk. replace k with (1 + (k - 1)) by lia. apply Hbusy. lia.
  - right. split; [|exact Hrun].
    intros i Hi. replace i with (1 + (i - 1)) by lia. apply Hbusy. lia.
Qed.

End Suggest.

(** ** list: the sort options *)

Section ListOptions.
Context {N : Node}.

Lemma existsb_eqb_In (x : string) (l : list string) :
  existsb (String.eqb x) l = true <-> In x l.
Proof.
  rewrite existsb_exists. split.
  - intros (y & Hy & Heq). apply String.eqb_eq in Heq. now subst.
  - intros H. exists x. split; [exact H|apply String.eqb_refl].
Qed.

Lemma Sorted_weaken (A : Type) (R R' : A -> A -> Prop) (l : list A) :
  (forall a b, R a b -> R' a b) -> Sorted R l -> Sorted R' l.
Proof.
  intros Himp Hs. induction Hs as [|x l Hl IH Hhd]; constructor; [exact IH|].
  destruct Hhd; constructor. apply Himp. assumption.
Qed.

(** X8. On a READY store, [list flag column] with flag [--asc] or
    [--desc] and column [service] or [username] prints one line "service
    username" for every stored row and nothing of the passwords, in the
    order that the option asks for ("No data." when there is no row); any
    other flag or column is a usage error (exit 2). *)
Theorem list_sort_options (s : State) (d : Database) (rows : list Credential)
  (flag column : string) :
  checkDbState s = (Ret DbState.READY, s) ->
  txn s = None -> disk s = Some d -> credentials d = Some rows ->
  (In flag ["--asc"; "--desc"] -> In column ["service"; "username"] ->
   exists sorted,
     Permutation sorted rows
     /\ Sorted (inColumnOrder column flag) sorted
     /\ fst (main ["list"; flag; column] s) = Exited 0
     /\ stdout (snd (main ["list"; flag; column] s))
        = (stdout s ++ match rows with
                       | [] => [printed Messages.infos.NoData]
                       | _ => map listLine sorted
                       end)%list)
  /\ (~ (In flag ["--asc"; "--desc"] /\ In column ["service"; "username"]) ->
      main ["list"; flag; column] s
      = (Exited 2, write_stderr (printed Messages.usage.list) s)).
Proof.
  intros Hst Htxn Hd Hrows.
  assert (Hopen : openDb s = (Ret Handle, s)) by (unfold openDb; rewrite Hd; reflexivity).
  assert (Hstart : dispatch ["list"; flag; column] s
            = bind (bind (if negb (existsb (String.eqb flag) ["--asc"; "--desc"])
                             || negb (existsb (String.eqb column) ["service"; "username"])
                          then lift (exitWith ExitCode.USAGE_ERROR Messages.usage.list)
                          else ret tt)
                      (fun _ => ret (column,
                                     if String.eqb flag "--desc" then "DESC" else "ASC")))
                (fun sorting =>
                   bind openDb (fun db =>
                   bind (query db (SELECT_ordered (fst sorting) (snd sorting))) (fun rows =>
                   bind (if Nat.eqb (List.length rows) 0
                         then lift (exitWith ExitCode.OK Messages.infos.NoData)
                         else printRows rows)
                        (fun _ => lift (exitSilently ExitCode.OK))))) s).
  { unfold dispatch. cbn [arg nth_error]. unfold cmdList. cbv zeta.
    cbn [List.length Nat.eqb orb negb argText nth].
    rewrite (bind_Ret _ (ret_tt_runs s)).
    rewrite (bind_Ret _ (requireReadyState_passes Hst)). reflexivity. }
  split.
  - intros Hflag Hcolumn.
    set (order := if String.eqb flag "--desc" then "DESC" else "ASC").
    set (le := rowOrder column order).
    exists (orderRows le rows).
    assert (Hperm : Permutation (orderRows le rows) rows) by apply orderRows_perm.
    assert (Hagree : forall a b, le a b = true <-> inColumnOrder column flag a b).
    { intros a b. unfold le, rowOrder, columnOf, inColumnOrder, order.
      destruct (String.eqb flag "--desc"); cbn; reflexivity. }
    assert (Hsorted : Sorted (inColumnOrder column flag) (orderRows le rows)).
    { assert (Htotal : forall a b, le a b = true \/ le b a = true).
      { intros a b. unfold le, rowOrder.
        destruct (String.eqb order "DESC"); apply String.leb_total. }
      apply (@Sorted_weaken _ (fun a b => le a b = true)).
      - intros a b. apply Hagree.
      - apply (orderRows_sorted le Htotal rows). }
    split; [exact Hperm|]. split; [exact Hsorted|].
    assert (Hq : query Handle (SELECT_ordered column order) s
                 = (Ret (map (fun r => (service r, username r)) (orderRows le rows)), s)).
    { unfold query, view. rewrite Htxn, Hd. unfold SELECT_ordered. rewrite Hrows.
      reflexivity. }
    apply existsb_eqb_In in Hflag. apply existsb_eqb_In in Hcolumn.
    unfold main. rewrite Hstart. rewrite Hflag, Hcolumn. cbn [negb orb].
    rewrite bind_assoc. rewrite (bind_Ret _ (ret_tt_runs s)).
    rewrite (bind_Ret _ (eq_refl : ret (column, order) s = (Ret (column, order), s))).
    cbn [fst snd]. rewrite (bind_Ret _ Hopen). rewrite (bind_Ret _ Hq).
    rewrite length_map. rewrite (Permutation_length Hperm).
    destruct rows as [|r rest].
    + split; reflexivity.
    + cbn [List.length Nat.eqb].
      destruct (printRows_prints (map (fun r => (service r, username r))
                                    (orderRows le (r :: rest))) s) as (s' & Hp & Hout).
      rewrite (bind_Ret _ Hp). cbn [lift exitSilently exit_message snd fst].
      split; [reflexivity|]. rewrite Hout. rewrite map_map. reflexivity.
  - intros Hbad.
    assert (Hcheck : negb (existsb (String.eqb flag) ["--asc"; "--desc"])
                     || negb (existsb (String.eqb column) ["service"; "username"]) = true).
    { destruct (existsb (String.eqb flag) ["--asc"; "--desc"]) eqn:Hf;
        [|reflexivity].
      destruct (existsb (String.eqb column) ["service"; "username"]) eqn:Hc;
        [|reflexivity].
      exfalso. apply Hbad. split; apply existsb_eqb_In; assumption. }
    unfold main. rewrite Hstart. rewrite Hcheck. reflexivity.
Qed.

End ListOptions.

(** [list_sort_options] on the sample vault, by user name in descending
    order. *)
Lemma list_sort_options_vault :
  exists sorted,
    Permutation sorted Model.vaultRows
    /\ Sorted (inColumnOrder "username" "--desc") sorted
    /\ fst (@main Model.node ["list"; "--desc"; "username"] Model.vault) = Exited 0
    /\ stdout (snd (@main Model.node ["list"; "--desc"; "username"] Model.vault))
       = (stdout Model.vault ++ match Model.vaultRows with
                                | [] => [printed Messages.infos.NoData]
                                | _ => map listLine sorted
                                end)%list.
Proof.
  refine (proj1 (@list_sort_options Model.node Model.vault Model.vaultContent
                   Model.vaultRows "--desc" "username" _ _ _ _) _ _).
  - vm_compute; reflexivity.
  - reflexivity.
  - vm_compute; reflexivity.
  - vm_compute; reflexivity.
  - simpl; auto.
  - simpl; auto.
Defined.

(** ** The CSV decoder accepts exactly the encoder's texts *)

Section DecoderExact.

Lemma split_pieces_clean (sep : ascii) (text : string) :
  forall p, In p (split sep text) -> includes sep p = false.
Proof.
  induction text as [|a rest IH]; simpl; intros p Hp.
  - destruct Hp as [<-|[]]. reflexivity.
  - destruct (Ascii.eqb a sep) eqn:Ha.
    + destruct Hp as [<-|Hp]; [reflexivity|apply IH, Hp].
    + destruct (split sep rest) as [|piece pieces] eqn:Hs.
      * destruct Hp as [<-|[]]. simpl. rewrite Ha. reflexivity.
      * destruct Hp as [<-|Hp].
        -- simpl. rewrite Ha. apply IH. now left.
        -- apply IH. now right.
Qed.

Lemma concat_cons (sep piece : string) (pieces : list string) :
  pieces <> [] ->
  String.concat sep (piece :: pieces) = piece ++ sep ++ String.concat sep pieces.
Proof. destruct pieces; [congruence|reflexivity]. Qed.

(** [split] then [join] gives the text back. *)
Lemma join_split (sep : ascii) (text : string) : join sep (split sep text) = text.
Proof.
  unfold join. induction text as [|a rest IH]; [reflexivity|].
  cbn [split]. pose proof (split_not_nil sep rest) as Hne.
  destruct (Ascii.eqb a sep) eqn:Ha.
  - apply Ascii.eqb_eq in Ha. subst a.
    rewrite concat_cons by assumption. rewrite IH. reflexivity.
  - destruct (split sep rest) as [|piece pieces]; [congruence|].
    destruct pieces as [|q pieces].
    + simpl in *. now rewrite IH.
    + rewrite concat_cons by discriminate.
      rewrite concat_cons in IH by discriminate.
      simpl. f_equal. exact IH.
Qed.

Lemma append_empty_r (text : string) : text ++ "" = text.
Proof. induction text as [|a t IH]; simpl; [reflexivity | now rewrite IH]. Qed.

Lemma append_assoc (a b c : string) : (a ++ b) ++ c = a ++ b ++ c.
Proof. induction a as [|x a IH]; simpl; [reflexivity | now rewrite IH]. Qed.

Lemma join_blank_last (sep : ascii) (pieces : list string) :
  pieces <> [] -> join sep (pieces ++ [""])%list = join sep pieces ++ chr sep.
Proof.
  unfold join. induction pieces as [|p rest IH]; intros Hne; [congruence|].
  destruct rest as [|q rest'].
  - simpl. reflexivity.
  - change ((p :: q :: rest') ++ [""])%list with (p :: ((q :: rest') ++ [""]))%list.
    rewrite concat_cons by (simpl; discriminate).
    rewrite (IH ltac:(discriminate)).
    rewrite (@concat_cons (chr sep) p (q :: rest')) by discriminate.
    rewrite !append_assoc. reflexivity.
Qed.

Lemma validateNoControlChars_inv (values : list string) :
  (validateNoControlChars values = pass tt ->
   forall v, In v values -> CONTROL_CHAR_RE v = false)
  /\ (forall e, validateNoControlChars values = inl e ->
      exists v, In v values /\ CONTROL_CHAR_RE v = true).
Proof.
  induction values as [|x rest [IHok IHbad]]; simpl; split.
  - intros _ v [].
  - intros e H; discriminate.
  - destruct (CONTROL_CHAR_RE x) eqn:Hx; [discriminate|].
    intros H v [<-|Hv]; [exact Hx|apply IHok; assumption].
  - intros e. destruct (CONTROL_CHAR_RE x) eqn:Hx.
    + intros _. exists x. auto.
    + intros H. destruct (IHbad e H) as (v & Hv & Hc). exists v. auto.
Qed.

(** What [parseLines] refuses holds a bad line. *)
Lemma parseLines_fails_bad (len : nat) (rest : list string) :
  forall (i : nat) (acc : list CsvRecord) (e : ExitCall),
    parseLines len i rest acc = inl e ->
    exists j line, nth_error rest j = Some line /\ badLine len (i + j) line.
Proof.
  induction rest as [|x rest IH]; intros i acc e; cbn [parseLines]; [discriminate|].
  assert (Hnext : forall acc',
            parseLines len (S i) rest acc' = inl e ->
            exists j line, nth_error (x :: rest) j = Some line /\ badLine len (i + j) line).
  { intros acc' H. destruct (IH (S i) acc' e H) as (j & line & Hnth & Hbad).
    exists (S j), line. split; [exact Hnth|]. now rewrite <- Nat.add_succ_comm. }
  destruct (String.eqb_spec x "") as [->|Hx]; cbn [andb].
  - destruct (Nat.eqb_spec i (len - 1)) as [Hi|Hi]; [apply Hnext|].
    intros _. exists 0, "". split; [reflexivity|]. rewrite Nat.add_0_r. left. auto.
  - destruct (Nat.eqb_spec (List.length (split COMMA x)) CsvSpec.columns) as [Hlen|Hlen];
      cbn [negb].
    + cbv zeta. rewrite (validate_three _ Hlen).
      destruct (validateNoControlChars (split COMMA x)) as [e'|[]] eqn:Hv; cbn [andThen].
      * intros _. destruct (proj2 (validateNoControlChars_inv _) e' Hv) as (v & Hin & Hc).
        exists 0, x. split; [reflexivity|]. right; right. eauto.
      * apply Hnext.
    + intros _. exists 0, x. split; [reflexivity|]. rewrite Nat.add_0_r. right; left. auto.
Qed.

(** X9. The strict decoder refuses a text exactly when the text shows
    one of the violations: a byte-order mark, a carriage return, a first
    line other than the header, a data line that does not split into 3
    fields, a control character in a field, or a blank line that is not
    the last line. *)
Theorem parseCsvText_refuses_exactly (filePath text : string) :
  (exists e, parseCsvText filePath text = inl e) <-> Violation text.
Proof.
  split; [|apply parseCsvText_fails].
  intros [e He]. unfold parseCsvText in He.
  destruct (startsWith BOM text) eqn:Hbom; [now apply byteOrderMark|].
  destruct (includes CR text) eqn:Hcr; [now apply carriageReturn|].
  cbv zeta in He.
  destruct (Nat.eqb (List.length (split CsvSpec.newline text)) 0
            || String.eqb (nth 0 (split CsvSpec.newline text) "") "") eqn:Hempty.
  { apply badHeader. apply orb_true_iff in Hempty. destruct Hempty as [H|H].
    - apply Nat.eqb_eq in H. destruct (split CsvSpec.newline text); [|discriminate].
      discriminate.
    - apply String.eqb_eq in H. rewrite H. discriminate. }
  destruct (String.eqb_spec (nth 0 (split CsvSpec.newline text) "") CsvSpec.header)
    as [Hhd|Hhd]; cbn [negb] in He; [|now apply badHeader].
  destruct (parseLines_fails_bad _ _ _ _ He) as (j & line & Hnth & Hbad).
  assert (Hline : nth_error (split CsvSpec.newline text) (S j) = Some line).
  { destruct (split CsvSpec.newline text); [destruct j; discriminate|exact Hnth]. }
  assert (Hlt : S j < List.length (split CsvSpec.newline text)).
  { apply nth_error_Some. congruence. }
  change (1 + j) with (S j) in Hbad.
  destruct Hbad as [[-> Hidx]|[[Hne Hcols]|(field & Hin & Hctl)]].
  - apply (@interiorBlankLine text (S j)); [lia|lia|exact Hline].
  - apply (@wrongColumnCount text (S j) line); [lia|assumption..].
  - apply (@controlInField text (S j) line field); [lia|assumption..].
Qed.

(** What [parseLines] accepts: the records it adds are clean, their lines
    are the non-blank lines, and a blank line sits at index [len - 1]. *)
Lemma parseLines_accepted (len : nat) (rest : list string) :
  forall (i : nat) (acc records : list CsvRecord),
    parseLines len i rest acc = pass records ->
    exists added,
      records = (acc ++ added)%list
      /\ (forall r, In r added -> noControlChars r /\ noComma r)
      /\ map csvLine added = filter (fun l => negb (String.eqb l "")) rest
      /\ (forall j, nth_error rest j = Some "" -> i + j = len - 1).
Proof.
  induction rest as [|x rest IH]; intros i acc records; cbn [parseLines].
  - intros H. inversion H. exists []. rewrite app_nil_r.
    split; [reflexivity|]. split; [intros r0 []|].
    split; [reflexivity|]. intros j; destruct j; discriminate.
  - destruct (String.eqb_spec x "") as [->|Hx]; cbn [andb].
    + destruct (Nat.eqb_spec i (len - 1)) as [Hi|Hi]; [|discriminate].
      intros H. destruct (IH (S i) acc records H) as (added & Hrec & Hclean & Hlines & Hblank).
      exists added. repeat split; try assumption; try (apply Hclean; assumption).
      intros j Hj. destruct j as [|j]; [lia|].
      rewrite <- Nat.add_succ_comm. apply Hblank. exact Hj.
    + destruct (Nat.eqb_spec (List.length (split COMMA x)) CsvSpec.columns) as [Hlen|Hlen];
        cbn [negb]; [|discriminate].
      cbv zeta.
      destruct (validateNoControlChars
                  [nth 0 (split COMMA x) ""; nth 1 (split COMMA x) "";
                   nth 2 (split COMMA x) ""]) as [e'|[]] eqn:Hv; cbn [andThen];
        [discriminate|].
      intros H.
      destruct (IH (S i) _ records H) as (added & Hrec & Hclean & Hlines & Hblank).
      set (r := mkCsvRecord (nth 0 (split COMMA x) "") (nth 1 (split COMMA x) "")
                  (nth 2 (split COMMA x) "")) in *.
      assert (Hfields : fieldsOf r = split COMMA x) by (apply validate_three, Hlen).
      exists (r :: added). split; [rewrite Hrec, <- app_assoc; reflexivity|].
      split; [|split].
      * intros r' [<-|Hr']; [|apply Hclean, Hr']. split.
        -- exact (proj1 (validateNoControlChars_inv _) Hv).
        -- intros v Hin. rewrite Hfields in Hin. apply (split_pieces_clean COMMA x v Hin).
      * cbn [map filter]. apply String.eqb_neq in Hx. rewrite Hx. cbn [negb].
        rewrite Hlines. f_equal.
        rewrite csvLine_join, Hfields. apply join_split.
      * intros j Hj. destruct j as [|j]; [simpl in Hj; congruence|].
        rewrite <- Nat.add_succ_comm. apply Hblank. exact Hj.
Qed.

Lemma filter_nonblank_clean (lines : list string) :
  (forall j, nth_error lines j <> Some "") ->
  filter (fun l => negb (String.eqb l "")) lines = lines.
Proof.
  induction lines as [|x rest IH]; intros H; simpl; [reflexivity|].
  destruct (String.eqb_spec x "") as [->|Hx].
  - exfalso. apply (H 0). reflexivity.
  - simpl. f_equal. apply IH. intros j. apply (H (S j)).
Qed.

(** The data lines are the lines of the records, followed by at most one
    blank line. *)
Lemma data_lines_shape (rest : list string) (added : list CsvRecord) :
  map csvLine added = filter (fun l => negb (String.eqb l "")) rest ->
  (forall j, nth_error rest j = Some "" -> S j = List.length rest) ->
  rest = map csvLine added \/ rest = (map csvLine added ++ [""])%list.
Proof.
  revert added. induction rest as [|x rest IH]; intros added Hlines Hblank.
  - left. simpl in Hlines. exact (eq_sym Hlines).
  - destruct (String.eqb_spec x "") as [->|Hx].
    + pose proof (Hblank 0 eq_refl) as H0. simpl in H0.
      destruct rest; [|discriminate].
      simpl in Hlines. right. rewrite Hlines. reflexivity.
    + simpl in Hlines. apply String.eqb_neq in Hx. rewrite Hx in Hlines. simpl in Hlines.
      destruct added as [|r added]; [discriminate|].
      simpl in Hlines. injection Hlines as Hr Hrest.
      destruct (IH added Hrest) as [H|H].
      * intros j Hj. pose proof (Hblank (S j) Hj) as HS. simpl in HS. lia.
      * left. simpl. rewrite Hr. f_equal. exact H.
      * right. simpl. rewrite Hr. f_equal. exact H.
Qed.

(** X10. Whatever the strict decoder accepts is an export: the records
    it returns hold no tab, carriage return, newline or comma, [buildCsv]
    accepts them, and the text that [buildCsv] gives for them is the
    decoded text, up to one newline at the end of the file. *)
Theorem parse_then_build (filePath text : string) (records : list CsvRecord) :
  parseCsvText filePath text = pass records ->
  (forall r, In r records -> noControlChars r /\ noComma r)
  /\ exists exported,
       buildCsv records = pass exported
       /\ (text = exported \/ text = exported ++ chr LF).
Proof.
  intros H. unfold parseCsvText in H.
  destruct (startsWith BOM text); [discriminate|].
  destruct (includes CR text); [discriminate|].
  cbv zeta in H.
  destruct (Nat.eqb (List.length (split CsvSpec.newline text)) 0
            || String.eqb (nth 0 (split CsvSpec.newline text) "") ""); [discriminate|].
  destruct (String.eqb_spec (nth 0 (split CsvSpec.newline text) "") CsvSpec.header)
    as [Hhd|Hhd]; cbn [negb] in H; [|discriminate].
  destruct (parseLines_accepted _ _ _ _ H) as (added & Hrec & Hclean & Hlines & Hblank).
  simpl in Hrec. subst added.
  split; [exact Hclean|].
  pose proof (join_split CsvSpec.newline text) as Htext.
  destruct (split CsvSpec.newline text) as [|first rest] eqn:Hsplit;
    [exfalso; exact (split_not_nil _ _ Hsplit)|].
  simpl in Hhd. subst first. cbn [tl List.length] in *.
  exists (join CsvSpec.newline (CsvSpec.header :: map csvLine records)).
  split.
  - unfold buildCsv. rewrite buildLines_accepts by (intros r Hr; apply Hclean, Hr).
    reflexivity.
  - destruct (data_lines_shape rest records Hlines) as [Hshape|Hshape].
    + intros j Hj. pose proof (Hblank j Hj). lia.
    + left. rewrite <- Hshape. exact (eq_sym Htext).
    + right. rewrite <- Htext, Hshape.
      change (CsvSpec.header :: (map csvLine records ++ [""]))%list
        with ((CsvSpec.header :: map csvLine records) ++ [""])%list.
      apply join_blank_last. discriminate.
Qed.

End DecoderExact.

(** [parse_then_build] on a text with a final newline. *)
Lemma parse_then_build_example :
  (forall r, In r [mkCsvRecord "github" "alice" "s3cret"] -> noControlChars r /\ noComma r)
  /\ exists exported,
       buildCsv [mkCsvRecord "github" "alice" "s3cret"] = pass exported
       /\ ("service,username,password" ++ chr LF ++ "github,alice,s3cret" ++ chr LF
           = exported
           \/ "service,username,password" ++ chr LF ++ "github,alice,s3cret" ++ chr LF
              = exported ++ chr LF).
Proof.
  apply (parse_then_build "vault.csv"
           ("service,username,password" ++ chr LF ++ "github,alice,s3cret" ++ chr LF)).
  reflexivity.
Defined.

(** ** A READY store stays READY *)

Section Dispatch.
Context {N : Node}.

(** The [switch] of [main] runs one of the nine commands or ends with a
    message. *)
Lemma dispatch_cases (P : M unit -> Prop) (args : list string) :
  P (cmdInit args) -> P (cmdAdd args) -> P (cmdGet args) -> P (cmdDel args) ->
  P (cmdList args) -> P (cmdStatus args) -> P (cmdExport args) ->
  P (cmdImport args) -> P (cmdChangeMaster args) ->
  (forall code message, P (lift (exitWith code message))) ->
  P (dispatch args).
Proof.
  intros Hinit Hadd Hget Hdel Hlist Hstatus Hexport Himport Hchange Hother.
  unfold dispatch. destruct (arg args 0) as [c|]; [|apply Hother].
  repeat match goal with
         | |- context [match ?x with _ => _ end] => is_var x; destruct x
         end; first [assumption | apply Hother].
Qed.

End Dispatch.

Create HintDb ready.

Section KeepsReady.
Context {N : Node}.

Lemma keepsReady_silent A (m : M A) : silent m -> keepsReady m.
Proof.
  intros Hm s [(d & Hd & Hr) Ht].
  destruct (Hm s) as (H1 & H2 & _); [congruence|].
  split.
  - exists d. split; [congruence|exact Hr].
  - intros d' Hd'. apply Ht. congruence.
Qed.

Lemma keepsReady_bind A B (m : M A) (k : A -> M B) :
  keepsReady m -> (forall a, keepsReady (k a)) -> keepsReady (bind m k).
Proof.
  intros Hm Hk s Hs. specialize (Hm s Hs). unfold bind.
  destruct (m s) as [[a|e|c|] s1]; simpl in *; auto.
  apply Hk, Hm.
Qed.

Lemma keepsReady_tryCatch A (m : M A) (h : Thrown -> M A) :
  keepsReady m -> (forall e, keepsReady (h e)) -> keepsReady (tryCatch m h).
Proof.
  intros Hm Hh s Hs. specialize (Hm s Hs). unfold tryCatch.
  destruct (m s) as [[a|e|c|] s1]; simpl in *; auto.
  apply Hh, Hm.
Qed.

(** No statement of the gated commands takes the master row away or adds
    a second one. *)
Lemma applySql_ready (q : Sql) (d d' : Database) (changes : nat) :
  keepsMasterRow q = true -> readyContent d ->
  applySql q d = inr (d', changes) -> readyContent d'.
Proof.
  intros Hq (Hic & Hc & r & Hm).
  destruct d as [ic m c]; simpl in *. subst ic m.
  destruct c as [rows|]; [|congruence].
  destruct q; simpl in *; try discriminate; intros H;
    try destruct (existsb (sameKey service_ username_) rows); try discriminate;
    inversion H; subst; unfold readyContent; simpl;
    (split; [reflexivity|]); (split; [discriminate|]);
    try destruct (isMasterId r); eauto.
Qed.

Lemma keepsReady_execute db (q : Sql) :
  keepsMasterRow q = true -> keepsReady (execute db q).
Proof.
  intros Hq s [(d & Hd & Hr) Ht].
  destruct s as [dk tx f k e dr wf wr so se]; simpl in Hd, Ht. subst dk.
  assert (Hkeep : readyStore (mkState (Some d) tx f k e dr wf (S wr) so se)).
  { split; simpl; eauto. }
  unfold execute; simpl.
  destruct (wf wr); simpl; [exact Hkeep|].
  destruct tx as [w|].
  - pose proof (Ht w eq_refl) as Hw.
    destruct q; try discriminate Hq; cbn -[applySql]; try exact Hkeep;
      try (split; simpl; [eauto|]; intros d0 H0; discriminate);
      try (destruct (applySql _ w) as [message|[d' changes]] eqn:Happ; simpl;
           [exact Hkeep|];
           split; simpl; [eauto|]; intros d0 H0; inversion H0; subst;
           eapply applySql_ready; [| exact Hw | exact Happ]; reflexivity).
  - destruct q; try discriminate Hq; cbn -[applySql]; try exact Hkeep;
      try (split; simpl; [eauto|]; intros d0 H0; inversion H0; subst; assumption);
      try (destruct (applySql _ d) as [message|[d' changes]] eqn:Happ; simpl;
           [exact Hkeep|];
           split; simpl; [|intros d0 H0; discriminate];
           eexists; split; [reflexivity|];
           eapply applySql_ready; [| exact Hr | exact Happ]; reflexivity).
Qed.

Lemma keepsReady_tryRollback db : keepsReady (tryRollback db).
Proof.
  unfold tryRollback. apply keepsReady_tryCatch.
  - apply keepsReady_bind; [apply keepsReady_execute; reflexivity|].
    intros _. apply keepsReady_silent. auto with silent.
  - intros _. apply keepsReady_silent. auto with silent.
Qed.

End KeepsReady.

#[export] Hint Resolve keepsReady_tryRollback : ready.

(** Decomposes a goal [keepsReady m] along the structure of [m]. *)
Ltac steady :=
  repeat first
    [ progress auto with ready
    | apply keepsReady_silent; solve [auto with silent]
    | apply keepsReady_execute; reflexivity
    | apply keepsReady_bind; [| intro]
    | apply keepsReady_tryCatch; [| intro]
    | match goal with
      | |- keepsReady (if ?b then _ else _) => destruct b
      | |- keepsReady (match ?x with _ => _ end) => destruct x
      | |- keepsReady (let _ := _ in _) => cbv zeta
      end ].

Section ReadyInvariant.
Context {N : Node}.

Lemma keepsReady_insertEncrypted db records key :
  keepsReady (insertEncrypted db records key).
Proof. induction records as [|r rest IH]; simpl; steady. Qed.

Lemma keepsReady_cmdAdd args : keepsReady (cmdAdd args).
Proof. unfold cmdAdd. steady. Qed.

Lemma keepsReady_cmdDel args : keepsReady (cmdDel args).
Proof. unfold cmdDel. steady. Qed.

Lemma keepsReady_cmdImport args : keepsReady (cmdImport args).
Proof. unfold cmdImport. pose proof keepsReady_insertEncrypted. steady. Qed.

Lemma keepsReady_cmdChangeMaster args : keepsReady (cmdChangeMaster args).
Proof. unfold cmdChangeMaster. pose proof keepsReady_insertEncrypted. steady. Qed.

(** The READY answer of [checkDbState], read on the content. *)
Lemma checkDbState_READY_iff (s : State) :
  txn s = None ->
  (checkDbState s = (Ret DbState.READY, s) <-> exists d, disk s = Some d /\ readyContent d).
Proof.
  unfold checkDbState, bind, existsSync_DB_PATH, tableExists, openDb, tryCatch, query, view, ret.
  unfold readyContent.
  destruct s as [dk tx f k e dr wf wr so se]; simpl. intros ->.
  destruct dk as [[[v|] m c]|]; simpl.
  - destruct (String.eqb_spec v "ok") as [->|Hv]; simpl.
    + destruct m as [[|r [|r' m]]|], c as [c|]; simpl; split; intros H;
        try discriminate; try reflexivity;
        try (destruct H as (d & Hd & Hic & Hc & r0 & Hm); inversion Hd; subst;
             simpl in *; congruence).
      eexists; split; [reflexivity|]. simpl.
      split; [reflexivity|]. split; [discriminate|]. eauto.
    + split; [discriminate|]. intros (d & Hd & Hic & _). inversion Hd; subst.
      simpl in Hic. congruence.
  - split; [discriminate|]. intros (d & Hd & Hic & _). inversion Hd; subst. discriminate.
  - split; [discriminate|]. intros (d & Hd & _). discriminate.
Qed.

(** On a READY store [init] stops before it opens a transaction. *)
Lemma init_keeps_ready (args : list string) (s : State) :
  checkDbState s = (Ret DbState.READY, s) ->
  disk (snd (cmdInit args s)) = disk s /\ txn (snd (cmdInit args s)) = txn s.
Proof.
  intros Hst. unfold cmdInit. cbv zeta.
  destruct (negb _).
  - unfold bind, lift; simpl. split; reflexivity.
  - rewrite (bind_Ret _ (ret_tt_runs s)). rewrite (bind_Ret _ Hst).
    unfold bind, lift; simpl. split; reflexivity.
Qed.

(** X11. READY is an invariant of the program: whatever the command,
    the arguments, the answers at the prompts and the faults of the storage
    engine, a process that starts on a READY store leaves a store that the
    next process finds READY. *)
Theorem ready_is_invariant (args : list string) (s : State) :
  txn s = None ->
  checkDbState s = (Ret DbState.READY, s) ->
  fst (checkDbState (nextProcess (snd (main args s)))) = Ret DbState.READY.
Proof.
  intros Htxn Hst.
  assert (Hs : readyStore s).
  { split; [apply (checkDbState_READY_iff s Htxn), Hst|]. intros d Hd. congruence. }
  assert (Hd : readyStore (snd (dispatch args s))).
  { apply dispatch_cases with (P := fun m => readyStore (snd (m s))).
    - destruct (init_keeps_ready args Hst) as [H1 H2].
      destruct Hs as [(d & Hd & Hr) Ht]. split.
      + exists d. split; [congruence|exact Hr].
      + intros d' Hd'. apply Ht. congruence.
    - apply keepsReady_cmdAdd, Hs.
    - apply (keepsReady_silent (silent_cmdGet args)), Hs.
    - apply keepsReady_cmdDel, Hs.
    - apply (keepsReady_silent (silent_cmdList args)), Hs.
    - apply (keepsReady_silent (silent_cmdStatus args)), Hs.
    - apply (keepsReady_silent (silent_cmdExport args)), Hs.
    - apply keepsReady_cmdImport, Hs.
    - apply keepsReady_cmdChangeMaster, Hs.
    - intros code message. apply (keepsReady_silent (silent_lift _)), Hs. }
  assert (Hm : exists d, disk (snd (main args s)) = Some d /\ readyContent d).
  { unfold main. destruct (dispatch args s) as [[a|[c|m]|c|] s']; simpl in *;
      exact (proj1 Hd). }
  assert (Hnext : checkDbState (nextProcess (snd (main args s)))
                  = (Ret DbState.READY, nextProcess (snd (main args s)))).
  { apply checkDbState_READY_iff; [reflexivity|exact Hm]. }
  rewrite Hnext. reflexivity.
Qed.

End ReadyInvariant.

(** [ready_is_invariant] on the sample vault, for a rotation of the
    master password whose third statement fails. *)
Lemma ready_is_invariant_rotate :
  fst (checkDbState
         (nextProcess (snd (@main Model.node Model.rotate (Model.failingAt 2 Model.vault)))))
  = Ret DbState.READY.
Proof.
  apply (@ready_is_invariant Model.node Model.rotate (Model.failingAt 2 Model.vault)).
  - reflexivity.
  - vm_compute. reflexivity.
Defined.

(** ** What is stored can be read back *)

Section StoreAndRead.
Context {N : Node} {L : NodeLaws N}.

Lemma encrypt_runs (plain : string) (key : Buffer) (s : State) :
  List.length key = 32 ->
  encrypt plain key s
  = (Ret (envelopeOf plain key (map (entropy s) (seq (drawn s) 12))),
     set_drawn (drawn s + 12) s).
Proof.
  intros Hkey. unfold encrypt, bind, randomBytes, requireKeyLength. rewrite Hkey.
  reflexivity.
Qed.

Lemma decrypt_envelopeOf (plain : string) (key iv : Buffer) (s : State) :
  List.length key = 32 -> List.length iv = 12 ->
  decrypt (envelopeOf plain key iv) key s = (Ret plain, s).
Proof.
  intros Hkey Hiv. unfold decrypt, envelopeOf. cbv zeta.
  rewrite base64_round_trip.
  set (sealed := aes_256_gcm_seal key iv (list_byte_of_string plain)).
  assert (Htag : List.length (snd sealed) = 16) by (unfold sealed; apply gcm_tag_length).
  destruct (envelope_layout iv (snd sealed) (fst sealed) Hiv Htag) as (-> & -> & ->).
  unfold bind, requireKeyLength. rewrite Hkey. cbn [Nat.eqb ret].
  unfold sealed. rewrite (gcm_open_seal key iv (list_byte_of_string plain) Hkey).
  now rewrite string_of_list_byte_of_string.
Qed.

Lemma find_appended (service_ username_ : string) (rows : list Credential) (r : Credential) :
  existsb (sameKey service_ username_) rows = false ->
  sameKey service_ username_ r = true ->
  find (sameKey service_ username_) (rows ++ [r])%list = Some r.
Proof.
  induction rows as [|x rest IH]; simpl; intros Hnew Hr.
  - rewrite Hr. reflexivity.
  - apply orb_false_iff in Hnew. destruct Hnew as [Hx Hrest]. rewrite Hx. auto.
Qed.

(** X12. On a READY store, with the master password verified, a derived
    key of 32 bytes and a storage engine that does not fail, [add] of a new
    (service, username) without control characters ends with exit code 0
    and appends one row whose password column is the encrypted envelope,
    and [get] of the same entry in the next process prints the password
    that was given to [add]. *)
Theorem add_then_get (service_ username_ password_ masterPw : string) (s : State)
  (d : Database) (rows : list Credential) :
  checkDbState s = (Ret DbState.READY, s) ->
  txn s = None -> disk s = Some d -> credentials d = Some rows ->
  masterPw <> "" ->
  verifyMasterPassword masterPw Handle s = (Ret true, s) ->
  (forall salt_, List.length (deriveKey masterPw salt_) = 32) ->
  (forall v, In v [service_; username_; password_] -> CONTROL_CHAR_RE v = false) ->
  existsb (sameKey service_ username_) rows = false ->
  (forall n, write_fault s n = false) ->
  let added := main ["add"; service_; username_; password_; "--master"; masterPw] s in
  let next := nextProcess (snd added) in
  fst added = Exited 0
  /\ stdout (snd added)
     = (stdout s ++ [printed ("Added: " ++ service_ ++ " " ++ username_)])%list
  /\ (exists salt_,
        disk (snd added)
        = Some (mkDatabase (integrity_check d) (master d)
                  (Some (rows ++ [mkCredential service_ username_
                                    (envelopeOf password_ (deriveKey masterPw salt_)
                                       (map (entropy s) (seq (drawn s) 12)))])%list)))
  /\ main ["get"; service_; username_; "--master"; masterPw] next
     = (Exited 0,
        write_stdout (printed (service_ ++ ", " ++ username_ ++ ", " ++ password_)) next).
Proof.
  intros Hst Htxn Hdisk Hrows Hpw Hver Hkey Hclean Hnew Hwf. cbv zeta.
  destruct (proj1 (checkDbState_READY_iff s Htxn) Hst) as (d0 & Hd0 & Hic & _ & r & Hm).
  assert (d0 = d) by congruence. subst d0. clear Hd0.
  apply String.eqb_neq in Hpw.
  destruct s as [dk tx f k e dr wf wr so se]; simpl in Htxn, Hdisk, Hwf. subst dk tx.
  destruct d as [ic m c]; simpl in Hic, Hm, Hrows. subst ic m c.
  set (s := mkState (Some (mkDatabase (Some "ok") (Some [r]) (Some rows))) None
              f k e dr wf wr so se) in *.
  assert (Hid : isMasterId r = true).
  { unfold verifyMasterPassword, query, view, bind, lift in Hver. simpl in Hver.
    destruct (isMasterId r); [reflexivity|discriminate]. }
  set (key := deriveKey masterPw (salt r)).
  set (stored := mkCredential service_ username_
                   (envelopeOf password_ key (map e (seq dr 12)))).
  set (s1 := mkState (Some (mkDatabase (Some "ok") (Some [r]) (Some (rows ++ [stored])%list)))
               None f k e (dr + 12) wf (S (S (S wr)))
               (so ++ [printed ("Added: " ++ service_ ++ " " ++ username_)])%list se).
  assert (Hadd : main ["add"; service_; username_; password_; "--master"; masterPw] s
                 = (Exited 0, s1)).
  { unfold main, dispatch. cbn [arg nth_error]. unfold cmdAdd. cbv zeta.
    cbn [List.length Nat.eqb orb negb argText nth].
    rewrite (bind_Ret _ (ret_tt_runs s)).
    rewrite (bind_Ret _ (requireReadyState_passes Hst)).
    assert (Hget : getMasterPassword
                     ["add"; service_; username_; password_; "--master"; masterPw] 4 s
                   = (Ret masterPw, s)).
    { unfold getMasterPassword. cbn. rewrite Hpw. reflexivity. }
    rewrite (bind_Ret _ Hget).
    rewrite (validateNoControlChars_accepts _ Hclean).
    rewrite (bind_Ret _ (eq_refl : lift (pass tt) s = (Ret tt, s))).
    rewrite (bind_Ret _ (eq_refl : openDb s = (Ret Handle, s))).
    rewrite (bind_Ret _ Hver). cbn [negb]. rewrite (bind_Ret _ (ret_tt_runs s)).
    assert (Hsalt : getMasterSalt Handle s = (Ret (salt r), s)).
    { unfold getMasterSalt, query, view, bind. simpl. rewrite Hid. reflexivity. }
    rewrite (bind_Ret _ Hsalt).
    assert (Henc : encrypt password_ key s
                   = (Ret (envelopeOf password_ key (map e (seq dr 12))),
                      set_drawn (dr + 12) s)) by (apply encrypt_runs, Hkey).
    rewrite (bind_Ret _ Henc).
    unfold bind, tryCatch, execute, view, lift, ret, set_drawn; simpl.
    repeat (rewrite Hwf; simpl). rewrite Hnew. simpl.
    repeat (rewrite Hwf; simpl). reflexivity. }
  rewrite Hadd. cbn [fst snd].
  split; [reflexivity|]. split; [reflexivity|]. split; [exists (salt r); reflexivity|].
  set (next := nextProcess s1).
  assert (Hready : checkDbState next = (Ret DbState.READY, next)).
  { apply checkDbState_READY_iff; [reflexivity|].
    eexists; split; [reflexivity|]. unfold readyContent; simpl.
    split; [reflexivity|]. split; [discriminate|]. eauto. }
  assert (Hver' : verifyMasterPassword masterPw Handle next = (Ret true, next)).
  { unfold verifyMasterPassword, query, view, bind, lift, timingSafeEqual in *.
    simpl in *. rewrite Hid in *.
    destruct (Nat.eqb _ _); [|discriminate]. unfold ret in *.
    f_equal. congruence. }
  unfold main, dispatch. cbn [arg nth_error]. unfold cmdGet.
  cbn [List.length Nat.ltb Nat.leb argText nth].
  rewrite (bind_Ret _ (ret_tt_runs next)).
  rewrite (bind_Ret _ (requireReadyState_passes Hready)).
  assert (Hget : getMasterPassword ["get"; service_; username_; "--master"; masterPw] 3 next
                 = (Ret masterPw, next)).
  { unfold getMasterPassword. cbn. rewrite Hpw. reflexivity. }
  rewrite (bind_Ret _ Hget).
  rewrite (bind_Ret _ (eq_refl : openDb next = (Ret Handle, next))).
  rewrite (bind_Ret _ Hver'). cbn [negb]. rewrite (bind_Ret _ (ret_tt_runs next)).
  assert (Hrow : query Handle (SELECT_password service_ username_) next
                 = (Ret (Some (envelopeOf password_ key (map e (seq dr 12)))), next)).
  { unfold query, view, SELECT_password. simpl.
    rewrite (@find_appended service_ username_ rows stored Hnew).
    - reflexivity.
    - unfold sameKey, stored. simpl. now rewrite !String.eqb_refl. }
  rewrite (bind_Ret _ Hrow).
  assert (Hsalt : getMasterSalt Handle next = (Ret (salt r), next)).
  { unfold getMasterSalt, query, view, bind. simpl. rewrite Hid. reflexivity. }
  rewrite (bind_Ret _ Hsalt).
  assert (Hiv : List.length (map e (seq dr 12)) = 12)
    by (now rewrite length_map, length_seq).
  assert (Hdec : decrypt (envelopeOf password_ key (map e (seq dr 12))) key next
                 = (Ret password_, next)) by (apply decrypt_envelopeOf; [apply Hkey|exact Hiv]).
  rewrite (bind_Ret _ Hdec).
  assert (Hmsg : String.eqb (service_ ++ ", " ++ username_ ++ ", " ++ password_) "" = false)
    by (destruct service_; reflexivity).
  unfold lift, exitWith. cbn [exit_message exit_code]. rewrite Hmsg. reflexivity.
Qed.

End StoreAndRead.

(** [add_then_get] on the sample vault. *)
Lemma add_then_get_vault :
  let added := @main Model.node ["add"; "bank"; "erin"; "pw5"; "--master"; "Passw0rd!"]
                 Model.vault in
  let next := nextProcess (snd added) in
  fst added = Exited 0
  /\ stdout (snd added) = (stdout Model.vault ++ [printed "Added: bank erin"])%list
  /\ (exists salt_,
        disk (snd added)
        = Some (mkDatabase (integrity_check Model.vaultContent) (master Model.vaultContent)
                  (Some (Model.vaultRows
                           ++ [mkCredential "bank" "erin"
                                 (@envelopeOf Model.node "pw5"
                                    (@deriveKey Model.node "Passw0rd!" salt_)
                                    (map (entropy Model.vault)
                                       (seq (drawn Model.vault) 12)))])%list)))
  /\ @main Model.node ["get"; "bank"; "erin"; "--master"; "Passw0rd!"] next
     = (Exited 0, write_stdout (printed "bank, erin, pw5") next).
Proof.
  apply (@add_then_get Model.node model_node_laws "bank" "erin" "pw5" "Passw0rd!"
           Model.vault Model.vaultContent Model.vaultRows).
  - vm_compute. reflexivity.
  - reflexivity.
  - vm_compute. reflexivity.
  - vm_compute. reflexivity.
  - discriminate.
  - vm_compute. reflexivity.
  - apply model_key_length.
  - intros v Hv.
    assert (Hall : forallb (fun v => negb (CONTROL_CHAR_RE v)) ["bank"; "erin"; "pw5"] = true)
      by (vm_compute; reflexivity).
    apply negb_true_iff. exact (proj1 (forallb_forall _ _) Hall v Hv).
  - vm_compute. reflexivity.
  - intros n. reflexivity.
Defined.

(** ** The master password guards the entries *)

Section WrongPassword.
Context {N : Node}.

(** X13. On a READY store, [add] (with fields free of control
    characters), [get] and [del] with a master password that does not
    verify end with "Error: Authentication failed." and exit code 3: no
    entry is printed, no statement is executed and the store is unchanged. *)
Theorem wrong_password_refused (args : list string) (s s1 : State) (cmd masterPw : string)
  (i : nat) :
  arg args 0 = Some cmd -> masterIndex cmd = Some i ->
  usageOk args = true ->
  checkDbState s = (Ret DbState.READY, s) ->
  getMasterPassword args i s = (Ret masterPw, s1) ->
  verifyMasterPassword masterPw Handle s1 = (Ret false, s1) ->
  (cmd = "add" ->
   forall v, In v [argText args 1; argText args 2; argText args 3] ->
             CONTROL_CHAR_RE v = false) ->
  main args s = (Exited 3, write_stderr (printed Messages.errors.authFailed) s1)
  /\ disk s1 = disk s /\ written s1 = written s.
Proof.
  intros Hcmd Hidx Hu Hst Hpw Hver Hclean.
  assert (Hd : disk s <> None) by (apply (checkDbState_exists Hst); discriminate).
  pose proof (silent_getMasterPassword args i s Hd) as Hsilent.
  rewrite Hpw in Hsilent. cbn [snd] in Hsilent. destruct Hsilent as (Hd1 & Ht1 & Hw1).
  assert (Hopen : openDb s1 = (Ret Handle, s1)).
  { unfold openDb. destruct (disk s1) eqn:E; [reflexivity|congruence]. }
  split; [|split; assumption].
  unfold masterIndex in Hidx.
  destruct (String.eqb_spec cmd "add") as [->|Hnadd].
  { inversion Hidx; subst i.
    unfold main, dispatch. unfold usageOk in Hu. rewrite Hcmd in *. cbv iota beta in *.
    unfold cmdAdd. cbv zeta. rewrite Hu. cbn [negb].
    rewrite (bind_Ret _ (ret_tt_runs s)).
    rewrite (bind_Ret _ (requireReadyState_passes Hst)).
    rewrite (bind_Ret _ Hpw).
    rewrite (validateNoControlChars_accepts _ (Hclean eq_refl)).
    rewrite (bind_Ret _ (eq_refl : lift (pass tt) s1 = (Ret tt, s1))).
    rewrite (bind_Ret _ Hopen). rewrite (bind_Ret _ Hver). reflexivity. }
  cbn [existsb] in Hidx.
  destruct (String.eqb_spec cmd "get") as [->|Hnget].
  { inversion Hidx; subst i.
    unfold main, dispatch. unfold usageOk in Hu. rewrite Hcmd in *. cbv iota beta in *.
    unfold cmdGet. apply negb_true_iff in Hu. rewrite Hu.
    rewrite (bind_Ret _ (ret_tt_runs s)).
    rewrite (bind_Ret _ (requireReadyState_passes Hst)).
    rewrite (bind_Ret _ Hpw).
    rewrite (bind_Ret _ Hopen). rewrite (bind_Ret _ Hver). reflexivity. }
  destruct (String.eqb_spec cmd "del") as [->|Hndel]; [|discriminate].
  inversion Hidx; subst i.
  unfold main, dispatch. unfold usageOk in Hu. rewrite Hcmd in *. cbv iota beta in *.
  unfold cmdDel. apply negb_true_iff in Hu. rewrite Hu.
  rewrite (bind_Ret _ (ret_tt_runs s)).
  rewrite (bind_Ret _ (requireReadyState_passes Hst)).
  rewrite (bind_Ret _ Hpw).
  rewrite (bind_Ret _ Hopen). rewrite (bind_Ret _ Hver). reflexivity.
Qed.

End WrongPassword.

(** [wrong_password_refused] on the sample vault: [add] with a wrong
    password. *)
Lemma wrong_password_refused_add :
  @main Model.node ["add"; "bank"; "erin"; "pw5"; "--master"; "guess"] Model.vault
  = (Exited 3, write_stderr (printed Messages.errors.authFailed) Model.vault)
  /\ disk Model.vault = disk Model.vault /\ written Model.vault = written Model.vault.
Proof.
  apply (@wrong_password_refused Model.node
           ["add"; "bank"; "erin"; "pw5"; "--master"; "guess"] Model.vault Model.vault
           "add" "guess" 4).
  - reflexivity.
  - reflexivity.
  - reflexivity.
  - vm_compute. reflexivity.
  - reflexivity.
  - vm_compute. reflexivity.
  - intros _ v Hv.
    assert (Hall : forallb (fun v => negb (CONTROL_CHAR_RE v)) ["bank"; "erin"; "pw5"]
                   = true) by (vm_compute; reflexivity).
    apply negb_true_iff. exact (proj1 (forallb_forall _ _) Hall v Hv).
Defined.

(** ** Replacing the entries: import and change-master *)

Section Replace.
Context {N : Node}.

Lemma sameKey_other (r r' : CsvRecord) (password_ : string) :
  keyOf r <> keyOf r' ->
  sameKey (csv_service r') (csv_username r')
    (mkCredential (csv_service r) (csv_username r) password_) = false.
Proof.
  intros Hne. unfold sameKey. simpl.
  destruct (String.eqb_spec (csv_service r) (csv_service r')) as [Hs|Hs]; [|reflexivity].
  destruct (String.eqb_spec (csv_username r) (csv_username r')) as [Hu|Hu]; [|reflexivity].
  exfalso. apply Hne. unfold keyOf. congruence.
Qed.

(** Inside a transaction, with a 32-byte key and no storage failure,
    [insertEncrypted] appends the sealed rows of records whose keys are
    new and distinct. *)
Lemma insertEncrypted_runs (key : Buffer) (records : list CsvRecord) :
  List.length key = 32 ->
  NoDup (map keyOf records) ->
  forall dk ic m acc f k e dr wf wr so se,
    (forall n, wf n = false) ->
    (forall r, In r records ->
       existsb (sameKey (csv_service r) (csv_username r)) acc = false) ->
    insertEncrypted Handle records key
      (mkState dk (Some (mkDatabase ic m (Some acc))) f k e dr wf wr so se)
    = (Ret tt,
       mkState dk (Some (mkDatabase ic m (Some (acc ++ sealRows records key e dr)%list)))
         f k e (dr + 12 * List.length records) wf (wr + List.length records) so se).
Proof.
  intros Hkey. induction records as [|r rest IH]; intros Hnodup dk ic m acc f k e dr wf wr so se
    Hwf Hnew.
  - simpl. rewrite app_nil_r, Nat.add_0_r. rewrite Nat.add_0_r. reflexivity.
  - cbn [insertEncrypted].
    assert (Henc : encrypt (csv_password r) key
                     (mkState dk (Some (mkDatabase ic m (Some acc))) f k e dr wf wr so se)
                   = (Ret (envelopeOf (csv_password r) key (map e (seq dr 12))),
                      set_drawn (dr + 12)
                        (mkState dk (Some (mkDatabase ic m (Some acc))) f k e dr wf wr so se)))
      by (apply encrypt_runs, Hkey).
    rewrite (bind_Ret _ Henc).
    unfold set_drawn. cbn [disk txn fs stdin entropy drawn write_fault written stdout stderr].
    assert (Hins : execute Handle
                     (INSERT_credentials (csv_service r) (csv_username r)
                        (envelopeOf (csv_password r) key (map e (seq dr 12))))
                     (mkState dk (Some (mkDatabase ic m (Some acc))) f k e (dr + 12) wf wr so se)
                   = (Ret 1,
                      mkState dk
                        (Some (mkDatabase ic m
                                 (Some (acc ++ [mkCredential (csv_service r) (csv_username r)
                                                  (envelopeOf (csv_password r) key
                                                     (map e (seq dr 12)))])%list)))
                        f k e (dr + 12) wf (S wr) so se)).
    { unfold execute, view. simpl. rewrite Hwf.
      rewrite (Hnew r (or_introl eq_refl)). reflexivity. }
    rewrite (bind_Ret _ Hins).
    inversion Hnodup as [|x l Hnotin Hrest]; subst.
    rewrite IH; [| exact Hrest | exact Hwf |].
    + cbn [sealRows List.length]. rewrite <- app_assoc. cbn [app].
      replace (dr + 12 + 12 * List.length rest) with (dr + 12 * S (List.length rest)) by lia.
      replace (S wr + List.length rest) with (wr + S (List.length rest)) by lia.
      reflexivity.
    + intros r' Hr'. rewrite existsb_app. rewrite (Hnew r' (or_intror Hr')).
      cbn [existsb orb]. rewrite sameKey_other; [reflexivity|].
      intros Heq. apply Hnotin. rewrite Heq. apply in_map, Hr'.
Qed.

Lemma decryptRows_keys (rows : list Credential) (key : Buffer) :
  forall plains s s',
    decryptRows rows key s = (Ret plains, s') ->
    map keyOf plains = map (fun r => (service r, username r)) rows.
Proof.
  induction rows as [|r rest IH]; intros plains s s' H.
  - inversion H. reflexivity.
  - cbn [decryptRows] in H. unfold bind in H.
    destruct (decrypt (password r) key s) as [[plain| | |] s1]; try discriminate.
    destruct (decryptRows rest key s1) as [[others| | |] s2] eqn:Hrest; try discriminate.
    inversion H; subst. simpl. f_equal. exact (IH _ _ _ Hrest).
Qed.

End Replace.

Section ReadBack.
Context {N : Node} {L : NodeLaws N}.

(** The rows that [insertEncrypted] writes decrypt to the records. *)
Lemma decryptRows_sealRows (key : Buffer) (e : nat -> byte) (records : list CsvRecord) :
  List.length key = 32 ->
  forall from s, decryptRows (sealRows records key e from) key s = (Ret records, s).
Proof.
  intros Hkey. induction records as [|r rest IH]; intros from s; [reflexivity|].
  cbn [sealRows decryptRows password service username].
  assert (Hiv : List.length (map e (seq from 12)) = 12)
    by (now rewrite length_map, length_seq).
  assert (Hdec : decrypt (envelopeOf (csv_password r) key (map e (seq from 12))) key s
                 = (Ret (csv_password r), s)) by (apply decrypt_envelopeOf; assumption).
  rewrite (bind_Ret _ Hdec).
  rewrite (bind_Ret _ (IH (from + 12) s)).
  destruct r; reflexivity.
Qed.

End ReadBack.

Section ImportTransaction.
Context {N : Node}.

Lemma tryCatch_Ret A (m : M A) (h : Thrown -> M A) s a s1 :
  m s = (Ret a, s1) -> tryCatch m h s = (Ret a, s1).
Proof. unfold tryCatch; intros ->; reflexivity. Qed.

(** The transaction of [import] on a READY store, with no storage
    failure: the rows are replaced by the sealed records. *)
Lemma import_transaction_runs (masterPw : string) (records : list CsvRecord)
  (r : MasterRow) (rows : list Credential) f k e dr wf wr so se
  (handler : Thrown -> M unit) :
  isMasterId r = true ->
  List.length (deriveKey masterPw (salt r)) = 32 ->
  NoDup (map keyOf records) ->
  (forall n, wf n = false) ->
  tryCatch
    (bind (getMasterSalt Handle) (fun salt_ =>
       let key := deriveKey masterPw salt_ in
       bind (execute Handle BEGIN) (fun _ =>
       bind (execute Handle DELETE_credentials) (fun _ =>
       bind (insertEncrypted Handle records key) (fun _ =>
       bind (execute Handle COMMIT) (fun _ => ret tt))))))
    handler
    (mkState (Some (mkDatabase (Some "ok") (Some [r]) (Some rows))) None
       f k e dr wf wr so se)
  = (Ret tt,
     mkState (Some (mkDatabase (Some "ok") (Some [r])
                      (Some (sealRows records (deriveKey masterPw (salt r)) e dr))))
       None f k e (dr + 12 * List.length records) wf
       (S (S (S wr) + List.length records)) so se).
Proof.
  intros Hid Hkey Hnodup Hwf.
  set (s := mkState (Some (mkDatabase (Some "ok") (Some [r]) (Some rows))) None
              f k e dr wf wr so se).
  assert (Hsalt : getMasterSalt Handle s = (Ret (salt r), s)).
  { unfold getMasterSalt, query, view, bind. simpl. rewrite Hid. reflexivity. }
  assert (Hbody :
    bind (getMasterSalt Handle) (fun salt_ =>
       let key := deriveKey masterPw salt_ in
       bind (execute Handle BEGIN) (fun _ =>
       bind (execute Handle DELETE_credentials) (fun _ =>
       bind (insertEncrypted Handle records key) (fun _ =>
       bind (execute Handle COMMIT) (fun _ => ret tt))))) s
    = (Ret tt,
       mkState (Some (mkDatabase (Some "ok") (Some [r])
                        (Some (sealRows records (deriveKey masterPw (salt r)) e dr))))
         None f k e (dr + 12 * List.length records) wf
         (S (S (S wr) + List.length records)) so se)).
  { rewrite (bind_Ret _ Hsalt). cbv zeta.
    assert (Hbegin : execute Handle BEGIN s
              = (Ret 0, mkState (Some (mkDatabase (Some "ok") (Some [r]) (Some rows)))
                          (Some (mkDatabase (Some "ok") (Some [r]) (Some rows)))
                          f k e dr wf (S wr) so se)).
    { unfold execute. simpl. rewrite Hwf. reflexivity. }
    rewrite (bind_Ret _ Hbegin).
    assert (Hdelete : execute Handle DELETE_credentials
                        (mkState (Some (mkDatabase (Some "ok") (Some [r]) (Some rows)))
                           (Some (mkDatabase (Some "ok") (Some [r]) (Some rows)))
                           f k e dr wf (S wr) so se)
              = (Ret (List.length rows),
                 mkState (Some (mkDatabase (Some "ok") (Some [r]) (Some rows)))
                   (Some (mkDatabase (Some "ok") (Some [r]) (Some [])))
                   f k e dr wf (S (S wr)) so se)).
    { unfold execute. simpl. rewrite Hwf. reflexivity. }
    rewrite (bind_Ret _ Hdelete).
    rewrite (bind_Ret _ (@insertEncrypted_runs N _ records Hkey Hnodup
                           (Some (mkDatabase (Some "ok") (Some [r]) (Some rows)))
                           (Some "ok") (Some [r]) [] f k e dr wf (S (S wr)) so se Hwf
                           (fun _ _ => eq_refl))).
    cbn [app].
    unfold bind, execute. simpl. rewrite Hwf. reflexivity. }
  apply tryCatch_Ret, Hbody.
Qed.

End ImportTransaction.

Section ImportRuns.
Context {N : Node}.

(** [import] of an accepted file on a READY store, step by step. *)
Lemma import_runs (path masterPw text : string) (s : State) (d : Database)
  (r : MasterRow) (rows : list Credential) (records : list CsvRecord) (rest : list Key) :
  checkDbState s = (Ret DbState.READY, s) ->
  txn s = None -> disk s = Some d ->
  master d = Some [r] -> credentials d = Some rows ->
  masterPw <> "" ->
  verifyMasterPassword masterPw Handle s = (Ret true, s) ->
  List.length (deriveKey masterPw (salt r)) = 32 ->
  toLowerCase (path_extname path) = CsvSpec.extension ->
  fs s path = Some (File text) ->
  parseCsvText path text = pass records ->
  NoDup (map keyOf records) ->
  rows = [] \/ (stdin s = Typed "y" :: rest /\ toLowerCase "y" = "y") ->
  (forall n, write_fault s n = false) ->
  let final := snd (main ["import"; path; "--master"; masterPw] s) in
  fst (main ["import"; path; "--master"; masterPw] s) = Exited 0
  /\ (exists out,
        stdout final
        = (out ++ [printed ("Success: imported " ++ show (List.length records)
                              ++ " records.")])%list)
  /\ disk final
     = Some (mkDatabase (integrity_check d) (master d)
               (Some (sealRows records (deriveKey masterPw (salt r)) (entropy s) (drawn s)))).
Proof.
  intros Hst Htxn Hdisk Hm Hrows Hpw Hver Hkey Hext Hfile Hparse Hnodup Hconfirm Hwf. cbv zeta.
  destruct (proj1 (checkDbState_READY_iff s Htxn) Hst) as (d0 & Hd0 & Hic & _).
  assert (d0 = d) by congruence. subst d0. clear Hd0.
  apply String.eqb_neq in Hpw.
  destruct s as [dk tx f k e dr wf wr so se]; simpl in Htxn, Hdisk, Hwf, Hfile. subst dk tx.
  destruct d as [ic m c]; simpl in Hic, Hm, Hrows. subst ic m c.
  cbn [integrity_check master entropy drawn].
  set (s := mkState (Some (mkDatabase (Some "ok") (Some [r]) (Some rows))) None
              f k e dr wf wr so se) in *.
  assert (Hid : isMasterId r = true).
  { unfold verifyMasterPassword, query, view, bind, lift in Hver. simpl in Hver.
    destruct (isMasterId r); [reflexivity|discriminate]. }
  set (key := deriveKey masterPw (salt r)).
  assert (Hread : parseCsvFileStrict path s = (Ret records, s)).
  { unfold parseCsvFileStrict, requireCsvExtension.
    rewrite Hext. rewrite String.eqb_refl. cbn [negb].
    rewrite (bind_Ret _ (eq_refl : lift (pass tt) s = (Ret tt, s))).
    assert (Hreq : requireExistingFile path s = (Ret tt, s)).
    { unfold requireExistingFile, bind, existsSync, isDirectory. simpl. rewrite Hfile.
      simpl. rewrite Hfile. reflexivity. }
    rewrite (bind_Ret _ Hreq).
    assert (Hfs : readFileSync path s = (Ret text, s)).
    { unfold readFileSync. simpl. rewrite Hfile. reflexivity. }
    rewrite (bind_Ret _ Hfs). rewrite Hparse. reflexivity. }
  assert (Hget : getMasterPassword ["import"; path; "--master"; masterPw] 2 s
                 = (Ret masterPw, s)).
  { unfold getMasterPassword. cbn. rewrite Hpw. reflexivity. }
  assert (Hmsg : forall n,
            String.eqb ("Success: imported " ++ show n ++ " records.") "" = false)
    by reflexivity.
  unfold main, dispatch. cbn [arg nth_error]. unfold cmdImport. cbv zeta.
  cbn [List.length Nat.eqb orb negb argText nth].
  rewrite (bind_Ret _ (ret_tt_runs s)).
  rewrite (bind_Ret _ (requireReadyState_passes Hst)).
  rewrite (bind_Ret _ Hget).
  rewrite (bind_Ret _ (eq_refl : openDb s = (Ret Handle, s))).
  rewrite (bind_Ret _ Hver). cbn [negb]. rewrite (bind_Ret _ (ret_tt_runs s)).
  rewrite (bind_Ret _ Hread).
  rewrite (bind_Ret _ (eq_refl : query Handle SELECT_COUNT_credentials s
                                 = (Ret (List.length rows), s))).
  destruct Hconfirm as [->|[Hkeys Hy]].
  - cbn [List.length Nat.ltb Nat.leb]. rewrite (bind_Ret _ (ret_tt_runs s)).
    unfold s.
    rewrite (bind_Ret _ (@import_transaction_runs N masterPw records r [] f k e dr wf wr
                           so se _ Hid Hkey Hnodup Hwf)).
    unfold lift, exitWith. cbn [exit_message exit_code]. rewrite Hmsg.
    cbn [ExitCode.eqb ExitCode.number Nat.eqb fst snd write_stdout stdout disk].
    split; [reflexivity|]. split; [eexists; reflexivity|]. reflexivity.
  - destruct rows as [|row rows'].
    + cbn [List.length Nat.ltb Nat.leb]. rewrite (bind_Ret _ (ret_tt_runs s)).
      unfold s.
      rewrite (bind_Ret _ (@import_transaction_runs N masterPw records r [] f k e dr wf wr
                             so se _ Hid Hkey Hnodup Hwf)).
      unfold lift, exitWith. cbn [exit_message exit_code]. rewrite Hmsg.
      cbn [ExitCode.eqb ExitCode.number Nat.eqb fst snd write_stdout stdout disk].
      split; [reflexivity|]. split; [eexists; reflexivity|]. reflexivity.
    + cbn [List.length Nat.ltb Nat.leb].
      assert (Hask : forall prompt,
                askChoice prompt ["y"; "n"] s
                = (Ret "y",
                   write_stdout ("y" ++ chr LF) (set_stdin rest (write_stdout prompt s)))).
      { intros prompt. unfold askChoice. simpl in Hkeys. unfold s at 1. cbn [stdin].
        rewrite Hkeys. cbn [map askChoiceLoop]. rewrite Hy. reflexivity. }
      rewrite bind_assoc. rewrite (bind_Ret _ (Hask _)).
      cbn [String.eqb Ascii.eqb Bool.eqb].
      unfold s, write_stdout, set_stdin.
      cbn [disk txn fs stdin entropy drawn write_fault written stdout stderr].
      rewrite (bind_Ret _ (eq_refl : ret tt _ = (Ret tt, _))).
      rewrite (bind_Ret _ (@import_transaction_runs N masterPw records r (row :: rows')
                             f _ e dr wf wr _ se _ Hid Hkey Hnodup Hwf)).
      unfold lift, exitWith. cbn [exit_message exit_code]. rewrite Hmsg.
      cbn [ExitCode.eqb ExitCode.number Nat.eqb fst snd write_stdout stdout disk].
      split; [reflexivity|]. split; [eexists; reflexivity|]. reflexivity.
Qed.


End ImportRuns.

Section ImportSuccess.
Context {N : Node} {L : NodeLaws N}.


End ImportSuccess.


Section RotateTransaction.
Context {N : Node}.

(** The transaction of [change-master] on a READY store, with no storage
    failure: the master row and every entry are rewritten. *)
Lemma change_master_transaction_runs (oldPw newPw : string) (plainRows : list CsvRecord)
  (r : MasterRow) (rows : list Credential) f k e dr wf wr so se
  (handler : Thrown -> M unit) :
  let s := mkState (Some (mkDatabase (Some "ok") (Some [r]) (Some rows))) None
             f k e dr wf wr so se in
  let newSalt := toString_hex (map e (seq dr 16)) in
  let newKey := deriveKey newPw newSalt in
  isMasterId r = true ->
  decryptRows rows (deriveKey oldPw (salt r)) s = (Ret plainRows, s) ->
  List.length newKey = 32 ->
  NoDup (map keyOf plainRows) ->
  (forall n, wf n = false) ->
  tryCatch
    (bind (query Handle SELECT_master) (fun masterRow =>
     bind (match masterRow with
           | Some r => ret (salt r)
           | None => throw (JsError "Cannot read properties of undefined (reading 'salt')")
           end) (fun oldSalt =>
     let oldKey := deriveKey oldPw oldSalt in
     bind (query Handle SELECT_credentials) (fun encryptedRows =>
     bind (decryptRows encryptedRows oldKey) (fun plainRows =>
     bind freshSalt (fun newSalt =>
     let newKey := deriveKey newPw newSalt in
     let newHash := hashDerivedKey newKey in
     bind (execute Handle BEGIN) (fun _ =>
     bind (execute Handle (UPDATE_master newHash newSalt)) (fun _ =>
     bind (execute Handle DELETE_credentials) (fun _ =>
     bind (insertEncrypted Handle plainRows newKey) (fun _ =>
     bind (execute Handle COMMIT) (fun _ => ret tt)))))))))))
    handler s
  = (Ret tt,
     mkState (Some (mkDatabase (Some "ok")
                      (Some [mkMaster 1 (hashDerivedKey newKey) newSalt])
                      (Some (sealRows plainRows newKey e (dr + 16)))))
       None f k e (dr + 16 + 12 * List.length plainRows) wf
       (S (S (S (S wr)) + List.length plainRows)) so se).
Proof.
  intros s newSalt newKey Hid Hdec Hkey Hnodup Hwf.
  apply tryCatch_Ret.
  assert (Hrow : query Handle SELECT_master s = (Ret (Some r), s)).
  { unfold query, view. simpl. rewrite Hid. reflexivity. }
  rewrite (bind_Ret _ Hrow).
  rewrite (bind_Ret _ (eq_refl : ret (salt r) s = (Ret (salt r), s))).
  cbv zeta.
  rewrite (bind_Ret _ (eq_refl : query Handle SELECT_credentials s = (Ret rows, s))).
  rewrite (bind_Ret _ Hdec).
  rewrite (bind_Ret _ (eq_refl : freshSalt s = (Ret newSalt, set_drawn (dr + 16) s))).
  fold newKey.
  unfold s, set_drawn.
  cbn [disk txn fs stdin entropy drawn write_fault written stdout stderr].
  set (d := mkDatabase (Some "ok") (Some [r]) (Some rows)).
  assert (Hbegin : execute Handle BEGIN (mkState (Some d) None f k e (dr + 16) wf wr so se)
            = (Ret 0, mkState (Some d) (Some d) f k e (dr + 16) wf (S wr) so se)).
  { unfold execute. simpl. rewrite Hwf. reflexivity. }
  rewrite (bind_Ret _ Hbegin).
  assert (Hupdate : execute Handle (UPDATE_master (hashDerivedKey newKey) newSalt)
                      (mkState (Some d) (Some d) f k e (dr + 16) wf (S wr) so se)
            = (Ret 1,
               mkState (Some d)
                 (Some (mkDatabase (Some "ok")
                          (Some [mkMaster 1 (hashDerivedKey newKey) newSalt]) (Some rows)))
                 f k e (dr + 16) wf (S (S wr)) so se)).
  { unfold execute. simpl. rewrite Hwf. rewrite Hid. reflexivity. }
  rewrite (bind_Ret _ Hupdate).
  assert (Hdelete : execute Handle DELETE_credentials
                      (mkState (Some d)
                         (Some (mkDatabase (Some "ok")
                                  (Some [mkMaster 1 (hashDerivedKey newKey) newSalt])
                                  (Some rows)))
                         f k e (dr + 16) wf (S (S wr)) so se)
            = (Ret (List.length rows),
               mkState (Some d)
                 (Some (mkDatabase (Some "ok")
                          (Some [mkMaster 1 (hashDerivedKey newKey) newSalt]) (Some [])))
                 f k e (dr + 16) wf (S (S (S wr))) so se)).
  { unfold execute. simpl. rewrite Hwf. reflexivity. }
  rewrite (bind_Ret _ Hdelete).
  rewrite (bind_Ret _ (@insertEncrypted_runs N _ plainRows Hkey Hnodup
                         (Some d) (Some "ok")
                         (Some [mkMaster 1 (hashDerivedKey newKey) newSalt]) []
                         f k e (dr + 16) wf (S (S (S wr))) so se Hwf
                         (fun _ _ => eq_refl))).
  cbn [app].
  unfold bind, execute. simpl. rewrite Hwf. reflexivity.
Qed.

End RotateTransaction.

Section RotateSuccess.
Context {N : Node} {L : NodeLaws N}.

(** X15. A successful change-master re-encrypts the vault: on a READY
    store, with old and new password given as options and different, the
    old one verified, every row decrypted under the old key, 32-byte keys,
    distinct (service, username) and no storage failure, [change-master]
    ends with exit code 0 and "Success: master password changed."; the
    master row then holds a fresh salt of 16 random bytes and the hash of
    the new key, the next process verifies the new password, and the
    entries, sealed under the new key in the same order, decrypt to the
    same plain texts as before. *)
Theorem change_master_reencrypts (oldPw newPw : string) (s : State) (d : Database)
  (r : MasterRow) (rows : list Credential) (plainRows : list CsvRecord) :
  checkDbState s = (Ret DbState.READY, s) ->
  txn s = None -> disk s = Some d ->
  master d = Some [r] -> credentials d = Some rows ->
  oldPw <> "" -> newPw <> "" -> oldPw <> newPw -> oldPw <> "--new-master" ->
  verifyMasterPassword oldPw Handle s = (Ret true, s) ->
  decryptRows rows (deriveKey oldPw (salt r)) s = (Ret plainRows, s) ->
  (forall salt_, List.length (deriveKey newPw salt_) = 32) ->
  NoDup (map (fun row => (service row, username row)) rows) ->
  (forall n, write_fault s n = false) ->
  let args := ["change-master"; "--old-master"; oldPw; "--new-master"; newPw] in
  let final := snd (main args s) in
  let newSalt := toString_hex (map (entropy s) (seq (drawn s) 16)) in
  let newKey := deriveKey newPw newSalt in
  let newRows := sealRows plainRows newKey (entropy s) (drawn s + 16) in
  fst (main args s) = Exited 0
  /\ stdout final = (stdout s ++ [printed Messages.infos.masterChanged])%list
  /\ disk final
     = Some (mkDatabase (integrity_check d)
               (Some [mkMaster 1 (hashDerivedKey newKey) newSalt]) (Some newRows))
  /\ fst (verifyMasterPassword newPw Handle (nextProcess final)) = Ret true
  /\ forall s', decryptRows newRows newKey s' = (Ret plainRows, s').
Proof.
  intros Hst Htxn Hdisk Hm Hrows Hold Hnew Hdiff Hopt Hver Hdec Hkey Hnodup Hwf. cbv zeta.
  destruct (proj1 (checkDbState_READY_iff s Htxn) Hst) as (d0 & Hd0 & Hic & _).
  assert (d0 = d) by congruence. subst d0. clear Hd0.
  apply String.eqb_neq in Hold, Hnew, Hdiff, Hopt.
  destruct s as [dk tx f k e dr wf wr so se]; simpl in Htxn, Hdisk, Hwf. subst dk tx.
  destruct d as [ic m c]; simpl in Hic, Hm, Hrows. subst ic m c.
  cbn [integrity_check entropy drawn stdout].
  set (s := mkState (Some (mkDatabase (Some "ok") (Some [r]) (Some rows))) None
              f k e dr wf wr so se) in *.
  assert (Hid : isMasterId r = true).
  { unfold verifyMasterPassword, query, view, bind, lift in Hver. simpl in Hver.
    destruct (isMasterId r); [reflexivity|discriminate]. }
  assert (Hkeys : NoDup (map keyOf plainRows)).
  { rewrite (decryptRows_keys _ _ _ Hdec). exact Hnodup. }
  set (newSalt := toString_hex (map e (seq dr 16))).
  set (newKey := deriveKey newPw newSalt).
  assert (HoldOpt : oldMasterOf ["change-master"; "--old-master"; oldPw; "--new-master"; newPw] s
                    = (Ret oldPw, s)).
  { unfold oldMasterOf. cbn. rewrite Hold. reflexivity. }
  assert (HnewOpt : newMasterOf ["change-master"; "--old-master"; oldPw; "--new-master"; newPw] s
                    = (Ret newPw, s)).
  { unfold newMasterOf. cbn -[String.eqb]. 
    change (String.eqb "change-master" "--new-master") with false. cbv iota.
    change (String.eqb "--old-master" "--new-master") with false. cbv iota.
    rewrite Hopt. rewrite String.eqb_refl. cbn. rewrite Hnew. reflexivity. }
  unfold main, dispatch. cbn [arg nth_error]. unfold cmdChangeMaster.
  change (changeMasterOptionsOk (tl ["change-master"; "--old-master"; oldPw; "--new-master"; newPw]))
    with true. cbn [negb].
  rewrite (bind_Ret _ (ret_tt_runs s)).
  rewrite (bind_Ret _ (requireReadyState_passes Hst)).
  rewrite (bind_Ret _ HoldOpt). rewrite (bind_Ret _ HnewOpt).
  rewrite Hdiff. rewrite (bind_Ret _ (ret_tt_runs s)).
  rewrite (bind_Ret _ (eq_refl : openDb s = (Ret Handle, s))).
  rewrite (bind_Ret _ Hver). cbn [negb]. rewrite (bind_Ret _ (ret_tt_runs s)).
  unfold s.
  rewrite (bind_Ret _ (@change_master_transaction_runs N oldPw newPw plainRows r rows
                         f k e dr wf wr so se _ Hid Hdec (Hkey newSalt) Hkeys Hwf)).
  unfold lift, exitWith. cbn [exit_message exit_code].
  change (String.eqb Messages.infos.masterChanged "") with false. cbv iota.
  cbn [ExitCode.eqb ExitCode.number Nat.eqb fst snd write_stdout stdout disk].
  split; [reflexivity|]. split; [reflexivity|]. split; [reflexivity|].
  split.
  - unfold verifyMasterPassword, timingSafeEqual, query, view, bind, nextProcess. simpl.
    rewrite Nat.eqb_refl, bufferEqb_refl. reflexivity.
  - intros s'. apply decryptRows_sealRows, Hkey.
Qed.

End RotateSuccess.

(** [change_master_reencrypts] on the sample vault. *)
Lemma change_master_reencrypts_vault :
  let s := Model.vault in
  let final := snd (@main Model.node Model.rotate s) in
  let newSalt := @toString_hex Model.node (map (entropy s) (seq (drawn s) 16)) in
  let newKey := @deriveKey Model.node "n3w-Passw0rd" newSalt in
  let newRows := @sealRows Model.node vaultPlainRows newKey (entropy s) (drawn s + 16) in
  fst (@main Model.node Model.rotate s) = Exited 0
  /\ stdout final = (stdout s ++ [printed Messages.infos.masterChanged])%list
  /\ disk final
     = Some (mkDatabase (integrity_check Model.vaultContent)
               (Some [mkMaster 1 (@hashDerivedKey Model.node newKey) newSalt])
               (Some newRows))
  /\ fst (@verifyMasterPassword Model.node "n3w-Passw0rd" Handle (nextProcess final))
     = Ret true
  /\ forall s', @decryptRows Model.node newRows newKey s' = (Ret vaultPlainRows, s').
Proof.
  apply (@change_master_reencrypts Model.node model_node_laws "Passw0rd!" "n3w-Passw0rd"
           Model.vault Model.vaultContent vaultMasterRow Model.vaultRows vaultPlainRows).
  - vm_compute. reflexivity.
  - reflexivity.
  - vm_compute. reflexivity.
  - vm_compute. reflexivity.
  - vm_compute. reflexivity.
  - discriminate.
  - discriminate.
  - discriminate.
  - discriminate.
  - vm_compute. reflexivity.
  - vm_compute. reflexivity.
  - apply model_key_length.
  - assert (Hkeys : map (fun row => (service row, username row)) Model.vaultRows
                    = [("github", "alice"); ("shop", "bob"); ("github", "carol");
                       ("mail", "dave")]) by (vm_compute; reflexivity).
    rewrite Hkeys. repeat constructor; simpl; intuition discriminate.
  - intros n. reflexivity.
Defined.

(** ** export *)

Section ExportFile.
Context {N : Node}.

Lemma length_append (a b : string) :
  String.length (a ++ b) = String.length a + String.length b.
Proof. induction a as [|c a IH]; simpl; [reflexivity | now rewrite IH]. Qed.

Lemma tmp_path_differs (path : string) : String.eqb (path ++ ".tmp") path = false.
Proof.
  apply String.eqb_neq. intros H. apply (f_equal String.length) in H.
  rewrite length_append in H. simpl in H. lia.
Qed.

(** [export] to a free path on a READY store, step by step. *)
Lemma export_runs (path masterPw csv : string) (s : State) (d : Database)
  (r : MasterRow) (rows : list Credential) (plainRows : list CsvRecord) :
  checkDbState s = (Ret DbState.READY, s) ->
  txn s = None -> disk s = Some d ->
  master d = Some [r] -> credentials d = Some rows ->
  masterPw <> "" ->
  verifyMasterPassword masterPw Handle s = (Ret true, s) ->
  toLowerCase (path_extname path) = CsvSpec.extension ->
  fs s path = None ->
  fs s (path_dirname path) <> None ->
  fs s (path ++ ".tmp") <> Some Directory ->
  decryptRows rows (deriveKey masterPw (salt r)) s = (Ret plainRows, s) ->
  buildCsv plainRows = pass csv ->
  main ["export"; path; "--master"; masterPw] s
  = (Exited 0,
     write_stdout (printed ("Success: Exported to " ++ path))
       (set_fs (fun p => if String.eqb p path then Some (File csv)
                         else if String.eqb p (path ++ ".tmp") then None
                         else if String.eqb p (path ++ ".tmp") then Some (File csv)
                         else fs s p) s)).
Proof.
  intros Hst Htxn Hdisk Hm Hrows Hpw Hver Hext Hfree Hdir Htmp Hdec Hcsv.
  apply String.eqb_neq in Hpw.
  destruct s as [dk tx f k e dr wf wr so se];
    simpl in Htxn, Hdisk, Hfree, Hdir, Htmp. subst dk tx.
  destruct d as [ic m c]; simpl in Hm, Hrows. subst m c.
  set (s := mkState (Some (mkDatabase ic (Some [r]) (Some rows))) None
              f k e dr wf wr so se) in *.
  assert (Hid : isMasterId r = true).
  { unfold verifyMasterPassword, query, view, bind, lift in Hver. simpl in Hver.
    destruct (isMasterId r); [reflexivity|discriminate]. }
  assert (Hvalid : validateExportTargetPath path s = (Ret tt, s)).
  { unfold validateExportTargetPath, requireCsvExtension.
    rewrite Hext, String.eqb_refl. cbn [negb].
    rewrite (bind_Ret _ (eq_refl : lift (pass tt) s = (Ret tt, s))).
    unfold bind, existsSync. simpl. rewrite Hfree. simpl.
    destruct (f (path_dirname path)); [reflexivity|congruence]. }
  assert (Hconflict : existsSync path s = (Ret false, s)).
  { unfold existsSync. simpl. rewrite Hfree. reflexivity. }
  assert (Hget : getMasterPassword ["export"; path; "--master"; masterPw] 2 s
                 = (Ret masterPw, s)).
  { unfold getMasterPassword. cbn. rewrite Hpw. reflexivity. }
  assert (Hsalt : getMasterSalt Handle s = (Ret (salt r), s)).
  { unfold getMasterSalt, query, view, bind. simpl. rewrite Hid. reflexivity. }
  assert (Hmsg : String.eqb ("Success: Exported to " ++ path) "" = false) by reflexivity.
  unfold main, dispatch. cbn [arg nth_error]. unfold cmdExport. cbv zeta.
  cbn [List.length Nat.eqb orb negb argText nth].
  rewrite (bind_Ret _ (ret_tt_runs s)).
  rewrite (bind_Ret _ (requireReadyState_passes Hst)).
  rewrite (bind_Ret _ Hvalid). rewrite (bind_Ret _ Hconflict).
  rewrite (bind_Ret _ (eq_refl : ret path s = (Ret path, s))).
  rewrite (bind_Ret _ Hget).
  rewrite (bind_Ret _ (eq_refl : openDb s = (Ret Handle, s))).
  rewrite (bind_Ret _ Hver). cbn [negb]. rewrite (bind_Ret _ (ret_tt_runs s)).
  rewrite (bind_Ret _ Hsalt).
  rewrite (bind_Ret _ (eq_refl : query Handle SELECT_credentials s = (Ret rows, s))).
  rewrite (bind_Ret _ Hdec). rewrite Hcsv.
  rewrite (bind_Ret _ (eq_refl : lift (pass csv) s = (Ret csv, s))).
  unfold bind, writeFileSync, renameSync, lift, exitWith. simpl.
  destruct (f (path ++ ".tmp")) as [[content|]|] eqn:Hf; try congruence; simpl;
    rewrite String.eqb_refl; reflexivity.
Qed.

(** X16. [export] to a path that does not exist yet: on a READY store,
    with a [.csv] path in an existing directory, the master password
    verified and every row decrypted, [export] writes the text of
    [buildCsv] for the decrypted rows to [path.tmp], renames it to the
    path, prints "Success: Exported to path" and ends with exit code 0.
    Afterwards the path holds the CSV text, [path.tmp] is gone, every other
    path is as before and the store is untouched. *)
Theorem export_writes_file (path masterPw csv : string) (s : State) (d : Database)
  (r : MasterRow) (rows : list Credential) (plainRows : list CsvRecord) :
  checkDbState s = (Ret DbState.READY, s) ->
  txn s = None -> disk s = Some d ->
  master d = Some [r] -> credentials d = Some rows ->
  masterPw <> "" ->
  verifyMasterPassword masterPw Handle s = (Ret true, s) ->
  toLowerCase (path_extname path) = CsvSpec.extension ->
  fs s path = None ->
  fs s (path_dirname path) <> None ->
  fs s (path ++ ".tmp") <> Some Directory ->
  decryptRows rows (deriveKey masterPw (salt r)) s = (Ret plainRows, s) ->
  buildCsv plainRows = pass csv ->
  let final := snd (main ["export"; path; "--master"; masterPw] s) in
  fst (main ["export"; path; "--master"; masterPw] s) = Exited 0
  /\ stdout final = (stdout s ++ [printed ("Success: Exported to " ++ path)])%list
  /\ fs final path = Some (File csv)
  /\ fs final (path ++ ".tmp") = None
  /\ (forall p, p <> path -> p <> path ++ ".tmp" -> fs final p = fs s p)
  /\ disk final = disk s /\ written final = written s.
Proof.
  intros Hst Htxn Hdisk Hm Hrows Hpw Hver Hext Hfree Hdir Htmp Hdec Hcsv. cbv zeta.
  rewrite (@export_runs path masterPw csv s d r rows plainRows
             Hst Htxn Hdisk Hm Hrows Hpw Hver Hext Hfree Hdir Htmp Hdec Hcsv).
  cbn [fst snd write_stdout set_fs stdout fs disk written].
  rewrite !String.eqb_refl, tmp_path_differs.
  split; [reflexivity|]. split; [reflexivity|]. split; [reflexivity|].
  split; [reflexivity|]. split; [|split; reflexivity].
  intros p Hp Hp'. apply String.eqb_neq in Hp, Hp'. rewrite Hp, Hp'. reflexivity.
Qed.

End ExportFile.

(** [export_writes_file] on the sample vault. *)
Lemma export_writes_file_vault :
  let csv := "service,username,password" ++ chr LF ++ "github,alice,s3cret" ++ chr LF
               ++ "shop,bob,pw2" ++ chr LF ++ "github,carol,pw3" ++ chr LF ++ "mail,dave,pw4" in
  let s := Model.vault in
  let final := snd (@main Model.node ["export"; "out.csv"; "--master"; "Passw0rd!"] s) in
  fst (@main Model.node ["export"; "out.csv"; "--master"; "Passw0rd!"] s) = Exited 0
  /\ stdout final = (stdout s ++ [printed ("Success: Exported to " ++ "out.csv")])%list
  /\ fs final "out.csv" = Some (File csv)
  /\ fs final ("out.csv" ++ ".tmp") = None
  /\ (forall p, p <> "out.csv" -> p <> "out.csv" ++ ".tmp" -> fs final p = fs s p)
  /\ disk final = disk s /\ written final = written s.
Proof.
  apply (@export_writes_file Model.node "out.csv" "Passw0rd!" _ Model.vault
           Model.vaultContent vaultMasterRow Model.vaultRows vaultPlainRows).
  - vm_compute. reflexivity.
  - reflexivity.
  - vm_compute. reflexivity.
  - vm_compute. reflexivity.
  - vm_compute. reflexivity.
  - discriminate.
  - vm_compute. reflexivity.
  - vm_compute. reflexivity.
  - vm_compute. reflexivity.
  - vm_compute. discriminate.
  - vm_compute. discriminate.
  - vm_compute. reflexivity.
  - reflexivity.
Defined.

Section ExportRefusals.
Context {N : Node}.

(** X17. What [export] refuses before it asks for the master password,
    on a READY store, in this order: a path whose extension is not [.csv]
    (usage error, exit 2), a path that is a directory (exit 2), a path
    whose directory does not exist (exit 4).  When the path is an existing
    file the operator is asked, and the answer c ends the command with
    "Canceled." and exit code 0.  In each case no file is written and the
    store is untouched. *)
Theorem export_refusals (args : list string) (s : State) :
  arg args 0 = Some "export" -> usageOk args = true ->
  checkDbState s = (Ret DbState.READY, s) ->
  let path := argText args 1 in
  (toLowerCase (path_extname path) <> CsvSpec.extension ->
   main args s
   = (Exited 2,
      write_stderr
        (printed (Messages.errors.csvExtensionRequired "export" CsvSpec.extension path)) s))
  /\ (toLowerCase (path_extname path) = CsvSpec.extension ->
      (fs s path = Some Directory ->
       main args s = (Exited 2, write_stderr (printed Messages.errors.exportTargetDir) s))
      /\ (fs s path <> Some Directory -> fs s (path_dirname path) = None ->
          main args s
          = (Exited 4,
             write_stderr
               (printed (Messages.errors.exportDirNotExist (path_dirname path))) s))
      /\ (forall content rest,
            fs s path = Some (File content) -> fs s (path_dirname path) <> None ->
            stdin s = Typed "c" :: rest -> toLowerCase "c" = "c" ->
            main args s
            = (Exited 0,
               write_stdout (printed Messages.infos.exportCanceled)
                 (write_stdout ("c" ++ chr LF)
                    (set_stdin rest
                       (write_stdout (Messages.prompts.confirmExportConflict path) s)))))).
Proof.
  intros Hcmd Hu Hst. cbv zeta.
  assert (Hstart : dispatch args s
            = bind (validateExportTargetPath (argText args 1)) (fun _ =>
              bind (existsSync (argText args 1)) (fun conflict =>
              bind (if conflict then
                      bind (askChoice (Messages.prompts.confirmExportConflict (argText args 1))
                              ["o"; "r"; "c"]) (fun choice =>
                      bind (if String.eqb choice "c"
                            then lift (exitWith ExitCode.OK Messages.infos.exportCanceled)
                            else ret tt) (fun _ =>
                      if String.eqb choice "r" then
                        bind (suggestNonConflictingPath (argText args 1)) (fun renamed =>
                        bind (validateExportTargetPath renamed) (fun _ =>
                        bind (console_log (Messages.infos.exportRenamedTo renamed)) (fun _ =>
                        ret renamed)))
                      else ret (argText args 1)))
                    else ret (argText args 1)) (fun csvPath =>
              let tmpPath := csvPath ++ ".tmp" in
              bind (getMasterPassword args 2) (fun masterPw =>
              bind openDb (fun db =>
              bind (verifyMasterPassword masterPw db) (fun verified =>
              bind (if negb verified
                    then lift (exitWith ExitCode.AUTH_ERROR Messages.errors.authFailed)
                    else ret tt) (fun _ =>
              bind (getMasterSalt db) (fun salt_ =>
              let key := deriveKey masterPw salt_ in
              bind (query db SELECT_credentials) (fun rows =>
              bind (decryptRows rows key) (fun plainRows =>
              bind (lift (buildCsv plainRows)) (fun csv =>
              bind (writeFileSync tmpPath csv) (fun _ =>
              bind (renameSync tmpPath csvPath) (fun _ =>
              lift (exitWith ExitCode.OK ("Success: Exported to " ++ csvPath))))))))))))))) s).
  { unfold dispatch. unfold usageOk in Hu. rewrite Hcmd in *. cbv iota beta in *.
    unfold cmdExport. cbv zeta. rewrite Hu. cbn [negb].
    rewrite (bind_Ret _ (ret_tt_runs s)).
    rewrite (bind_Ret _ (requireReadyState_passes Hst)). reflexivity. }
  unfold main. rewrite Hstart. clear Hstart.
  set (path := argText args 1).
  split; [|intros Hext; split; [|split]].
  - intros Hext. apply String.eqb_neq in Hext.
    assert (Hv : validateExportTargetPath path s
                 = (Throw (ExitSignal ExitCode.USAGE_ERROR),
                    write_stderr
                      (printed (Messages.errors.csvExtensionRequired "export"
                                  CsvSpec.extension path)) s)).
    { unfold validateExportTargetPath, requireCsvExtension. rewrite Hext. reflexivity. }
    rewrite (bind_Throw _ Hv). reflexivity.
  - intros Hdir.
    assert (Hv : validateExportTargetPath path s
                 = (Throw (ExitSignal ExitCode.USAGE_ERROR),
                    write_stderr (printed Messages.errors.exportTargetDir) s)).
    { unfold validateExportTargetPath, requireCsvExtension.
      rewrite Hext, String.eqb_refl. cbn [negb].
      rewrite (bind_Ret _ (eq_refl : lift (pass tt) s = (Ret tt, s))).
      unfold bind, existsSync, isDirectory. rewrite Hdir. cbn. rewrite Hdir. reflexivity. }
    rewrite (bind_Throw _ Hv). reflexivity.
  - intros Hfile Hnodir.
    assert (Hv : validateExportTargetPath path s
                 = (Throw (ExitSignal ExitCode.IO_DB_ERROR),
                    write_stderr
                      (printed (Messages.errors.exportDirNotExist (path_dirname path))) s)).
    { unfold validateExportTargetPath, requireCsvExtension.
      rewrite Hext, String.eqb_refl. cbn [negb].
      rewrite (bind_Ret _ (eq_refl : lift (pass tt) s = (Ret tt, s))).
      unfold bind, existsSync, isDirectory.
      destruct (fs s path) as [[content|]|] eqn:Hp; try congruence; cbn; rewrite ?Hp; cbn;
        rewrite Hnodir; reflexivity. }
    rewrite (bind_Throw _ Hv). reflexivity.
  - intros content rest Hfile Hdir Hkeys Hc.
    assert (Hv : validateExportTargetPath path s = (Ret tt, s)).
    { unfold validateExportTargetPath, requireCsvExtension.
      rewrite Hext, String.eqb_refl. cbn [negb].
      rewrite (bind_Ret _ (eq_refl : lift (pass tt) s = (Ret tt, s))).
      unfold bind, existsSync, isDirectory. rewrite Hfile. cbn. rewrite Hfile. cbn.
      destruct (fs s (path_dirname path)); [reflexivity|congruence]. }
    rewrite (bind_Ret _ Hv).
    assert (Hconflict : existsSync path s = (Ret true, s)).
    { unfold existsSync. rewrite Hfile. reflexivity. }
    rewrite (bind_Ret _ Hconflict).
    assert (Hask : forall prompt,
              askChoice prompt ["o"; "r"; "c"] s
              = (Ret "c",
                 write_stdout ("c" ++ chr LF) (set_stdin rest (write_stdout prompt s)))).
    { intros prompt. unfold askChoice. rewrite Hkeys. cbn [map askChoiceLoop existsb].
      rewrite Hc, String.eqb_refl, !orb_true_r. reflexivity. }
    rewrite bind_assoc. rewrite (bind_Ret _ (Hask _)). reflexivity.
Qed.

End ExportRefusals.

(** [export_refusals] on the sample vault: a path that does not end in
    [.csv]. *)
Lemma export_refusals_vault :
  @main Model.node ["export"; "out.txt"] Model.vault
  = (Exited 2,
     write_stderr
       (printed (Messages.errors.csvExtensionRequired "export" CsvSpec.extension "out.txt"))
       Model.vault).
Proof.
  refine (proj1 (@export_refusals Model.node ["export"; "out.txt"] Model.vault _ _ _) _).
  - reflexivity.
  - reflexivity.
  - vm_compute. reflexivity.
  - vm_compute. discriminate.
Defined.

(** ** Usage errors come first *)

Section Usage.
Context {N : Node}.

(** X18. Every command checks its arguments before it looks at the
    store: when the argument check of the command fails, the process
    prints the usage line of the command on stderr and ends with exit code
    2, whatever the state of the store; nothing else happens. *)
Theorem usage_error_first (args : list string) (s : State) (cmd : string) :
  In cmd commands -> arg args 0 = Some cmd -> usageOk args = false ->
  main args s = (Exited 2, write_stderr (printed (usageOf cmd)) s).
Proof.
  intros Hin Hcmd Hu. unfold main, dispatch. unfold usageOk in Hu. rewrite Hcmd in *.
  simpl in Hin.
  destruct Hin as [<-|[<-|[<-|[<-|[<-|[<-|[<-|[<-|[<-|[]]]]]]]]]]; cbv iota beta in *;
    cbn [String.eqb Ascii.eqb Bool.eqb] in *.
  - unfold cmdInit. cbv zeta. rewrite Hu. reflexivity.
  - unfold cmdAdd. cbv zeta. rewrite Hu. reflexivity.
  - unfold cmdGet. apply negb_false_iff in Hu. rewrite Hu. reflexivity.
  - unfold cmdDel. apply negb_false_iff in Hu. rewrite Hu. reflexivity.
  - unfold cmdList. cbv zeta. rewrite Hu. reflexivity.
  - unfold cmdStatus. rewrite Hu. reflexivity.
  - unfold cmdExport. cbv zeta. rewrite Hu. reflexivity.
  - unfold cmdImport. cbv zeta. rewrite Hu. reflexivity.
  - unfold cmdChangeMaster. rewrite Hu. reflexivity.
Qed.

End Usage.

(** [usage_error_first] on a machine without store: [add] with two
    arguments. *)
Lemma usage_error_first_add :
  @main Model.node ["add"; "github"] Model.blank
  = (Exited 2, write_stderr (printed Messages.usage.add) Model.blank).
Proof.
  apply (@usage_error_first Model.node ["add"; "github"] Model.blank "add").
  - simpl; auto.
  - reflexivity.
  - reflexivity.
Defined.

(** ** status *)

Section Status.
Context {N : Node}.


End Status.


(** ** del *)

Section Delete.
Context {N : Node}.

Lemma find_filtered (service_ username_ : string) (rows : list Credential) :
  find (sameKey service_ username_)
    (filter (fun r => negb (sameKey service_ username_ r)) rows) = None.
Proof.
  induction rows as [|x rest IH]; simpl; [reflexivity|].
  destruct (sameKey service_ username_ x) eqn:Hx; simpl; [exact IH|].
  rewrite Hx. exact IH.
Qed.

Lemma filter_some (service_ username_ : string) (rows : list Credential) :
  existsb (sameKey service_ username_) rows = true ->
  Nat.eqb (List.length (filter (sameKey service_ username_) rows)) 0 = false.
Proof.
  induction rows as [|x rest IH]; simpl; [discriminate|].
  destruct (sameKey service_ username_ x); simpl; auto.
Qed.

(** X20. On a READY store, with the master password verified and no
    storage failure, [del] of a stored entry ends with "Deleted." and exit
    code 0; the store then holds the other rows, in their order, and the
    master row as before, and [get] of the deleted entry in the next
    process ends with "Error: Entry not found." and exit code 1. *)
Theorem del_then_get (service_ username_ masterPw : string) (s : State)
  (d : Database) (rows : list Credential) :
  checkDbState s = (Ret DbState.READY, s) ->
  txn s = None -> disk s = Some d -> credentials d = Some rows ->
  masterPw <> "" ->
  verifyMasterPassword masterPw Handle s = (Ret true, s) ->
  existsb (sameKey service_ username_) rows = true ->
  (forall n, write_fault s n = false) ->
  let deleted := main ["del"; service_; username_; "--master"; masterPw] s in
  let next := nextProcess (snd deleted) in
  fst deleted = Exited 0
  /\ stdout (snd deleted) = (stdout s ++ [printed Messages.infos.entryDeleted])%list
  /\ disk (snd deleted)
     = Some (mkDatabase (integrity_check d) (master d)
               (Some (filter (fun r => negb (sameKey service_ username_ r)) rows)))
  /\ main ["get"; service_; username_; "--master"; masterPw] next
     = (Exited 1, write_stderr (printed Messages.errors.entryNotFound) next).
Proof.
  intros Hst Htxn Hdisk Hrows Hpw Hver Hstored Hwf. cbv zeta.
  destruct (proj1 (checkDbState_READY_iff s Htxn) Hst) as (d0 & Hd0 & Hic & _ & r & Hm).
  assert (d0 = d) by congruence. subst d0. clear Hd0.
  apply String.eqb_neq in Hpw.
  destruct s as [dk tx f k e dr wf wr so se]; simpl in Htxn, Hdisk, Hwf. subst dk tx.
  destruct d as [ic m c]; simpl in Hic, Hm, Hrows. subst ic m c.
  cbn [integrity_check master stdout].
  set (s := mkState (Some (mkDatabase (Some "ok") (Some [r]) (Some rows))) None
              f k e dr wf wr so se) in *.
  set (kept := filter (fun r => negb (sameKey service_ username_ r)) rows).
  set (s1 := mkState (Some (mkDatabase (Some "ok") (Some [r]) (Some kept)))
               None f k e dr wf (S (S (S wr)))
               (so ++ [printed Messages.infos.entryDeleted])%list se).
  assert (Hdel : main ["del"; service_; username_; "--master"; masterPw] s = (Exited 0, s1)).
  { unfold main, dispatch. cbn [arg nth_error]. unfold cmdDel.
    cbn [List.length Nat.ltb Nat.leb argText nth].
    rewrite (bind_Ret _ (ret_tt_runs s)).
    rewrite (bind_Ret _ (requireReadyState_passes Hst)).
    assert (Hget : getMasterPassword ["del"; service_; username_; "--master"; masterPw] 3 s
                   = (Ret masterPw, s)).
    { unfold getMasterPassword. cbn. rewrite Hpw. reflexivity. }
    rewrite (bind_Ret _ Hget).
    rewrite (bind_Ret _ (eq_refl : openDb s = (Ret Handle, s))).
    rewrite (bind_Ret _ Hver). cbn [negb]. rewrite (bind_Ret _ (ret_tt_runs s)).
    unfold bind, tryCatch, execute, view, lift, ret; simpl.
    repeat (rewrite Hwf; simpl). rewrite (filter_some _ _ _ Hstored). simpl.
    repeat (rewrite Hwf; simpl). reflexivity. }
  rewrite Hdel. cbn [fst snd].
  split; [reflexivity|]. split; [reflexivity|]. split; [reflexivity|].
  set (next := nextProcess s1).
  assert (Hready : checkDbState next = (Ret DbState.READY, next)).
  { apply checkDbState_READY_iff; [reflexivity|].
    eexists; split; [reflexivity|]. unfold readyContent; simpl.
    split; [reflexivity|]. split; [discriminate|]. eauto. }
  assert (Hver' : verifyMasterPassword masterPw Handle next = (Ret true, next)).
  { unfold verifyMasterPassword, query, view, bind, lift, timingSafeEqual in *.
    simpl in *. destruct (isMasterId r); [|discriminate].
    destruct (Nat.eqb _ _); [|discriminate]. unfold ret in *.
    f_equal. congruence. }
  unfold main, dispatch. cbn [arg nth_error]. unfold cmdGet.
  cbn [List.length Nat.ltb Nat.leb argText nth].
  rewrite (bind_Ret _ (ret_tt_runs next)).
  rewrite (bind_Ret _ (requireReadyState_passes Hready)).
  assert (Hget : getMasterPassword ["get"; service_; username_; "--master"; masterPw] 3 next
                 = (Ret masterPw, next)).
  { unfold getMasterPassword. cbn. rewrite Hpw. reflexivity. }
  rewrite (bind_Ret _ Hget).
  rewrite (bind_Ret _ (eq_refl : openDb next = (Ret Handle, next))).
  rewrite (bind_Ret _ Hver'). cbn [negb]. rewrite (bind_Ret _ (ret_tt_runs next)).
  assert (Hrow : query Handle (SELECT_password service_ username_) next = (Ret None, next)).
  { unfold query, view, SELECT_password. simpl. unfold kept.
    rewrite find_filtered. reflexivity. }
  rewrite (bind_Ret _ Hrow). reflexivity.
Qed.

End Delete.

(** [del_then_get] on the sample vault. *)
Lemma del_then_get_vault :
  let deleted := @main Model.node ["del"; "shop"; "bob"; "--master"; "Passw0rd!"] Model.vault in
  let next := nextProcess (snd deleted) in
  fst deleted = Exited 0
  /\ stdout (snd deleted) = (stdout Model.vault ++ [printed Messages.infos.entryDeleted])%list
  /\ disk (snd deleted)
     = Some (mkDatabase (integrity_check Model.vaultContent) (master Model.vaultContent)
               (Some (filter (fun r => negb (sameKey "shop" "bob" r)) Model.vaultRows)))
  /\ @main Model.node ["get"; "shop"; "bob"; "--master"; "Passw0rd!"] next
     = (Exited 1, write_stderr (printed Messages.errors.entryNotFound) next).
Proof.
  apply (@del_then_get Model.node "shop" "bob" "Passw0rd!" Model.vault Model.vaultContent
           Model.vaultRows).
  - vm_compute. reflexivity.
  - reflexivity.
  - vm_compute. reflexivity.
  - vm_compute. reflexivity.
  - discriminate.
  - vm_compute. reflexivity.
  - vm_compute. reflexivity.
  - intros n. reflexivity.
Defined.

(** ** The exit codes *)

Create HintDb exits.

Section ExitsOne.
Context {N : Node}.

Lemma exitsOne_bind A B (m : M A) (k : A -> M B) :
  exitsOne m -> (forall a, exitsOne (k a)) -> exitsOne (bind m k).
Proof.
  intros Hm Hk s c. unfold bind. specialize (Hm s).
  destruct (m s) as [[a|e|c0|] s1]; simpl in *; try discriminate.
  - apply Hk.
  - intros H. apply Hm. inversion H. reflexivity.
Qed.

Lemma exitsOne_tryCatch A (m : M A) (h : Thrown -> M A) :
  exitsOne m -> (forall e, exitsOne (h e)) -> exitsOne (tryCatch m h).
Proof.
  intros Hm Hh s c. unfold tryCatch. specialize (Hm s).
  destruct (m s) as [[a|e|c0|] s1]; simpl in *; try discriminate.
  - apply Hh.
  - intros H. apply Hm. exact H.
Qed.

Lemma exitsOne_ret A (a : A) : exitsOne (ret a).
Proof. intros s c; discriminate. Qed.

Lemma exitsOne_throw A e : exitsOne (@throw A e).
Proof. intros s c; discriminate. Qed.

Lemma exitsOne_lift A (c : Check A) : exitsOne (lift c).
Proof. intros s code. unfold lift. destruct c; discriminate. Qed.

Lemma exitsOne_console_log line : exitsOne (console_log line).
Proof. intros s c; discriminate. Qed.

Lemma exitsOne_randomBytes n : exitsOne (randomBytes n).
Proof. intros s c; discriminate. Qed.

Lemma exitsOne_askPassword prompt : exitsOne (askPassword prompt).
Proof.
  intros s c. unfold askPassword. simpl.
  destruct (stdin s) as [|[text|] rest]; simpl; try discriminate. congruence.
Qed.

Lemma exitsOne_askChoiceLoop prompt allowed keys :
  exitsOne (askChoiceLoop prompt allowed keys).
Proof.
  induction keys as [|[text|] rest IH]; intros s c; simpl; try discriminate.
  - destruct (existsb (String.eqb text) allowed); simpl; [discriminate|]. apply IH.
  - congruence.
Qed.

Lemma exitsOne_askChoice prompt allowed : exitsOne (askChoice prompt allowed).
Proof. intros s c. unfold askChoice. apply exitsOne_askChoiceLoop. Qed.

Lemma exitsOne_query A db (select : Database -> string + A) : exitsOne (query db select).
Proof.
  intros s c. unfold query. destruct (view s) as [d|]; [|discriminate].
  destruct (select d); discriminate.
Qed.

Lemma exitsOne_execute db q : exitsOne (execute db q).
Proof.
  intros s c. unfold execute. destruct (write_fault s (written s)); [discriminate|].
  destruct q; simpl;
    repeat match goal with
           | |- context [match ?x with _ => _ end] => destruct x
           end; discriminate.
Qed.

Lemma exitsOne_openDb : exitsOne openDb.
Proof. intros s c. unfold openDb. destruct (disk s); discriminate. Qed.

Lemma exitsOne_existsSync_DB_PATH : exitsOne existsSync_DB_PATH.
Proof. intros s c; discriminate. Qed.

Lemma exitsOne_existsSync path : exitsOne (existsSync path).
Proof. intros s c; discriminate. Qed.

Lemma exitsOne_isDirectory path : exitsOne (isDirectory path).
Proof. intros s c. unfold isDirectory. destruct (fs s path) as [[x|]|]; discriminate. Qed.

Lemma exitsOne_readFileSync path : exitsOne (readFileSync path).
Proof. intros s c. unfold readFileSync. destruct (fs s path) as [[x|]|]; discriminate. Qed.

Lemma exitsOne_writeFileSync path content : exitsOne (writeFileSync path content).
Proof. intros s c. unfold writeFileSync. destruct (fs s path) as [[x|]|]; discriminate. Qed.

Lemma exitsOne_renameSync a b : exitsOne (renameSync a b).
Proof. intros s c. unfold renameSync. destruct (fs s a); discriminate. Qed.

End ExitsOne.

#[export] Hint Resolve exitsOne_ret exitsOne_throw exitsOne_lift exitsOne_console_log
  exitsOne_randomBytes exitsOne_askPassword exitsOne_askChoice exitsOne_query
  exitsOne_execute exitsOne_openDb exitsOne_existsSync_DB_PATH exitsOne_existsSync
  exitsOne_isDirectory exitsOne_readFileSync exitsOne_writeFileSync exitsOne_renameSync
  : exits.

(** Decomposes a goal [exitsOne m] along the structure of [m]. *)
Ltac exits :=
  repeat first
    [ progress auto with exits
    | apply exitsOne_bind; [| intro]
    | apply exitsOne_tryCatch; [| intro]
    | match goal with
      | |- exitsOne (if ?b then _ else _) => destruct b
      | |- exitsOne (match ?x with _ => _ end) => destruct x
      | |- exitsOne (let _ := _ in _) => cbv zeta
      end ].

Section ExitCodes.
Context {N : Node}.

Lemma exitsOne_checkDbState : exitsOne checkDbState.
Proof. unfold checkDbState, tableExists. exits. Qed.

Lemma exitsOne_requireReadyState : exitsOne requireReadyState.
Proof. unfold requireReadyState. pose proof exitsOne_checkDbState. exits. Qed.

Lemma exitsOne_encrypt plain key : exitsOne (encrypt plain key).
Proof. unfold encrypt, requireKeyLength. exits. Qed.

Lemma exitsOne_decrypt cipherText key : exitsOne (decrypt cipherText key).
Proof. unfold decrypt, requireKeyLength. exits. Qed.

Lemma exitsOne_decryptRows rows key : exitsOne (decryptRows rows key).
Proof.
  induction rows as [|r rest IH]; simpl; [exits|].
  pose proof exitsOne_decrypt. exits.
Qed.

Lemma exitsOne_insertEncrypted db records key : exitsOne (insertEncrypted db records key).
Proof.
  induction records as [|r rest IH]; simpl; [exits|].
  pose proof exitsOne_encrypt. exits.
Qed.

Lemma exitsOne_verifyMasterPassword pw db : exitsOne (verifyMasterPassword pw db).
Proof. unfold verifyMasterPassword, timingSafeEqual. exits. Qed.

Lemma exitsOne_getMasterPassword args i : exitsOne (getMasterPassword args i).
Proof. unfold getMasterPassword. exits. Qed.

Lemma exitsOne_askNewMasterWithConfirm : exitsOne askNewMasterWithConfirm.
Proof. unfold askNewMasterWithConfirm. exits. Qed.

Lemma exitsOne_getMasterSalt db : exitsOne (getMasterSalt db).
Proof. unfold getMasterSalt. exits. Qed.

Lemma exitsOne_validateExportTargetPath path : exitsOne (validateExportTargetPath path).
Proof. unfold validateExportTargetPath. exits. Qed.

Lemma exitsOne_suggestFrom csvPath dir base ext left i :
  exitsOne (suggestFrom csvPath dir base ext left i).
Proof. revert i. induction left as [|left IH]; intros i; simpl; exits. Qed.

Lemma exitsOne_parseCsvFileStrict path : exitsOne (parseCsvFileStrict path).
Proof. unfold parseCsvFileStrict, requireExistingFile. exits. Qed.

Lemma exitsOne_printRows rows : exitsOne (printRows rows).
Proof. induction rows as [|[a b] rest IH]; simpl; exits. Qed.

Lemma exitsOne_tryRollback db : exitsOne (tryRollback db).
Proof. unfold tryRollback. exits. Qed.

End ExitCodes.

#[export] Hint Resolve exitsOne_checkDbState exitsOne_requireReadyState exitsOne_encrypt
  exitsOne_decrypt exitsOne_decryptRows exitsOne_insertEncrypted
  exitsOne_verifyMasterPassword exitsOne_getMasterPassword
  exitsOne_askNewMasterWithConfirm exitsOne_getMasterSalt
  exitsOne_validateExportTargetPath exitsOne_suggestFrom exitsOne_parseCsvFileStrict
  exitsOne_printRows exitsOne_tryRollback : exits.

Section ExitCodeRange.
Context {N : Node}.

Lemma exitsOne_dispatch args : exitsOne (dispatch args).
Proof.
  apply dispatch_cases with (P := fun m => exitsOne m).
  - unfold cmdInit, freshSalt. exits.
  - unfold cmdAdd. exits.
  - unfold cmdGet. exits.
  - unfold cmdDel. exits.
  - unfold cmdList. exits.
  - unfold cmdStatus, ensureDbExists. exits.
  - unfold cmdExport, suggestNonConflictingPath. exits.
  - unfold cmdImport. exits.
  - unfold cmdChangeMaster, oldMasterOf, newMasterOf, freshSalt. exits.
  - intros code message. exits.
Qed.

(** X21. Whatever the arguments and the state of the machine, the
    process waits for a key or ends with one of the five exit codes 0
    (success), 1 (general error), 2 (usage), 3 (authentication) and 4 (I/O
    or DB): an error that no command catches ends in the top-level catch,
    and Ctrl+C at a prompt is [process.exit(1)]. *)
Theorem exit_code_range (args : list string) (s : State) :
  fst (main args s) = Waiting
  \/ exists code, fst (main args s) = Exited code /\ In code [0; 1; 2; 3; 4].
Proof.
  pose proof (@exitsOne_dispatch args s) as Hexit.
  unfold main. destruct (dispatch args s) as [[a|[code|message]|code|] s1]; simpl in *.
  - right. exists 0. simpl; auto.
  - right. exists (ExitCode.number code). split; [reflexivity|].
    destruct code; simpl; auto 6.
  - right. exists 1. simpl; auto.
  - right. exists code. split; [reflexivity|]. rewrite (Hexit code eq_refl). simpl; auto.
  - left. reflexivity.
Qed.

End ExitCodeRange.

(** ** import: the file checks *)

Section ImportFile.
Context {N : Node}.

(** X22. On a READY store and with the master password verified,
    [import] checks the file before it reads it: a path whose extension is
    not [.csv] is a usage error (exit 2), a path that does not exist ends
    with "file not found" and exit code 4, a directory is a usage error
    (exit 2).  In each case no confirmation is asked and the store is
    untouched. *)
Theorem import_file_checks (args : list string) (s s1 : State) (masterPw : string) :
  arg args 0 = Some "import" -> usageOk args = true ->
  checkDbState s = (Ret DbState.READY, s) ->
  getMasterPassword args 2 s = (Ret masterPw, s1) ->
  verifyMasterPassword masterPw Handle s1 = (Ret true, s1) ->
  let path := argText args 1 in
  (toLowerCase (path_extname path) <> CsvSpec.extension ->
   main args s
   = (Exited 2,
      write_stderr
        (printed (Messages.errors.csvExtensionRequired "import" CsvSpec.extension path)) s1))
  /\ (toLowerCase (path_extname path) = CsvSpec.extension ->
      (fs s1 path = None ->
       main args s
       = (Exited 4,
          write_stderr (printed (Messages.errors.csvImportFileNotFound path)) s1))
      /\ (fs s1 path = Some Directory ->
          main args s
          = (Exited 2,
             write_stderr (printed (Messages.errors.csvImportSourceIsDirectory path)) s1))).
Proof.
  intros Hcmd Hu Hst Hpw Hver. cbv zeta.
  assert (Hd : disk s <> None) by (apply (checkDbState_exists Hst); discriminate).
  pose proof (silent_getMasterPassword args 2 s Hd) as Hsilent.
  rewrite Hpw in Hsilent. cbn [snd] in Hsilent. destruct Hsilent as (Hd1 & Ht1 & Hw1).
  assert (Hopen : openDb s1 = (Ret Handle, s1)).
  { unfold openDb. destruct (disk s1) eqn:E; [reflexivity|congruence]. }
  assert (Hstart : forall e s2,
            parseCsvFileStrict (argText args 1) s1 = (Throw (ExitSignal e), s2) ->
            main args s = (Exited (ExitCode.number e), s2)).
  { intros e s2 Hparse. unfold main, dispatch. unfold usageOk in Hu. rewrite Hcmd in *.
    cbv iota beta in *. unfold cmdImport. cbv zeta. rewrite Hu. cbn [negb].
    rewrite (bind_Ret _ (ret_tt_runs s)).
    rewrite (bind_Ret _ (requireReadyState_passes Hst)).
    rewrite (bind_Ret _ Hpw). rewrite (bind_Ret _ Hopen). rewrite (bind_Ret _ Hver).
    cbn [negb]. rewrite (bind_Ret _ (ret_tt_runs s1)).
    rewrite (bind_Throw _ Hparse). reflexivity. }
  set (path := argText args 1) in *.
  split; [|intros Hext; split].
  - intros Hext. apply String.eqb_neq in Hext.
    apply (Hstart ExitCode.USAGE_ERROR).
    unfold parseCsvFileStrict, requireCsvExtension. rewrite Hext. reflexivity.
  - intros Hnone. apply (Hstart ExitCode.IO_DB_ERROR).
    unfold parseCsvFileStrict, requireCsvExtension.
    rewrite Hext, String.eqb_refl. cbn [negb].
    rewrite (bind_Ret _ (eq_refl : lift (pass tt) s1 = (Ret tt, s1))).
    unfold requireExistingFile, bind, existsSync. rewrite Hnone. reflexivity.
  - intros Hdir. apply (Hstart ExitCode.USAGE_ERROR).
    unfold parseCsvFileStrict, requireCsvExtension.
    rewrite Hext, String.eqb_refl. cbn [negb].
    rewrite (bind_Ret _ (eq_refl : lift (pass tt) s1 = (Ret tt, s1))).
    unfold requireExistingFile, bind, existsSync, isDirectory. rewrite Hdir. cbn.
    rewrite Hdir. reflexivity.
Qed.

End ImportFile.

(** [import_file_checks] on the sample vault: the file does not exist. *)
Lemma import_file_checks_missing :
  @main Model.node (Model.importFrom "nowhere.csv") Model.vault
  = (Exited 4,
     write_stderr (printed (Messages.errors.csvImportFileNotFound "nowhere.csv"))
       Model.vault).
Proof.
  refine (proj1 (proj2 (@import_file_checks Model.node (Model.importFrom "nowhere.csv")
                          Model.vault Model.vault "Passw0rd!" _ _ _ _ _) _) _).
  - reflexivity.
  - reflexivity.
  - vm_compute. reflexivity.
  - reflexivity.
  - vm_compute. reflexivity.
  - vm_compute. reflexivity.
  - vm_compute. reflexivity.
Defined.

(** ** init: the password prompts *)

Section InitPrompts.
Context {N : Node}.

(** X23. [init] without [--master] asks for the new master password
    twice, before it creates anything: two different answers end the
    command with "Error: new master passwords do not match." and two empty
    answers with "Error: Password cannot be empty.", both with exit code 2;
    the DB file is not created and nothing is written to the store. *)
Theorem init_password_prompts (s : State) (st : DbState.t) (pw1 pw2 : string)
  (rest : list Key) :
  checkDbState s = (Ret st, s) ->
  st = DbState.NO_DB \/ st = DbState.UNINITIALIZED ->
  stdin s = Typed pw1 :: Typed pw2 :: rest ->
  let asked :=
    write_stdout (chr LF)
      (set_stdin rest
         (write_stdout Messages.prompts.confirmNewMaster
            (write_stdout (chr LF)
               (set_stdin (Typed pw2 :: rest)
                  (write_stdout Messages.prompts.enterNewMaster s))))) in
  (pw1 <> pw2 ->
   main ["init"] s = (Exited 2, write_stderr (printed Messages.errors.pwMismatch) asked))
  /\ (pw1 = "" -> pw2 = "" ->
      main ["init"] s
      = (Exited 2, write_stderr (printed Messages.errors.emptyPassword) asked))
  /\ disk asked = disk s /\ written asked = written s.
Proof.
  intros Hst Hcase Hkeys. cbv zeta.
  assert (Hskip : (match st with
                   | DbState.READY =>
                       lift (exitWith ExitCode.GENERAL_ERROR Messages.errors.dbAlreadyInitialized)
                   | DbState.CORRUPTED => lift (exitWith ExitCode.IO_DB_ERROR "Database corrupted.")
                   | _ => ret tt
                   end) s = (Ret tt, s)) by (destruct Hcase; subst; reflexivity).
  assert (Hstart : forall r s2,
            askNewMasterWithConfirm s = (r, s2) ->
            dispatch ["init"] s
            = bind (fun _ => (r, s2)) (fun masterPw =>
              bind (if String.eqb masterPw ""
                    then lift (exitWith ExitCode.USAGE_ERROR Messages.errors.emptyPassword)
                    else ret tt) (fun _ =>
              bind openDb (fun db =>
              bind (tryCatch
                      (bind (execute db BEGIN) (fun _ =>
                       bind (execute db SCHEMA_SQL) (fun _ =>
                       bind freshSalt (fun salt_ =>
                       let key := deriveKey masterPw salt_ in
                       let hash := hashDerivedKey key in
                       bind (execute db (INSERT_master hash salt_)) (fun _ =>
                       bind (execute db COMMIT) (fun _ => ret tt))))))
                      (fun err => bind (execute db ROLLBACK) (fun _ => throw err)))
                   (fun _ => lift (exitWith ExitCode.OK Messages.infos.dbInitialized))))) s).
  { intros r s2 Hask. unfold dispatch. cbn [arg nth_error]. unfold cmdInit. cbv zeta.
    cbn [List.length Nat.eqb orb negb].
    rewrite (bind_Ret _ (ret_tt_runs s)). rewrite (bind_Ret _ Hst).
    rewrite (bind_Ret _ Hskip). unfold bind at 1. rewrite Hask. reflexivity. }
  assert (Hfirst : askPassword Messages.prompts.enterNewMaster s
                   = (Ret pw1,
                      write_stdout (chr LF)
                        (set_stdin (Typed pw2 :: rest)
                           (write_stdout Messages.prompts.enterNewMaster s)))).
  { unfold askPassword. cbn [stdin write_stdout]. rewrite Hkeys. reflexivity. }
  split; [|split; [|split; reflexivity]].
  - intros Hne. apply String.eqb_neq in Hne.
    unfold main. erewrite Hstart.
    2:{ unfold askNewMasterWithConfirm. rewrite (bind_Ret _ Hfirst).
        unfold bind, askPassword. cbn [stdin write_stdout set_stdin]. rewrite Hne.
        reflexivity. }
    reflexivity.
  - intros -> ->.
    unfold main. erewrite Hstart.
    2:{ unfold askNewMasterWithConfirm. rewrite (bind_Ret _ Hfirst).
        unfold bind, askPassword. cbn [stdin write_stdout set_stdin]. reflexivity. }
    reflexivity.
Qed.

End InitPrompts.

(** [init_password_prompts] on a machine without store: the two answers
    differ. *)
Lemma init_password_prompts_mismatch :
  let s := set_stdin [Typed "one"; Typed "two"] Model.blank in
  @main Model.node ["init"] s
  = (Exited 2,
     write_stderr (printed Messages.errors.pwMismatch)
       (write_stdout (chr LF)
          (set_stdin []
             (write_stdout Messages.prompts.confirmNewMaster
                (write_stdout (chr LF)
                   (set_stdin [Typed "two"]
                      (write_stdout Messages.prompts.enterNewMaster s))))))).
Proof.
  refine (proj1 (@init_password_prompts Model.node
                   (set_stdin [Typed "one"; Typed "two"] Model.blank) DbState.NO_DB
                   "one" "two" [] _ _ _) _).
  - reflexivity.
  - left. reflexivity.
  - reflexivity.
  - discriminate.
Defined.

(** ** getOption *)

Section Options.

(** X24. [getOption] looks at the first occurrence of the option name
    only: it returns the argument that follows it when that argument
    exists and is not empty, and nothing otherwise, also when a later
    occurrence of the name has a value. *)
Theorem getOption_first_occurrence (args : list string) (name : string) :
  match getOption args name with
  | Some v =>
      exists i, nth_error args i = Some name
        /\ (forall j, j < i -> nth_error args j <> Some name)
        /\ nth_error args (S i) = Some v /\ v <> ""
  | None =>
      ~ In name args
      \/ exists i, nth_error args i = Some name
           /\ (forall j, j < i -> nth_error args j <> Some name)
           /\ (nth_error args (S i) = None \/ nth_error args (S i) = Some "")
  end.
Proof.
  induction args as [|a rest IH]; [left; intros []|].
  cbn [getOption]. destruct (String.eqb_spec a name) as [->|Hne].
  - unfold arg. destruct rest as [|v rest']; cbn [nth_error truthy].
    + right. exists 0. repeat split; auto. intros j Hj; lia.
    + destruct (String.eqb_spec v "") as [->|Hv]; cbn [negb].
      * right. exists 0. repeat split; auto. intros j Hj; lia.
      * exists 0. repeat split; auto. intros j Hj; lia.
  - destruct (getOption rest name) as [v|].
    + destruct IH as (i & Hi & Hfirst & Hv & Hne').
      exists (S i). repeat split; auto.
      intros [|j] Hj; simpl; [congruence|]. apply Hfirst. lia.
    + destruct IH as [Hnot|(i & Hi & Hfirst & Hv)].
      * left. intros [H|H]; [congruence|contradiction].
      * right. exists (S i). repeat split; auto.
        intros [|j] Hj; simpl; [congruence|]. apply Hfirst. lia.
Qed.

End Options.

(** ** Backup and restore *)

Section Backup.
Context {N : Node}.

(** The strict decoder reads back what [buildCsv] writes for records
    without control characters and commas. *)
Lemma parseCsvText_exported (filePath : string) (records : list CsvRecord) :
  (forall r, In r records -> noControlChars r /\ noComma r) ->
  parseCsvText filePath (join CsvSpec.newline (CsvSpec.header :: map csvLine records))
  = pass records.
Proof.
  intros H.
  assert (Hctl : forall r, In r records -> noControlChars r) by (intros r Hr; apply H, Hr).
  unfold parseCsvText.
  assert (Hbom : startsWith BOM
                   (join CsvSpec.newline (CsvSpec.header :: map csvLine records)) = false).
  { unfold join. simpl String.concat. destruct (map csvLine records); reflexivity. }
  rewrite Hbom.
  assert (Hcr : includes CR
                  (join CsvSpec.newline (CsvSpec.header :: map csvLine records)) = false).
  { apply includes_join; [reflexivity|].
    intros p [<-|Hp]; [reflexivity|].
    apply in_map_iff in Hp. destruct Hp as (r & <- & Hr).
    apply csvLine_clean; [reflexivity|].
    intros v Hv. apply (control_parts _ (Hctl r Hr v Hv)). }
  rewrite Hcr. cbv zeta. rewrite (exported_lines records Hctl).
  cbn [List.length Nat.eqb nth orb tl].
  change (String.eqb CsvSpec.header "") with false.
  rewrite String.eqb_refl. cbn [negb].
  apply (parseLines_accepts _ 1 records [] H).
Qed.

(** The verdict on a master password depends on the content of the
    store only. *)
Lemma verifyMasterPassword_view (pw : string) (verdict : bool) (s s' : State) :
  view s = view s' ->
  verifyMasterPassword pw Handle s = (Ret verdict, s) ->
  verifyMasterPassword pw Handle s' = (Ret verdict, s').
Proof.
  unfold verifyMasterPassword, bind, query, timingSafeEqual, lift. intros <-.
  destruct (view s) as [d|]; [|discriminate].
  destruct (SELECT_master d) as [message|[row|]]; try discriminate.
  destruct (Nat.eqb _ _); [|discriminate]. unfold ret. intros H. f_equal. congruence.
Qed.

End Backup.

Section BackupRestore.
Context {N : Node} {L : NodeLaws N}.

(** X25. Backup and restore: on a READY store whose rows decrypt to
    records without control characters and commas and with distinct
    (service, username), [export] to a free [.csv] path followed by
    [import] of that path in the next process (same master password,
    confirmation answered y when the store holds rows, no storage failure)
    both end with exit code 0, and the store then holds rows that decrypt
    to the same records in the same order, beside the same master row. *)
Theorem export_then_import (path masterPw : string) (s : State) (d : Database)
  (r : MasterRow) (rows : list Credential) (plainRows : list CsvRecord) (rest : list Key) :
  checkDbState s = (Ret DbState.READY, s) ->
  txn s = None -> disk s = Some d ->
  master d = Some [r] -> credentials d = Some rows ->
  masterPw <> "" ->
  verifyMasterPassword masterPw Handle s = (Ret true, s) ->
  List.length (deriveKey masterPw (salt r)) = 32 ->
  toLowerCase (path_extname path) = CsvSpec.extension ->
  fs s path = None ->
  fs s (path_dirname path) <> None ->
  fs s (path ++ ".tmp") <> Some Directory ->
  decryptRows rows (deriveKey masterPw (salt r)) s = (Ret plainRows, s) ->
  (forall record, In record plainRows -> noControlChars record /\ noComma record) ->
  NoDup (map (fun row => (service row, username row)) rows) ->
  rows = [] \/ (stdin s = Typed "y" :: rest /\ toLowerCase "y" = "y") ->
  (forall n, write_fault s n = false) ->
  let exported := main ["export"; path; "--master"; masterPw] s in
  let restored := main ["import"; path; "--master"; masterPw] (nextProcess (snd exported)) in
  fst exported = Exited 0
  /\ fst restored = Exited 0
  /\ exists newRows,
       disk (snd restored)
       = Some (mkDatabase (integrity_check d) (master d) (Some newRows))
       /\ forall s', decryptRows newRows (deriveKey masterPw (salt r)) s'
                     = (Ret plainRows, s').
Proof.
  intros Hst Htxn Hdisk Hm Hrows Hpw Hver Hkey Hext Hfree Hdir Htmp Hdec Hclean Hnodup
    Hconfirm Hwf. cbv zeta.
  set (csv := join CsvSpec.newline (CsvSpec.header :: map csvLine plainRows)).
  assert (Hcsv : buildCsv plainRows = pass csv).
  { unfold buildCsv. rewrite buildLines_accepts by (intros x Hx; apply Hclean, Hx).
    reflexivity. }
  rewrite (@export_runs N path masterPw csv s d r rows plainRows
             Hst Htxn Hdisk Hm Hrows Hpw Hver Hext Hfree Hdir Htmp Hdec Hcsv).
  cbn [fst snd]. split; [reflexivity|].
  set (next := nextProcess _).
  assert (Hview : view s = view next).
  { unfold view, next. cbn. rewrite Htxn. reflexivity. }
  assert (Hready : checkDbState next = (Ret DbState.READY, next)).
  { apply checkDbState_READY_iff; [reflexivity|].
    apply (checkDbState_READY_iff s Htxn) in Hst. exact Hst. }
  assert (Hfile : fs next path = Some (File csv)).
  { unfold next. cbn. rewrite String.eqb_refl. reflexivity. }
  assert (Hkeys : NoDup (map keyOf plainRows)).
  { rewrite (decryptRows_keys _ _ _ Hdec). exact Hnodup. }
  destruct (@import_runs N path masterPw csv next d r rows plainRows rest
              Hready eq_refl Hdisk Hm Hrows Hpw
              (verifyMasterPassword_view _ _ Hview Hver) Hkey Hext Hfile
              (parseCsvText_exported path plainRows Hclean) Hkeys Hconfirm Hwf)
    as (Hexit & _ & Hfinal).
  split; [exact Hexit|].
  eexists. split; [exact Hfinal|].
  intros s'. apply decryptRows_sealRows, Hkey.
Qed.

End BackupRestore.

(** [export_then_import] on the sample vault. *)
Lemma export_then_import_vault :
  let s := set_stdin [Typed "y"] Model.vault in
  let key := @deriveKey Model.node "Passw0rd!" (salt vaultMasterRow) in
  let exported := @main Model.node ["export"; "out.csv"; "--master"; "Passw0rd!"] s in
  let restored := @main Model.node ["import"; "out.csv"; "--master"; "Passw0rd!"]
                    (nextProcess (snd exported)) in
  fst exported = Exited 0
  /\ fst restored = Exited 0
  /\ exists newRows,
       disk (snd restored)
       = Some (mkDatabase (integrity_check Model.vaultContent) (master Model.vaultContent)
                 (Some newRows))
       /\ forall s', @decryptRows Model.node newRows key s' = (Ret vaultPlainRows, s').
Proof.
  apply (@export_then_import Model.node model_node_laws "out.csv" "Passw0rd!"
           (set_stdin [Typed "y"] Model.vault) Model.vaultContent vaultMasterRow
           Model.vaultRows vaultPlainRows []).
  - vm_compute. reflexivity.
  - reflexivity.
  - vm_compute. reflexivity.
  - vm_compute. reflexivity.
  - vm_compute. reflexivity.
  - discriminate.
  - vm_compute. reflexivity.
  - apply model_key_length.
  - vm_compute. reflexivity.
  - vm_compute. reflexivity.
  - vm_compute. discriminate.
  - vm_compute. discriminate.
  - vm_compute. reflexivity.
  - intros record Hin.
    assert (Hall : forallb (fun x => forallb (fun v => negb (CONTROL_CHAR_RE v)
                                                    && negb (includes COMMA v))
                                       (fieldsOf x)) vaultPlainRows = true)
      by (vm_compute; reflexivity).
    pose proof (proj1 (forallb_forall _ _) Hall record Hin) as Hrec.
    split; intros v Hv;
      pose proof (proj1 (forallb_forall _ _) Hrec v Hv) as Hfield;
      apply andb_true_iff in Hfield; destruct Hfield as [H1 H2];
      apply negb_true_iff; assumption.
  - assert (Hkeys : map (fun row => (service row, username row)) Model.vaultRows
                    = [("github", "alice"); ("shop", "bob"); ("github", "carol");
                       ("mail", "dave")]) by (vm_compute; reflexivity).
    rewrite Hkeys. repeat constructor; simpl; intuition discriminate.
  - right. split; reflexivity.
  - intros n. reflexivity.
Defined.

(** ** stderr is for failures *)

Create HintDb quiet.

Section Quiet.
Context {N : Node}.

Lemma quiet_bind A B (m : M A) (k : A -> M B) :
  quiet m -> (forall a, quiet (k a)) -> quiet (bind m k).
Proof.
  intros Hm Hk s. unfold bind. specialize (Hm s).
  destruct (m s) as [[a|e|c|] s1]; simpl in *; auto.
  rewrite Hk. exact Hm.
Qed.

Lemma quiet_tryCatch A (m : M A) (h : Thrown -> M A) :
  quiet m -> (forall e, quiet (h e)) -> quiet (tryCatch m h).
Proof.
  intros Hm Hh s. unfold tryCatch. specialize (Hm s).
  destruct (m s) as [[a|e|c|] s1]; simpl in *; auto.
  rewrite Hh. exact Hm.
Qed.

Lemma quiet_ret A (a : A) : quiet (ret a).
Proof. intros s; reflexivity. Qed.

Lemma quiet_throw A e : quiet (@throw A e).
Proof. intros s; reflexivity. Qed.

Lemma quiet_console_log line : quiet (console_log line).
Proof. intros s; reflexivity. Qed.

Lemma quiet_randomBytes n : quiet (randomBytes n).
Proof. intros s; reflexivity. Qed.

Lemma quiet_askPassword prompt : quiet (askPassword prompt).
Proof.
  intros s. unfold askPassword. simpl. destruct (stdin s) as [|[text|] rest]; reflexivity.
Qed.

Lemma quiet_askChoiceLoop prompt allowed keys : quiet (askChoiceLoop prompt allowed keys).
Proof.
  induction keys as [|[text|] rest IH]; intros s; simpl; try reflexivity.
  destruct (existsb (String.eqb text) allowed); simpl; [reflexivity|].
  rewrite IH. reflexivity.
Qed.

Lemma quiet_askChoice prompt allowed : quiet (askChoice prompt allowed).
Proof. intros s. unfold askChoice. apply quiet_askChoiceLoop. Qed.

Lemma quiet_query A db (select : Database -> string + A) : quiet (query db select).
Proof.
  intros s. unfold query. destruct (view s) as [d|]; [|reflexivity].
  destruct (select d); reflexivity.
Qed.

Lemma quiet_execute db q : quiet (execute db q).
Proof.
  intros s. unfold execute. destruct (write_fault s (written s)); [reflexivity|].
  destruct q; simpl;
    repeat match goal with
           | |- context [match ?x with _ => _ end] => destruct x
           end; reflexivity.
Qed.

Lemma quiet_openDb : quiet openDb.
Proof. intros s. unfold openDb. destruct (disk s); reflexivity. Qed.

Lemma quiet_existsSync_DB_PATH : quiet existsSync_DB_PATH.
Proof. intros s; reflexivity. Qed.

Lemma quiet_existsSync path : quiet (existsSync path).
Proof. intros s; reflexivity. Qed.

Lemma quiet_isDirectory path : quiet (isDirectory path).
Proof. intros s. unfold isDirectory. destruct (fs s path) as [[x|]|]; reflexivity. Qed.

Lemma quiet_readFileSync path : quiet (readFileSync path).
Proof. intros s. unfold readFileSync. destruct (fs s path) as [[x|]|]; reflexivity. Qed.

Lemma quiet_writeFileSync path content : quiet (writeFileSync path content).
Proof. intros s. unfold writeFileSync. destruct (fs s path) as [[x|]|]; reflexivity. Qed.

Lemma quiet_renameSync a b : quiet (renameSync a b).
Proof. intros s. unfold renameSync. destruct (fs s a); reflexivity. Qed.

End Quiet.

#[export] Hint Resolve quiet_ret quiet_throw quiet_console_log quiet_randomBytes
  quiet_askPassword quiet_askChoice quiet_query quiet_execute quiet_openDb
  quiet_existsSync_DB_PATH quiet_existsSync quiet_isDirectory quiet_readFileSync
  quiet_writeFileSync quiet_renameSync : quiet.

(** Decomposes a goal [quiet m] along the structure of [m]. *)
Ltac hush :=
  repeat first
    [ progress auto with quiet
    | apply quiet_bind; [| intro]
    | apply quiet_tryCatch; [| intro]
    | match goal with
      | |- quiet (if ?b then _ else _) => destruct b
      | |- quiet (match ?x with _ => _ end) => destruct x
      | |- quiet (let _ := _ in _) => cbv zeta
      end ].

Section QuietProgram.
Context {N : Node}.

Lemma quiet_checkDbState : quiet checkDbState.
Proof. unfold checkDbState, tableExists. hush. Qed.

Lemma quiet_encrypt plain key : quiet (encrypt plain key).
Proof. unfold encrypt, requireKeyLength. hush. Qed.

Lemma quiet_decrypt cipherText key : quiet (decrypt cipherText key).
Proof. unfold decrypt, requireKeyLength. hush. Qed.

Lemma quiet_decryptRows rows key : quiet (decryptRows rows key).
Proof.
  induction rows as [|r rest IH]; simpl; [hush|].
  pose proof quiet_decrypt. hush.
Qed.

Lemma quiet_insertEncrypted db records key : quiet (insertEncrypted db records key).
Proof.
  induction records as [|r rest IH]; simpl; [hush|].
  pose proof quiet_encrypt. hush.
Qed.

Lemma quiet_tryRollback db : quiet (tryRollback db).
Proof. unfold tryRollback. hush. Qed.

Lemma quiet_freshSalt : quiet freshSalt.
Proof. unfold freshSalt. hush. Qed.

Lemma quiet_printRows rows : quiet (printRows rows).
Proof. induction rows as [|[a b] rest IH]; simpl; hush. Qed.


End QuietProgram.

#[export] Hint Resolve quiet_checkDbState quiet_encrypt quiet_decrypt quiet_decryptRows
  quiet_insertEncrypted quiet_tryRollback quiet_freshSalt quiet_printRows : quiet.

Create HintDb failures.

Section QuietOrFails.
Context {N : Node}.




(** A [try] whose body is quiet. *)
Lemma quietOrFails_tryCatch_quiet A (m : M A) (h : Thrown -> M A) :
  quiet m -> (forall e, quietOrFails (h e)) -> quietOrFails (tryCatch m h).
Proof.
  intros Hm Hh s. unfold tryCatch. specialize (Hm s).
  destruct (m s) as [[a|e|c|] s1]; simpl in *; auto.
  destruct (Hh e s1) as [H|H]; [left; congruence|right; exact H].
Qed.




End QuietOrFails.


Section Stderr.
Context {N : Node}.



















End Stderr.

